(** * Derivation pipeline of the spirulina site dashboard

  A shallow embedding of the pure derivation functions of the dashboard
  ([cleanMarkdownBold] of [src/lib/utils.ts]; [extractKeyPoints],
  [extractSiteMetrics], [extractProteinPrediction],
  [generateGrowthSeriesFromMetrics] and the report file name of the
  dashboard page), with the properties of the written specification.

  Conventions of the embedding.
  - A JavaScript string is the list of its UTF-16 code units.
  - A JavaScript number is an extended real: [NaN], the two infinities, or
    a finite value carried as a real number; the special values follow
    IEEE 754.  The product whose first decimal is shown (the score of
    tier 1) is rounded to binary64 as the language rounds it
    ([JSNumber.round64]), and is stated of entries that are binary64
    numbers ([JSNumber.isBinary64]); [literal x] is the binary64 number a
    decimal literal is read as.  The growth heuristic is carried on the
    reals: what is proved of it are bounds and orderings at two decimals.
  - A property read on [undefined] or [null] raises a [TypeError], and so
    does the coercion of an object that has an entry [toString] of its
    own; the functions that read properties or coerce values therefore
    live in a small completion monad, and "does not raise" is a theorem
    about them. *)

From Stdlib Require Import Ascii String.
From Stdlib Require Import List Bool Arith ZArith NArith Lia.
From Stdlib Require Import Reals Lra.
From Equations Require Import Equations.
Import ListNotations.

Set Implicit Arguments.
Set Warnings "-register-all".

(* ===================================================================== *)
(** * JavaScript strings *)
(* ===================================================================== *)

Module JSString.

(** A string is its sequence of UTF-16 code units. *)
Definition t := list N.

(** The code units of an ASCII literal. *)
Definition lit (s : string) : t := List.map N_of_ascii (list_ascii_of_string s).

Definition ch (a : ascii) : N := N_of_ascii a.

Fixpoint eqb (a b : t) : bool :=
  match a, b with
  | [], [] => true
  | x :: a', y :: b' => N.eqb x y && eqb a' b'
  | _, _ => false
  end.

(** Code units. *)
Definition LF : N := 10.
Definition CR : N := 13.
Definition star : N := 42.        (* '*' *)
Definition hyphen : N := 45.      (* '-' *)
Definition dot : N := 46.         (* '.' *)
Definition rparen : N := 41.      (* ')' *)
Definition underscore : N := 95.  (* '_' *)

(** [LineTerminator]: the code units the regular-expression atom [.] does
    not match (no [s] flag). *)
Definition isLineTerminator (c : N) : bool :=
  N.eqb c 10 || N.eqb c 13 || N.eqb c 8232 || N.eqb c 8233.

(** [WhiteSpace] and [LineTerminator]: what [String.prototype.trim]
    strips and what the class [\s] matches. *)
Definition isWhiteSpace (c : N) : bool :=
  N.eqb c 9 || N.eqb c 10 || N.eqb c 11 || N.eqb c 12 || N.eqb c 13
  || N.eqb c 32 || N.eqb c 160 || N.eqb c 5760
  || (N.leb 8192 c && N.leb c 8202)
  || N.eqb c 8232 || N.eqb c 8233 || N.eqb c 8239 || N.eqb c 8287
  || N.eqb c 12288 || N.eqb c 65279.

(** The class [\d], also written [[0-9]]. *)
Definition isDigit (c : N) : bool := N.leb 48 c && N.leb c 57.

(** The class [\w] without the [u] and [i] flags: [[A-Za-z0-9_]]. *)
Definition isWord (c : N) : bool :=
  (N.leb 65 c && N.leb c 90) || (N.leb 97 c && N.leb c 122)
  || isDigit c || N.eqb c underscore.

Fixpoint dropWhile (p : N -> bool) (s : t) : t :=
  match s with
  | [] => []
  | c :: s' => if p c then dropWhile p s' else s
  end.

Definition trimStart (s : t) : t := dropWhile isWhiteSpace s.
Definition trimEnd (s : t) : t := rev (dropWhile isWhiteSpace (rev s)).

(** [s.trim()] *)
Definition trim (s : t) : t := trimEnd (trimStart s).

(** [s.split(sep)] for a separator of one code unit.  [cur] is the piece
    being read, in reverse. *)
Fixpoint splitAux (sep : N) (cur : t) (s : t) : list t :=
  match s with
  | [] => [rev cur]
  | c :: s' => if N.eqb c sep then rev cur :: splitAux sep [] s'
               else splitAux sep (c :: cur) s'
  end.

Definition split (sep : N) (s : t) : list t := splitAux sep [] s.

(** [s.startsWith(c)] for a pattern of one code unit. *)
Definition startsWith (c : N) (s : t) : bool :=
  match s with
  | x :: _ => N.eqb x c
  | [] => false
  end.

(** Truthiness of a string: the empty string is falsy. *)
Definition truthy (s : t) : bool :=
  match s with [] => false | _ :: _ => true end.

End JSString.

(* ===================================================================== *)
(** * JavaScript numbers *)
(* ===================================================================== *)

Module JSNumber.

Local Open Scope R_scope.

Inductive t : Type :=
| NaN
| PosInf
| NegInf
| Fin (x : R).

(** [Number.isFinite] *)
Definition isFinite (n : t) : bool :=
  match n with Fin _ => true | _ => false end.

Definition Rltb (x y : R) : bool := if Rlt_dec x y then true else false.
Definition Reqb (x y : R) : bool := if Req_dec_T x y then true else false.

(** [a < b]; every comparison with [NaN] is false. *)
Definition ltb (a b : t) : bool :=
  match a, b with
  | NaN, _ | _, NaN => false
  | _, NegInf => false
  | NegInf, _ => true
  | PosInf, _ => false
  | Fin _, PosInf => true
  | Fin x, Fin y => Rltb x y
  end.

(** [a > b] *)
Definition gtb (a b : t) : bool := ltb b a.

(** Truthiness of a number: [NaN] and zero are falsy. *)
Definition truthy (n : t) : bool :=
  match n with
  | NaN => false
  | Fin x => negb (Reqb x 0)
  | _ => true
  end.

Definition neg (a : t) : t :=
  match a with
  | NaN => NaN | PosInf => NegInf | NegInf => PosInf | Fin x => Fin (- x)
  end.

Definition add (a b : t) : t :=
  match a, b with
  | NaN, _ | _, NaN => NaN
  | PosInf, NegInf | NegInf, PosInf => NaN
  | PosInf, _ | _, PosInf => PosInf
  | NegInf, _ | _, NegInf => NegInf
  | Fin x, Fin y => Fin (x + y)
  end.

Definition sub (a b : t) : t := add a (neg b).

(** An infinity times a finite factor: the sign of the product, [NaN]
    for a zero factor. *)
Definition scaleInf (inf : t) (y : R) : t :=
  if Rltb 0 y then inf else if Rltb y 0 then neg inf else NaN.

Definition mul (a b : t) : t :=
  match a, b with
  | NaN, _ | _, NaN => NaN
  | Fin x, Fin y => Fin (x * y)
  | Fin x, inf => scaleInf inf x
  | inf, Fin y => scaleInf inf y
  | PosInf, PosInf | NegInf, NegInf => PosInf
  | PosInf, NegInf | NegInf, PosInf => NegInf
  end.

(** [Math.abs] *)
Definition abs (a : t) : t :=
  match a with
  | NaN => NaN
  | PosInf | NegInf => PosInf
  | Fin x => Fin (Rabs x)
  end.

(** [Math.min] and [Math.max]: [NaN] if an argument is [NaN]. *)
Definition min (a b : t) : t :=
  match a, b with
  | NaN, _ | _, NaN => NaN
  | _, _ => if ltb b a then b else a
  end.

Definition max (a b : t) : t :=
  match a, b with
  | NaN, _ | _, NaN => NaN
  | _, _ => if ltb a b then b else a
  end.

(** [Math.sin]: [NaN] outside the finite numbers. *)
Definition sin (a : t) : t :=
  match a with
  | Fin x => Fin (Rtrigo_def.sin x)
  | _ => NaN
  end.

(** Rounding of a real to [d] decimals, ties away from zero: the integer
    [n] for which [n / 10^d - x] is closest to zero, the larger one of
    two (taken on the absolute value, the sign put back). *)
Definition roundDecimals (d : nat) (x : R) : R :=
  if Rlt_dec x 0
  then - (IZR (Zfloor (- x * 10 ^ d + / 2)) / 10 ^ d)
  else IZR (Zfloor (x * 10 ^ d + / 2)) / 10 ^ d.

(** [Number(x.toFixed(d))]: the decimal string [toFixed] prints, read
    back as a number.  [NaN] and the infinities print as their names and
    read back unchanged.  (From 1e21 on [toFixed] prints the number in
    exponent notation, which reads back as the number; a binary64 value
    of that size is an integer, on which the rounding is the identity.) *)
Definition toFixedNumber (d : nat) (a : t) : t :=
  match a with
  | Fin x => Fin (roundDecimals d x)
  | other => other
  end.

(** [a / b].  Signed zeros are not modelled: a finite non-zero number
    over zero is taken as the infinity of its own sign. *)
Definition div (a b : t) : t :=
  match a, b with
  | NaN, _ | _, NaN => NaN
  | Fin x, Fin y =>
      if Reqb y 0 then (if Rltb 0 x then PosInf else if Rltb x 0 then NegInf else NaN)
      else Fin (x / y)
  | Fin _, _ => Fin 0
  | inf, Fin y => if Rltb y 0 then neg inf else inf
  | _, _ => NaN
  end.

(** [a || b] on numbers. *)
Definition orElse (a b : t) : t := if truthy a then a else b.

(** An array index or a length as a number. *)
Definition ofNat (n : nat) : t := Fin (INR n).

(** ** Rounding to binary64 *)

Definition pow2 (e : Z) : R := powerRZ 2 e.

(** The integer nearest to [y], the even one of two. *)
Definition nearestEven (y : R) : Z :=
  let f := Zfloor y in
  if Rlt_dec (y - IZR f) (/ 2) then f
  else if Rlt_dec (/ 2) (y - IZR f) then (f + 1)%Z
  else if Z.even f then f else (f + 1)%Z.

(** The binade of a positive real [a]: the [e] with [2^e <= a < 2^(e+1)]. *)
Definition binade (a : R) : Z := Zfloor (ln a / ln 2).

(** A real rounded to binary64, to nearest, ties to even (roundTiesToEven
    of IEEE 754): 53 significant bits in the binade of the number, binades
    from -1022 up (the numbers below [2^-1022] are spaced as that binade
    is, by [2^-1074]); a magnitude of [2^1024 - 2^970] or more rounds to
    the infinity of its sign.  Signed zeros are not modelled. *)
Definition round64 (x : R) : t :=
  let a := Rabs x in
  if Rle_dec (pow2 1024 - pow2 970) a
  then (if Rlt_dec x 0 then NegInf else PosInf)
  else
    let e := Z.max (-1022) (binade a) in
    let ulp := pow2 (e - 52) in
    let r := IZR (nearestEven (a / ulp)) * ulp in
    Fin (if Rlt_dec x 0 then - r else r).


(** [a * b] as the language computes it on binary64 numbers: the product,
    rounded to binary64. *)
Definition mul64 (a b : t) : t :=
  match mul a b with
  | Fin p => round64 p
  | other => other
  end.

End JSNumber.

Definition number : Type := JSNumber.t.
Definition jsstring : Type := JSString.t.

(* ===================================================================== *)
(** * JavaScript values, property reads and coercion *)
(* ===================================================================== *)

(** The values a response body can hold (with [undefined], which a missing
    property reads as).  An object lists its own properties; a key is looked
    up from the head of the list. *)
Inductive jsval : Type :=
| JUndefined
| JNull
| JBool (b : bool)
| JNum (n : number)
| JStr (s : jsstring)
| JArr (items : list jsval)
| JObj (fields : list (jsstring * jsval)).

Inductive jserror : Type :=
| TypeError.

(** The outcome of evaluating an expression: a value, or an exception. *)
Inductive completion (A : Type) : Type :=
| Normal (a : A)
| Throw (e : jserror).

Arguments Normal {A} a.
Arguments Throw {A} e.

Definition ret {A : Type} (a : A) : completion A := Normal a.

Definition bind {A B : Type} (c : completion A) (k : A -> completion B) : completion B :=
  match c with
  | Normal a => k a
  | Throw e => Throw e
  end.

Declare Scope completion_scope.
Delimit Scope completion_scope with completion.
Notation "x <- c ;; k" := (bind c (fun x => k))
  (at level 61, c at next level, right associativity) : completion_scope.
Local Open Scope completion_scope.

Fixpoint lookup (k : jsstring) (fields : list (jsstring * jsval)) : jsval :=
  match fields with
  | [] => JUndefined
  | (k', v) :: rest => if JSString.eqb k k' then v else lookup k rest
  end.

(** [v.k].  Reading a property of [undefined] or [null] throws.  A
    primitive or an array has no own property under the keys this program
    reads, and none of those keys names a prototype member, so the read
    gives [undefined]. *)
Definition Get (v : jsval) (k : jsstring) : completion jsval :=
  match v with
  | JUndefined | JNull => Throw TypeError
  | JObj fields => Normal (lookup k fields)
  | _ => Normal JUndefined
  end.

(** [v?.k] *)
Definition OptGet (v : jsval) (k : jsstring) : completion jsval :=
  match v with
  | JUndefined | JNull => Normal JUndefined
  | _ => Get v k
  end.

Definition isNullish (v : jsval) : bool :=
  match v with
  | JUndefined | JNull => true
  | _ => false
  end.

(** [a ?? b]: the right operand is evaluated only when the left one is
    [undefined] or [null]. *)
Definition coalesce (a b : completion jsval) : completion jsval :=
  x <- a ;; if isNullish x then b else ret x.

Notation "a ?? b" := (coalesce a b) (at level 50, left associativity) : completion_scope.

(** [Array.isArray(v) && v.length >= n] *)
Definition isArrayOfAtLeast (n : nat) (v : jsval) : bool :=
  match v with
  | JArr items => (n <=? length items)%nat
  | _ => false
  end.

Definition arrayItems (v : jsval) : list jsval :=
  match v with
  | JArr items => items
  | _ => []
  end.

(** [v === s] for a string literal [s]. *)
Definition strictEqualsString (v : jsval) (s : jsstring) : bool :=
  match v with
  | JStr x => JSString.eqb x s
  | _ => false
  end.

(** The one built-in this development leaves open: [StringToNumber], the
    reading of a string as a numeric literal. *)
Class Builtins : Type := {
  StringToNumber : jsstring -> number
}.

Definition key (s : string) : jsstring := JSString.lit s.

(** The object has an entry of its own under [k]. *)
Definition hasOwn (k : jsstring) (fields : list (jsstring * jsval)) : bool :=
  existsb (fun kv => JSString.eqb k (fst kv)) fields.

(** Whether a value can be converted to a primitive.  An object of a
    response converts through the inherited [toString], unless it has an
    entry [toString] of its own: that entry, not being a function, hides
    the inherited method, [valueOf] gives no primitive either, and the
    conversion throws a [TypeError].  An array converts by joining its
    elements, each of them converted in turn. *)
Fixpoint printable (v : jsval) : bool :=
  match v with
  | JArr items => forallb printable items
  | JObj fields => negb (hasOwn (key "toString") fields)
  | _ => true
  end.

(** [Number(v)].  An array is first printed by joining its elements with
    commas: the empty array prints as the empty string, which reads as 0; a
    one-element array prints as its element does ([undefined] and [null] as
    the empty string), and a number printed and read back is itself; a
    longer array prints with a comma, which no numeric literal contains.  An
    object prints as [[object Object]].  Where the printing throws, so does
    the coercion. *)
Fixpoint ToNumber `{Builtins} (v : jsval) : completion number :=
  match v with
  | JUndefined => ret JSNumber.NaN
  | JNull => ret (JSNumber.Fin 0)
  | JBool b => ret (if b then JSNumber.Fin 1 else JSNumber.Fin 0)
  | JNum n => ret n
  | JStr s => ret (StringToNumber s)
  | JArr [] => ret (JSNumber.Fin 0)
  | JArr [x] =>
      match x with
      | JUndefined | JNull => ret (JSNumber.Fin 0)
      | JBool _ => ret JSNumber.NaN
      | _ => ToNumber x
      end
  | JArr ((_ :: _ :: _) as items) =>
      if forallb printable items then ret JSNumber.NaN else Throw TypeError
  | JObj fields =>
      if hasOwn (key "toString") fields then Throw TypeError else ret JSNumber.NaN
  end.

(** [Array.from({ length: n }, (_, idx) => f(idx))] *)
Definition arrayFrom {A : Type} (n : nat) (f : nat -> A) : list A :=
  List.map f (seq 0 n).

(* ===================================================================== *)
(** * Text normalizer: [cleanMarkdownBold] (src/lib/utils.ts) *)
(* ===================================================================== *)

(** The argument type [string | undefined | null]. *)
Inductive optionalString : Type :=
| IsUndefined
| IsNull
| IsString (s : jsstring).

Definition isStar (c : N) : bool := N.eqb c JSString.star.

(** The tail [(.*?)\*\*] of the pattern, tried at the head of [t]: the
    shortest run of code units other than line terminators that is followed
    by two stars.  Gives the run (group 1) and what follows the match. *)
Fixpoint lazyUntilStars (t : jsstring) : option (jsstring * jsstring) :=
  match t with
  | [] => None
  | c1 :: t1 =>
      match t1 with
      | [] => None
      | c2 :: t2 =>
          if isStar c1 && isStar c2 then Some ([], t2)
          else if JSString.isLineTerminator c1 then None
          else match lazyUntilStars t1 with
               | Some (g, after) => Some (c1 :: g, after)
               | None => None
               end
      end
  end.

(** The pattern [/\*\*(.*?)\*\*/] tried at the head of [s]. *)
Definition matchBoldAt (s : jsstring) : option (jsstring * jsstring) :=
  match s with
  | c1 :: c2 :: t => if isStar c1 && isStar c2 then lazyUntilStars t else None
  | _ => None
  end.

Lemma lazyUntilStars_shorter (t g after : jsstring) :
  lazyUntilStars t = Some (g, after) -> (length after < length t)%nat.
Proof.
  revert g after; induction t as [|c1 t1 IH]; intros g after; simpl.
  - discriminate.
  - destruct t1 as [|c2 t2]; [discriminate|].
    destruct (isStar c1 && isStar c2).
    + intros E; injection E as _ <-. simpl. lia.
    + destruct (JSString.isLineTerminator c1); [discriminate|].
      destruct (lazyUntilStars (c2 :: t2)) as [[g' a']|] eqn:E; [|discriminate].
      intros E'; injection E' as _ <-.
      specialize (IH _ _ eq_refl). lia.
Qed.

Lemma matchBoldAt_shorter (s g after : jsstring) :
  matchBoldAt s = Some (g, after) -> (length after < length s)%nat.
Proof.
  destruct s as [|c1 [|c2 t]]; simpl; try discriminate.
  destruct (isStar c1 && isStar c2); [|discriminate].
  intros E. apply lazyUntilStars_shorter in E. lia.
Qed.

(** A value together with the equation that names it. *)
Definition inspect {A : Type} (a : A) : {b : A | a = b} := exist _ a eq_refl.

(** [s.replace(/\*\*(.*?)\*\*/g, "$1")]: scanning from the left, a match
    is replaced by its group 1 and the scan goes on after the match; where
    the pattern does not match, the code unit is kept. *)
Equations? replaceBold (s : jsstring) : jsstring by wf (length s) lt :=
replaceBold [] := [];
replaceBold (c :: rest) with inspect (matchBoldAt (c :: rest)) := {
  | exist _ (Some (g, after)) E => g ++ replaceBold after
  | exist _ None _ => c :: replaceBold rest }.
Proof.
  exact (matchBoldAt_shorter (c :: rest) E).
Qed.

Definition cleanMarkdownBold (input : optionalString) : jsstring :=
  match input with
  | IsString s => if negb (JSString.truthy s) then [] else replaceBold s
  | _ => []
  end.


(* ===================================================================== *)
(** * Dashboard: data model *)
(* ===================================================================== *)

Record SiteMetrics : Type := {
  temperature : number;
  ph : number;
  radiation : number;
  salinity : number
}.

Inductive ProteinLevel : Type :=
| Low
| Medium
| High.

Record ProteinPrediction : Type := {
  level : ProteinLevel;
  score : number
}.

Record GrowthPoint : Type := {
  day : number;
  doublingTime : number
}.

Definition IDEAL_METRICS : SiteMetrics := {|
  temperature := JSNumber.Fin 30;
  ph := JSNumber.Fin 9.0;
  radiation := JSNumber.Fin 16;
  salinity := JSNumber.Fin 3
|}.

(** [2.1 + Math.sin(idx / 2) * 0.25] on days [idx + 1], [idx] from 0 to 13. *)
Definition DEFAULT_GROWTH_SERIES : list GrowthPoint :=
  arrayFrom 14 (fun idx => {|
    day := JSNumber.add (JSNumber.ofNat idx) (JSNumber.Fin 1);
    doublingTime :=
      JSNumber.add (JSNumber.Fin 2.1)
        (JSNumber.mul (JSNumber.sin (JSNumber.div (JSNumber.ofNat idx) (JSNumber.Fin 2)))
                      (JSNumber.Fin 0.25))
  |}).

(* ===================================================================== *)
(** * Dashboard: [extractKeyPoints] *)
(* ===================================================================== *)

(** [/^[0-9]+\./.test(line)]: one or more digits, then a dot. *)
Definition startsWithNumberDot (line : jsstring) : bool :=
  match line with
  | c :: rest =>
      JSString.isDigit c
      && JSString.startsWith JSString.dot (JSString.dropWhile JSString.isDigit rest)
  | [] => false
  end.

Definition isBullet (line : jsstring) : bool :=
  JSString.startsWith JSString.star line
  || JSString.startsWith JSString.hyphen line
  || startsWithNumberDot line.

(** The class [[\*\-\d\.\)\s]]. *)
Definition isMarker (c : N) : bool :=
  N.eqb c JSString.star || N.eqb c JSString.hyphen || JSString.isDigit c
  || N.eqb c JSString.dot || N.eqb c JSString.rparen || JSString.isWhiteSpace c.

(** [line.replace(/^[\*\-\d\.\)\s]+/, "").trim()] *)
Definition stripMarkers (line : jsstring) : jsstring :=
  JSString.trim (JSString.dropWhile isMarker line).

Definition extractKeyPoints (cleaned : jsstring) : list jsstring :=
  if negb (JSString.truthy cleaned) then []
  else
    let rawLines :=
      filter (fun line => (0 <? length line)%nat)
        (map JSString.trim (JSString.split JSString.LF cleaned)) in
    let cleanedBullets :=
      filter (fun line => (5 <=? length line)%nat)
        (map stripMarkers (filter isBullet rawLines)) in
    let fallbackLines :=
      filter (fun line => (5 <=? length line)%nat)
        (map stripMarkers rawLines) in
    let source :=
      if (0 <? length cleanedBullets)%nat then cleanedBullets else fallbackLines in
    firstn 6 source.

(* ===================================================================== *)
(** * Dashboard: [extractSiteMetrics] and [extractProteinPrediction] *)
(* ===================================================================== *)

Definition emptyObject : jsval := JObj [].

(** [analysisRoot?.analysis ?? analysisRoot ?? {}] *)
Definition analysisInner (analysisRoot : jsval) : completion jsval :=
  OptGet analysisRoot (key "analysis") ?? ret analysisRoot ?? ret emptyObject.

Definition extractSiteMetrics `{Builtins} (analysisRoot : jsval)
  : completion (option SiteMetrics) :=
  inner <- analysisInner analysisRoot ;;
  climate <- Get inner (key "climate") ?? ret emptyObject ;;
  water <- Get inner (key "water_profile") ?? ret emptyObject ;;
  temperatureV <- Get climate (key "temperature") ?? Get climate (key "avg_temperature")
                    ?? Get climate (key "T2M") ;;
  temperature <- ToNumber temperatureV ;;
  radiationV <- Get climate (key "solar_radiation") ?? Get climate (key "radiation")
                  ?? Get climate (key "ALLSKY_SFC_SW_DWN") ;;
  radiation <- ToNumber radiationV ;;
  phV <- Get water (key "initial_pH") ?? Get water (key "ph") ?? Get water (key "pH") ;;
  ph <- ToNumber phV ;;
  salinityV <- Get water (key "salinity") ?? Get water (key "SALINITY") ;;
  salinity <- ToNumber salinityV ;;
  if negb (JSNumber.isFinite temperature)
     || negb (JSNumber.isFinite radiation)
     || negb (JSNumber.isFinite ph)
     || negb (JSNumber.isFinite salinity)
  then ret None
  else ret (Some {| temperature := temperature; ph := ph;
                    radiation := radiation; salinity := salinity |}).

Definition bands : list ProteinLevel := [Low; Medium; High].

(** The [forEach] over the confidence array: [acc] is [(maxVal, maxIdx)],
    [idx] the index of the head of [items]. *)
Fixpoint forEachMax `{Builtins} (items : list jsval) (idx : nat) (acc : number * nat)
  : completion (number * nat) :=
  match items with
  | [] => ret acc
  | v :: rest =>
      num <- ToNumber v ;;
      forEachMax rest (S idx)
        (if JSNumber.isFinite num && JSNumber.gtb num (fst acc) then (num, idx) else acc)
  end.

(** Tier 1, the body of [if (Array.isArray(confidence) && confidence.length >= 3)].
    [bands[...]] is read inside the array, [Math.min] keeping the index
    below its length.  The product [maxVal * 100] is the binary64 one:
    [toFixed(1)] shows its first decimal. *)
Definition confidenceTier `{Builtins} (confidence : list jsval)
  : completion ProteinPrediction :=
  first <- ToNumber (nth 0 confidence JUndefined) ;;
  let maxVal0 := JSNumber.orElse first (JSNumber.Fin 0) in
  found <- forEachMax confidence 0 (maxVal0, 0%nat) ;;
  let (maxVal, maxIdx) := found in
  let score :=
    if JSNumber.isFinite maxVal then JSNumber.mul64 maxVal (JSNumber.Fin 100)
    else JSNumber.Fin 0 in
  ret {| level := nth (Nat.min maxIdx (length bands - 1)) bands Low;
         score := JSNumber.toFixedNumber 1 score |}.

(** Tier 2, the body of [if (Number.isFinite(raw))]. *)
Definition biomassTier (raw : number) : ProteinPrediction :=
  {| level := if JSNumber.ltb raw (JSNumber.Fin 30) then Low
              else if JSNumber.ltb raw (JSNumber.Fin 70) then Medium
              else High;
     score := JSNumber.Fin 70 |}.

(** Tier 3, on [inner.cultivation_status]. *)
Definition statusTier (status : jsval) : option ProteinPrediction :=
  if strictEqualsString status (key "INVALID")
  then Some {| level := Low; score := JSNumber.Fin 60 |}
  else if strictEqualsString status (key "MARGINAL")
  then Some {| level := Medium; score := JSNumber.Fin 65 |}
  else if strictEqualsString status (key "VALID")
  then Some {| level := High; score := JSNumber.Fin 80 |}
  else None.

Definition extractProteinPrediction `{Builtins} (analysisRoot : jsval)
  : completion (option ProteinPrediction) :=
  inner <- analysisInner analysisRoot ;;
  biomass <- Get inner (key "biomass_prediction") ?? ret emptyObject ;;
  confidence <- Get biomass (key "confidence") ;;
  if isArrayOfAtLeast 3 confidence
  then
    prediction <- confidenceTier (arrayItems confidence) ;;
    ret (Some prediction)
  else
    rawV <- Get biomass (key "biomass_prediction") ;;
    raw <- ToNumber rawV ;;
    if JSNumber.isFinite raw
    then ret (Some (biomassTier raw))
    else
      status <- Get inner (key "cultivation_status") ;;
      ret (statusTier status).

(* ===================================================================== *)
(** * Dashboard: [generateGrowthSeriesFromMetrics] *)
(* ===================================================================== *)

Definition generateGrowthSeriesFromMetrics (metrics : option SiteMetrics)
  : list GrowthPoint :=
  match metrics with
  | None => DEFAULT_GROWTH_SERIES
  | Some m =>
      let tempScore := temperature m in
      let radiationScore := radiation m in
      let tempDelta := JSNumber.abs (JSNumber.sub tempScore (temperature IDEAL_METRICS)) in
      let radDelta := JSNumber.abs (JSNumber.sub radiationScore (radiation IDEAL_METRICS)) in
      let penalty :=
        JSNumber.add (JSNumber.mul tempDelta (JSNumber.Fin 0.03))
                     (JSNumber.mul radDelta (JSNumber.Fin 0.02)) in
      let baseDoubling :=
        JSNumber.max (JSNumber.Fin 1.2)
          (JSNumber.min (JSNumber.Fin 3.5) (JSNumber.add (JSNumber.Fin 1.8) penalty)) in
      arrayFrom 14 (fun idx =>
        let day := JSNumber.add (JSNumber.ofNat idx) (JSNumber.Fin 1) in
        let seasonal :=
          JSNumber.mul (JSNumber.sin (JSNumber.div day (JSNumber.Fin 2.5)))
                       (JSNumber.Fin 0.1) in
        let value := JSNumber.toFixedNumber 2 (JSNumber.add baseDoubling seasonal) in
        {| day := day; doublingTime := value |})
  end.

(* ===================================================================== *)
(** * Dashboard: the name of the downloaded report *)
(* ===================================================================== *)

(** The class [[^\w\-]]. *)
Definition isUnsafe (c : N) : bool :=
  negb (JSString.isWord c || N.eqb c JSString.hyphen).

(** [label.replace(/[^\w\-]+/g, "_")]: each maximal run of the class is
    matched once and replaced by one underscore.  [inRun] tells that the
    code unit before the head was part of a run. *)
Fixpoint replaceUnsafeRuns (inRun : bool) (label : jsstring) : jsstring :=
  match label with
  | [] => []
  | c :: rest =>
      if isUnsafe c
      then (if inRun then replaceUnsafeRuns true rest
            else JSString.underscore :: replaceUnsafeRuns true rest)
      else c :: replaceUnsafeRuns false rest
  end.

Definition safeNameOf (locationLabel : jsstring) : jsstring :=
  replaceUnsafeRuns false locationLabel.

(** [a || b] on strings. *)
Definition orElseString (a b : jsstring) : jsstring :=
  if JSString.truthy a then a else b.

(** The argument of [doc.save]. *)
Definition reportFileName (locationLabel : jsstring) : jsstring :=
  let safeName := safeNameOf locationLabel in
  key "spirulina_site_report_" ++ orElseString safeName (key "site") ++ key ".pdf".

(** [Boolean(v)]: what a condition makes of a value. *)
Definition ToBoolean (v : jsval) : bool :=
  match v with
  | JUndefined | JNull => false
  | JBool b => b
  | JNum n => JSNumber.truthy n
  | JStr s => JSString.truthy s
  | JArr _ | JObj _ => true
  end.

(** [a || b] on values. *)
Definition orElseValue (a b : jsval) : jsval := if ToBoolean a then a else b.

(** The component state [handleDownloadReport] reads.  The report text and
    the label are declared as strings, but [handleAnalyze] stores there
    what the response holds under [summary] and [location], of whatever
    type; the typed location comes from the input field and is a string. *)
Record ReportState : Type := {
  reportLocationLabel : jsval;
  locationText : jsstring;
  phdReport : jsval
}.

(** [cleanMarkdownBold(phdReport)] as the page evaluates it (line 472):
    on a value outside the declared type that is not falsy, [input.replace]
    is not a function. *)
Definition cleanMarkdownBoldOf (input : jsval) : completion jsstring :=
  match input with
  | JUndefined => ret (cleanMarkdownBold IsUndefined)
  | JNull => ret (cleanMarkdownBold IsNull)
  | JStr s => ret (cleanMarkdownBold (IsString s))
  | other => if ToBoolean other then Throw TypeError else ret []
  end.

(** The last two lines of [handleDownloadReport] on the label it holds:
    only a string has the method [replace]. *)
Definition reportFileNameOf (locationLabel : jsval) : completion jsstring :=
  match locationLabel with
  | JStr s => ret (reportFileName s)
  | _ => Throw TypeError
  end.

(** [handleDownloadReport], as the name of the file it saves: nothing when
    it returns at its first line.  [cleanedReport] is computed by the
    render that builds the handler; a throw there leaves no handler to
    call, and reads here as a throw of the handler.  The drawing of the
    pages between the first lines and the last two is jsPDF's and is taken
    to return. *)
Definition handleDownloadReport (st : ReportState) : completion (option jsstring) :=
  cleanedReport <- cleanMarkdownBoldOf (phdReport st) ;;
  if negb (JSString.truthy cleanedReport) && negb (ToBoolean (phdReport st))
  then ret None
  else
    let locationLabel :=
      orElseValue (orElseValue (reportLocationLabel st) (JStr (locationText st)))
        (JStr (key "Spirulina cultivation site")) in
    name <- reportFileNameOf locationLabel ;;
    ret (Some name).

(* ===================================================================== *)
(** * The payload as the specification reads it *)
(* ===================================================================== *)

(** The specification names fields of the payload by path.  These are the
    paths as total functions on values, without exceptions; the theorems
    below relate them to the code. *)

(** The value under key [k], [undefined] when there is none. *)
Definition prop (v : jsval) (k : jsstring) : jsval :=
  match v with
  | JObj fields => lookup k fields
  | _ => JUndefined
  end.

Definition orDefault (v d : jsval) : jsval := if isNullish v then d else v.

(** The analysis block: inside the [analysis] wrapper when there is one. *)
Definition innerOf (root : jsval) : jsval :=
  orDefault (orDefault (prop root (key "analysis")) root) emptyObject.

(** A sub-object of the analysis block, the empty object when missing. *)
Definition blockOf (root : jsval) (k : string) : jsval :=
  orDefault (prop (innerOf root) (key k)) emptyObject.

(** The first of the keys whose value is neither [undefined] nor [null];
    the value under the last key when there is none. *)
Fixpoint firstDefined (obj : jsval) (keys : list string) : jsval :=
  match keys with
  | [] => JUndefined
  | [k] => prop obj (key k)
  | k :: rest => orDefault (prop obj (key k)) (firstDefined obj rest)
  end.

Definition temperatureKeys : list string := ["temperature"; "avg_temperature"; "T2M"]%string.
Definition radiationKeys : list string :=
  ["solar_radiation"; "radiation"; "ALLSKY_SFC_SW_DWN"]%string.
Definition phKeys : list string := ["initial_pH"; "ph"; "pH"]%string.
Definition salinityKeys : list string := ["salinity"; "SALINITY"]%string.

(** The four readings, coerced. *)
Definition temperatureOf `{Builtins} (root : jsval) : completion number :=
  ToNumber (firstDefined (blockOf root "climate") temperatureKeys).
Definition radiationOf `{Builtins} (root : jsval) : completion number :=
  ToNumber (firstDefined (blockOf root "climate") radiationKeys).
Definition phOf `{Builtins} (root : jsval) : completion number :=
  ToNumber (firstDefined (blockOf root "water_profile") phKeys).
Definition salinityOf `{Builtins} (root : jsval) : completion number :=
  ToNumber (firstDefined (blockOf root "water_profile") salinityKeys).

(** The record of four coerced readings: there is one only when all four
    are finite. *)
Definition allOrNothing (t r p s : number) : option SiteMetrics :=
  if JSNumber.isFinite t && JSNumber.isFinite r && JSNumber.isFinite p
     && JSNumber.isFinite s
  then Some {| temperature := t; ph := p; radiation := r; salinity := s |}
  else None.

(** [biomass_prediction.confidence], [biomass_prediction.biomass_prediction]
    and [cultivation_status]. *)
Definition confidenceOf (root : jsval) : jsval :=
  prop (blockOf root "biomass_prediction") (key "confidence").
Definition biomassValueOf (root : jsval) : jsval :=
  prop (blockOf root "biomass_prediction") (key "biomass_prediction").
Definition statusOf (root : jsval) : jsval :=
  prop (innerOf root) (key "cultivation_status").

Definition isObject (v : jsval) : bool :=
  match v with
  | JObj _ => true
  | _ => false
  end.



(** The invariant of the data model: all four readings are finite. *)
Definition finiteMetrics (m : SiteMetrics) : Prop :=
  JSNumber.isFinite (temperature m) = true
  /\ JSNumber.isFinite (ph m) = true
  /\ JSNumber.isFinite (radiation m) = true
  /\ JSNumber.isFinite (salinity m) = true.

(** The growth heuristic as the specification writes it, on reals: the
    base [clamp(1.8 + penalty, 1.2, 3.5)] and the value of day [d]. *)
Definition clampedBase (t r : R) : R :=
  Rmax 1.2 (Rmin 3.5 (1.8 + (Rabs (t - 30) * 0.03 + Rabs (r - 16) * 0.02))).

Definition seasonalDoubling (base : R) (d : nat) : R :=
  JSNumber.roundDecimals 2 (base + Rtrigo_def.sin (INR d / 2.5) * 0.1).

Definition defaultDoubling (idx : nat) : R :=
  (2.1 + Rtrigo_def.sin (INR idx / 2) * 0.25)%R.

(** A site at the ideal but for a temperature of 1000 degrees. *)
Definition hotSite : SiteMetrics := {|
  temperature := JSNumber.Fin 1000;
  ph := JSNumber.Fin 9;
  radiation := JSNumber.Fin 16;
  salinity := JSNumber.Fin 3
|}.

(** A sample [StringToNumber] for worked examples: the empty string and
    the unsigned decimal integers. *)
Fixpoint digitsValue (acc : Z) (s : jsstring) : option Z :=
  match s with
  | [] => Some acc
  | c :: rest =>
      if JSString.isDigit c then digitsValue (10 * acc + (Z.of_N c - 48)) rest
      else None
  end.

Definition integerLiterals : Builtins := {|
  StringToNumber := fun s =>
    match digitsValue 0 s with
    | Some z => JSNumber.Fin (IZR z)
    | None => JSNumber.NaN
    end
|}.

(** ** Metrics *)

(** The keys of each of the four readings, with the block they live in. *)
Definition metricFields : list (string * list string) :=
  [("climate", temperatureKeys); ("climate", radiationKeys);
   ("water_profile", phKeys); ("water_profile", salinityKeys)]%string.

(** ** Bold runs *)



(** Every star of [g] is followed, inside [g], by a code unit that is not a
    star. *)
Fixpoint starsIsolated (g : jsstring) : bool :=
  match g with
  | [] => true
  | c1 :: g' =>
      (negb (isStar c1) || match g' with [] => false | c2 :: _ => negb (isStar c2) end)
      && starsIsolated g'
  end.

(** ** Key points *)

(** The steps of the specification, written from its words and not from
    the code.  Step 1: the text split on newlines, each line trimmed, the
    empty lines discarded. *)
Definition keyPointLines (text : jsstring) : list jsstring :=
  filter (fun line => negb (Nat.eqb (length line) 0))
    (map JSString.trim (JSString.split JSString.LF text)).

(** Step 2: a line is a bullet if it starts with [*], with [-], or with a
    numeric-dot pattern, digits followed by [.]. *)
Fixpoint digitsThenDot (line : jsstring) : bool :=
  match line with
  | d :: rest =>
      JSString.isDigit d
      && match rest with
         | c :: _ => N.eqb c JSString.dot || digitsThenDot rest
         | [] => false
         end
  | [] => false
  end.

Definition bulletLine (line : jsstring) : bool :=
  match line with
  | c :: _ => N.eqb c JSString.star || N.eqb c JSString.hyphen || digitsThenDot line
  | [] => false
  end.

(** Step 3: the leading markers are bullets, numbers, punctuation and
    white space; they are stripped and the rest is trimmed. *)
Definition leadingMarker (c : N) : bool :=
  (N.eqb c JSString.star || N.eqb c JSString.hyphen)
  || JSString.isDigit c
  || (N.eqb c JSString.dot || N.eqb c JSString.rparen)
  || JSString.isWhiteSpace c.

Fixpoint withoutLeadingMarkers (line : jsstring) : jsstring :=
  match line with
  | c :: rest => if leadingMarker c then withoutLeadingMarkers rest else line
  | [] => []
  end.

Definition keyPointOf (line : jsstring) : jsstring :=
  JSString.trim (withoutLeadingMarkers line).

(** Steps 3 and 4: markers stripped, items of at least 5 code units kept;
    from the bullet lines for the preferred set, from every line for the
    fallback set. *)
Definition keyPointCandidates (lines : list jsstring) : list jsstring :=
  filter (fun item => Nat.leb 5 (length item)) (map keyPointOf lines).

Definition preferredKeyPoints (text : jsstring) : list jsstring :=
  keyPointCandidates (filter bulletLine (keyPointLines text)).

Definition fallbackKeyPoints (text : jsstring) : list jsstring :=
  keyPointCandidates (keyPointLines text).

(** [xs] is [ys] with some elements left out, the order kept. *)
Inductive Subsequence {A : Type} : list A -> list A -> Prop :=
| Subsequence_nil : Subsequence [] []
| Subsequence_keep (x : A) (xs ys : list A) :
    Subsequence xs ys -> Subsequence (x :: xs) (x :: ys)
| Subsequence_drop (y : A) (xs ys : list A) :
    Subsequence xs ys -> Subsequence xs (y :: ys).

(** ** File name *)

(** The sanitizing read one code unit at a time: each code unit of the
    class replaced by an underscore, one for one. *)
Definition sanitizeEach (label : jsstring) : jsstring :=
  map (fun c => if isUnsafe c then JSString.underscore else c) label.

(** No two code units of the class stand side by side. *)
Fixpoint unsafeApart (label : jsstring) : bool :=
  match label with
  | c1 :: rest =>
      negb (isUnsafe c1 && match rest with c2 :: _ => isUnsafe c2 | [] => false end)
      && unsafeApart rest
  | [] => true
  end.

Definition reportPrefix : jsstring := key "spirulina_site_report_".
Definition reportSuffix : jsstring := key ".pdf".

(** ** Worked inputs *)

Definition newline : jsstring := [JSString.LF].

Definition eightBullets : jsstring :=
  JSString.lit "- first item" ++ newline ++ JSString.lit "- second item" ++ newline
  ++ JSString.lit "- third item" ++ newline ++ JSString.lit "- fourth item" ++ newline
  ++ JSString.lit "- fifth item" ++ newline ++ JSString.lit "- sixth item" ++ newline
  ++ JSString.lit "- seventh item" ++ newline ++ JSString.lit "- eighth item".

(** Prose and bullets mixed, the prose first; one bullet too short to
    keep. *)
Definition mixedNotes : jsstring :=
  JSString.lit "Site overview for the grower" ++ newline
  ++ JSString.lit "- Shade the pond at noon" ++ newline
  ++ JSString.lit "The water is slightly alkaline." ++ newline
  ++ JSString.lit "2. Raise salinity slowly" ++ newline
  ++ JSString.lit "* ok".


(** Worked payloads. *)
Definition num (x : R) : jsval := JNum (JSNumber.Fin x).

(** The number a numeric literal of decimal value [x] is read as: the
    binary64 number nearest to [x]. *)
Definition literal (x : R) : jsval := JNum (JSNumber.round64 x).
Definition str (s : string) : jsval := JStr (JSString.lit s).
Definition obj (fields : list (string * jsval)) : jsval :=
  JObj (map (fun kv => (key (fst kv), snd kv)) fields).

(** A full response, wrapped in [analysis], with old and new key names and
    one reading sent as a string. *)
Definition fullPayload : jsval :=
  obj [("analysis",
        obj [("climate", obj [("T2M", num 28.5); ("ALLSKY_SFC_SW_DWN", str "18")]);
             ("water_profile", obj [("pH", num 9.2); ("salinity", num 3)]);
             ("biomass_prediction",
              obj [("confidence", JArr [num 0.1; num 0.1; num 0.8; num 0.9]);
                   ("biomass_prediction", num 25)]);
             ("cultivation_status", str "VALID")])]%string.


(** A response without salinity and without a confidence vector. *)
Definition partialPayload : jsval :=
  obj [("climate", obj [("temperature", num 31); ("radiation", num 17)]);
       ("water_profile", obj [("ph", num 8)]);
       ("biomass_prediction", obj [("biomass_prediction", num 25)]);
       ("cultivation_status", str "MARGINAL")]%string.

(** A confidence vector without a single number in it, next to readings
    the later tiers would accept. *)
Definition noisyPayload : jsval :=
  obj [("biomass_prediction",
        obj [("confidence", JArr [str "n/a"; JUndefined; obj []]);
             ("biomass_prediction", num 80)]);
       ("cultivation_status", str "VALID")]%string.

(** An object with an entry [toString] of its own, as a response can
    hold it: [{"toString": 1}]. *)
Definition shadowingObject : jsval := obj [("toString", num 1)]%string.

(** A response complete but for its temperature, which is that object. *)
Definition unreadablePayload : jsval :=
  obj [("climate", obj [("temperature", shadowingObject); ("radiation", num 17)]);
       ("water_profile", obj [("ph", num 9); ("salinity", num 3)])]%string.

(** A confidence vector of three entries without a number, the first of
    them that object, next to readings the later tiers would accept. *)
Definition unreadableConfidence : jsval :=
  obj [("biomass_prediction",
        obj [("confidence", JArr [shadowingObject; str "x"; str "y"]);
             ("biomass_prediction", num 80)]);
       ("cultivation_status", str "VALID")]%string.

(* ===================================================================== *)
(** * Dashboard: values derived for the charts *)
(* ===================================================================== *)

(** [proteinNumericLevel]: the height of the protein bar, 0 without a
    prediction. *)
Definition proteinNumericLevel (proteinPrediction : option ProteinPrediction) : number :=
  match proteinPrediction with
  | Some p =>
      match level p with
      | Low => JSNumber.Fin 1
      | Medium => JSNumber.Fin 2
      | High => JSNumber.Fin 3
      end
  | None => JSNumber.Fin 0
  end.

(** A key point begins with no marker and ends with no white space. *)
Definition cleanEnds (item : jsstring) : Prop :=
  (forall c rest, item = c :: rest -> isMarker c = false)
  /\ (forall c front, item = front ++ [c] -> JSString.isWhiteSpace c = false).

(** The label [handleDownloadReport] names the file after: the label of
    the analysis when it is truthy, else the typed location when it is not
    empty, else the default label. *)
Definition locationLabelOf (st : ReportState) : jsval :=
  if ToBoolean (reportLocationLabel st) then reportLocationLabel st
  else
    match locationText st with
    | _ :: _ => JStr (locationText st)
    | [] => JStr (key "Spirulina cultivation site")
    end.

(** A record of zeros. *)
Definition zeroMetrics : SiteMetrics := {|
  temperature := JSNumber.Fin 0;
  ph := JSNumber.Fin 0;
  radiation := JSNumber.Fin 0;
  salinity := JSNumber.Fin 0
|}.

(** The response keeps the value of every reading under its last key
    name only, as [null]. *)
Definition nullPayload : jsval :=
  obj [("climate", obj [("T2M", JNull); ("ALLSKY_SFC_SW_DWN", JNull)]);
       ("water_profile", obj [("pH", JNull); ("SALINITY", JNull)])]%string.

(** A response with a non-numeric temperature under the first key name and
    a numeric one under the last. *)
Definition shadowedPayload : jsval :=
  obj [("climate", obj [("temperature", str "n/a"); ("T2M", num 28);
                        ("radiation", num 17)]);
       ("water_profile", obj [("ph", num 9); ("salinity", num 3)])]%string.

(** A response that gives the temperature under two of its key names. *)
Definition plainPayload : jsval :=
  obj [("climate", obj [("temperature", num 30); ("T2M", num 5); ("radiation", num 16)]);
       ("water_profile", obj [("ph", num 9); ("salinity", num 3)])]%string.

(** A response with a biomass value of 80 and nothing else. *)
Definition highBiomassPayload : jsval :=
  obj [("biomass_prediction", obj [("biomass_prediction", num 80)])]%string.

(** A running maximum the loop of tier 1 can hold when every finite entry
    lies between 0 and 1. *)
Definition unitOrInfinite (n : number) : Prop :=
  match n with
  | JSNumber.NaN => False
  | JSNumber.Fin m => (0 <= m <= 1)%R
  | _ => True
  end.

(* ===================================================================== *)
(** * Dashboard: [handleAnalyze] *)
(* ===================================================================== *)

Module Page.

(** The built-ins that print a number: [String(x)] and [x.toFixed(d)]. *)
Class Printers : Type := {
  NumberToString : number -> jsstring;
  NumberToFixed : nat -> number -> jsstring
}.

(** [Array.prototype.join] over a printer of elements: [undefined] and
    [null] print as the empty string. *)
Definition joinBy (toStr : jsval -> completion jsstring) (sep : jsstring)
  : list jsval -> completion jsstring :=
  fix go (items : list jsval) : completion jsstring :=
    let element (x : jsval) : completion jsstring :=
      match x with
      | JUndefined | JNull => ret []
      | _ => toStr x
      end in
    match items with
    | [] => ret []
    | [x] => element x
    | x :: rest =>
        (s <- element x ;; r <- go rest ;; ret (s ++ sep ++ r))%completion
    end.

(** [String(v)].  An object of a response prints as [[object Object]],
    unless it has an entry [toString] of its own: that entry, not being a
    function, hides the inherited method, and the conversion throws. *)
Fixpoint ToStringC `{Printers} (v : jsval) : completion jsstring :=
  match v with
  | JUndefined => ret (key "undefined")
  | JNull => ret (key "null")
  | JBool b => ret (if b then key "true" else key "false")
  | JNum n => ret (NumberToString n)
  | JStr s => ret s
  | JArr items => joinBy ToStringC (key ",") items
  | JObj fields =>
      if hasOwn (key "toString") fields then Throw TypeError
      else ret (key "[object Object]")
  end.

(** [target?.join(sep)]: [undefined] on [undefined] and [null]; on an
    array, the joined string; on anything else [join] is not a function. *)
Definition optJoin `{Printers} (target : jsval) (sep : jsstring) : completion jsval :=
  match target with
  | JUndefined | JNull => ret JUndefined
  | JArr items => (s <- joinBy ToStringC sep items ;; ret (JStr s))%completion
  | _ => Throw TypeError
  end.

Record Coordinates : Type := {
  lat : number;
  lng : number
}.

(** The state of the component.  The report text and the label are typed
    as strings but are set from the payload, so they hold any value. *)
Record State : Type := {
  locationText : jsstring;
  coordinates : option Coordinates;
  isLoading : bool;
  error : option jsstring;
  siteMetrics : option SiteMetrics;
  proteinPrediction : option ProteinPrediction;
  growthSeries : list GrowthPoint;
  reportLocationLabel : jsval;
  phdReport : jsval;
  hasRunAnalysis : bool
}.

(** The state of the first render. *)
Definition initialState : State := {|
  locationText := [];
  coordinates := None;
  isLoading := false;
  error := None;
  siteMetrics := None;
  proteinPrediction := None;
  growthSeries := DEFAULT_GROWTH_SERIES;
  reportLocationLabel := JStr [];
  phdReport := JStr [];
  hasRunAnalysis := false
|}.

Definition setIsLoading (b : bool) (st : State) : State := {|
  locationText := locationText st; coordinates := coordinates st;
  isLoading := b; error := error st; siteMetrics := siteMetrics st;
  proteinPrediction := proteinPrediction st; growthSeries := growthSeries st;
  reportLocationLabel := reportLocationLabel st; phdReport := phdReport st;
  hasRunAnalysis := hasRunAnalysis st |}.

Definition setError (e : option jsstring) (st : State) : State := {|
  locationText := locationText st; coordinates := coordinates st;
  isLoading := isLoading st; error := e; siteMetrics := siteMetrics st;
  proteinPrediction := proteinPrediction st; growthSeries := growthSeries st;
  reportLocationLabel := reportLocationLabel st; phdReport := phdReport st;
  hasRunAnalysis := hasRunAnalysis st |}.

Definition setSiteMetrics (m : option SiteMetrics) (st : State) : State := {|
  locationText := locationText st; coordinates := coordinates st;
  isLoading := isLoading st; error := error st; siteMetrics := m;
  proteinPrediction := proteinPrediction st; growthSeries := growthSeries st;
  reportLocationLabel := reportLocationLabel st; phdReport := phdReport st;
  hasRunAnalysis := hasRunAnalysis st |}.

Definition setProteinPrediction (p : option ProteinPrediction) (st : State) : State := {|
  locationText := locationText st; coordinates := coordinates st;
  isLoading := isLoading st; error := error st; siteMetrics := siteMetrics st;
  proteinPrediction := p; growthSeries := growthSeries st;
  reportLocationLabel := reportLocationLabel st; phdReport := phdReport st;
  hasRunAnalysis := hasRunAnalysis st |}.

Definition setGrowthSeries (g : list GrowthPoint) (st : State) : State := {|
  locationText := locationText st; coordinates := coordinates st;
  isLoading := isLoading st; error := error st; siteMetrics := siteMetrics st;
  proteinPrediction := proteinPrediction st; growthSeries := g;
  reportLocationLabel := reportLocationLabel st; phdReport := phdReport st;
  hasRunAnalysis := hasRunAnalysis st |}.

Definition setReportLocationLabel (v : jsval) (st : State) : State := {|
  locationText := locationText st; coordinates := coordinates st;
  isLoading := isLoading st; error := error st; siteMetrics := siteMetrics st;
  proteinPrediction := proteinPrediction st; growthSeries := growthSeries st;
  reportLocationLabel := v; phdReport := phdReport st;
  hasRunAnalysis := hasRunAnalysis st |}.

Definition setPhdReport (v : jsval) (st : State) : State := {|
  locationText := locationText st; coordinates := coordinates st;
  isLoading := isLoading st; error := error st; siteMetrics := siteMetrics st;
  proteinPrediction := proteinPrediction st; growthSeries := growthSeries st;
  reportLocationLabel := reportLocationLabel st; phdReport := v;
  hasRunAnalysis := hasRunAnalysis st |}.

Definition setHasRunAnalysis (b : bool) (st : State) : State := {|
  locationText := locationText st; coordinates := coordinates st;
  isLoading := isLoading st; error := error st; siteMetrics := siteMetrics st;
  proteinPrediction := proteinPrediction st; growthSeries := growthSeries st;
  reportLocationLabel := reportLocationLabel st; phdReport := phdReport st;
  hasRunAnalysis := b |}.

(** What a handler can throw: an exception of the code, or the rejection
    of the request. *)
Inductive thrown : Type :=
| FromCode (e : jserror)
| RequestRejected.

Inductive outcome (A : Type) : Type :=
| Done (a : A)
| Raised (t : thrown).

Arguments Done {A} a.
Arguments Raised {A} t.

(** A handler steps the state and completes or throws; the state reached
    before a throw stays. *)
Definition Handler (A : Type) : Type := State -> State * outcome A.

Definition hbind {A B : Type} (h : Handler A) (k : A -> Handler B) : Handler B :=
  fun st =>
    match h st with
    | (st', Done a) => k a st'
    | (st', Raised t) => (st', Raised t)
    end.

Definition lift {A : Type} (c : completion A) : Handler A :=
  fun st =>
    match c with
    | Normal a => (st, Done a)
    | Throw e => (st, Raised (FromCode e))
    end.

Definition set (f : State -> State) : Handler unit :=
  fun st => (f st, Done tt).

(** [await] of a request that resolves with a value or is rejected. *)
Definition await {A : Type} (response : option A) : Handler A :=
  fun st =>
    match response with
    | Some a => (st, Done a)
    | None => (st, Raised RequestRejected)
    end.

(** [try { body } catch { onError } finally { cleanup }], for a catch
    clause and a finally clause that do not throw. *)
Definition tryCatchFinally (body onError cleanup : Handler unit) : Handler unit :=
  fun st =>
    match body st with
    | (st1, Done _) => cleanup st1
    | (st1, Raised _) => hbind onError (fun _ => cleanup) st1
    end.

Declare Scope handler_scope.
Delimit Scope handler_scope with handler.
Notation "x <- c ;; k" := (hbind c (fun x => k))
  (at level 61, c at next level, right associativity) : handler_scope.
Notation "c ;;; k" := (hbind c (fun _ => k))
  (at level 61, right associativity) : handler_scope.

Definition missingLocationMessage : jsstring :=
  key "Please provide a location name or select a point on the map.".

Definition failureMessage : jsstring :=
  key "Unable to analyze this site at the moment. Please try again.".

(** The location sent with the request. *)
Definition synthesizedLocation `{Printers} (st : State) : jsstring :=
  match coordinates st with
  | Some c =>
      orElseString (locationText st) (key "Selected Site") ++ key " ("
      ++ NumberToFixed 3 (lat c) ++ key ", " ++ NumberToFixed 3 (lng c) ++ key ")"
  | None => JSString.trim (locationText st)
  end.

(** [analysisBlock?.formatted_text?.join("\n\n")] *)
Definition joinedText `{Printers} (analysisBlock : jsval) : completion jsval :=
  (formatted <- OptGet analysisBlock (key "formatted_text") ;;
   optJoin formatted [JSString.LF; JSString.LF])%completion.

(** The body of the [try] block.  [analyzeSite] is the request: it gives
    [response.data] when it resolves, nothing when it is rejected. *)
Definition analyzeBody `{Builtins} `{Printers}
    (analyzeSite : jsstring -> option jsval) (synthesized : jsstring) : Handler unit :=
  (set (setIsLoading true) ;;;
   set (setError None) ;;;
   data <- await (analyzeSite synthesized) ;;
   payload <- lift (ret data ?? ret emptyObject)%completion ;;
   mlWrapper <- lift (Get payload (key "analysis") ?? Get payload (key "data")
                      ?? ret payload)%completion ;;
   analysisBlock <- lift (OptGet mlWrapper (key "analysis") ?? ret mlWrapper
                          ?? ret emptyObject)%completion ;;
   rawSummary <- lift (joinedText analysisBlock ?? OptGet analysisBlock (key "summary")
                       ?? ret (JStr []))%completion ;;
   set (setPhdReport rawSummary) ;;;
   label <- lift (OptGet mlWrapper (key "location") ?? ret (JStr synthesized))%completion ;;
   set (setReportLocationLabel label) ;;;
   extractedMetrics <- lift (extractSiteMetrics mlWrapper) ;;
   extractedProtein <- lift (extractProteinPrediction mlWrapper) ;;
   set (setSiteMetrics extractedMetrics) ;;;
   set (setProteinPrediction extractedProtein) ;;;
   set (setGrowthSeries (generateGrowthSeriesFromMetrics extractedMetrics)) ;;;
   set (setHasRunAnalysis true))%handler.

Definition isSome {A : Type} (o : option A) : bool :=
  match o with Some _ => true | None => false end.

(** [handleAnalyze], as the state the component is left in once the
    handler has run to its end. *)
Definition handleAnalyze `{Builtins} `{Printers}
    (analyzeSite : jsstring -> option jsval) (st : State) : State :=
  let hasLocationInput := (0 <? length (JSString.trim (locationText st)))%nat in
  if negb hasLocationInput && negb (isSome (coordinates st))
  then setError (Some missingLocationMessage) st
  else
    let synthesized := synthesizedLocation st in
    fst (tryCatchFinally (analyzeBody analyzeSite synthesized)
                         (set (setError (Some failureMessage)))
                         (set (setIsLoading false)) st).

(** [disabled] of the Analyze button. *)
Definition analyzeDisabled (st : State) : bool :=
  isLoading st || (negb (JSString.truthy (locationText st)) && negb (isSome (coordinates st))).

(** Printers for worked examples: every number prints as [0]. *)
Definition zeroPrinters : Printers := {|
  NumberToString := fun _ => key "0";
  NumberToFixed := fun _ _ => key "0"
|}.

(** ** The handler as its outcome reads *)

(** [response.data ?? {}], then [payload.analysis ?? payload.data ?? payload]. *)
Definition mlWrapperOf (data : jsval) : jsval :=
  let payload := orDefault data emptyObject in
  orDefault (orDefault (prop payload (key "analysis")) (prop payload (key "data"))) payload.

(** The report text of the response: the joined [formatted_text], else the
    [summary], else the empty string. *)
Definition summaryOf `{Printers} (data : jsval) : completion jsval :=
  (joinedText (innerOf (mlWrapperOf data))
   ?? ret (prop (innerOf (mlWrapperOf data)) (key "summary"))
   ?? ret (JStr []))%completion.

(** The state after a failed analysis: the message, nothing loading, the
    rest as it was. *)
Definition failed (st : State) : State :=
  setIsLoading false (setError (Some failureMessage) st).

(** The state after an analysis that ran to its end. *)
Definition succeeded `{Builtins} `{Printers}
    (st : State) (data rawSummary : jsval)
    (metrics : option SiteMetrics) (protein : option ProteinPrediction) : State := {|
  locationText := locationText st;
  coordinates := coordinates st;
  isLoading := false;
  error := None;
  siteMetrics := metrics;
  proteinPrediction := protein;
  growthSeries := generateGrowthSeriesFromMetrics metrics;
  reportLocationLabel :=
    orDefault (prop (mlWrapperOf data) (key "location")) (JStr (synthesizedLocation st));
  phdReport := rawSummary;
  hasRunAnalysis := true
|}.

(** The handler is not stopped at its first lines. *)
Definition hasLocation (st : State) : Prop :=
  JSString.trim (locationText st) <> [] \/ coordinates st <> None.

(** What the page keeps true of the chart: the series drawn is the one of
    the metrics shown, and the metrics shown are finite. *)
Definition wellFormed (st : State) : Prop :=
  growthSeries st = generateGrowthSeriesFromMetrics (siteMetrics st)
  /\ (forall m, siteMetrics st = Some m -> finiteMetrics m).

(** Strings joined with a separator between them. *)
Fixpoint joinStrings (sep : jsstring) (parts : list jsstring) : jsstring :=
  match parts with
  | [] => []
  | [s] => s
  | s :: rest => s ++ sep ++ joinStrings sep rest
  end.

Definition blankLine : jsstring := [JSString.LF; JSString.LF].

(** The value under [formatted_text] in the analysis block of a response. *)
Definition formattedTextOf (data : jsval) : jsval :=
  prop (innerOf (mlWrapperOf data)) (key "formatted_text").

Definition isArray (v : jsval) : bool :=
  match v with
  | JArr _ => true
  | _ => false
  end.

(** A state with a location of three spaces, and a state with a typed
    location. *)
Definition blankState : State := {|
  locationText := JSString.lit "   ";
  coordinates := None;
  isLoading := false;
  error := None;
  siteMetrics := None;
  proteinPrediction := None;
  growthSeries := DEFAULT_GROWTH_SERIES;
  reportLocationLabel := JStr [];
  phdReport := JStr [];
  hasRunAnalysis := false
|}.

Definition typedState : State := {|
  locationText := JSString.lit " Nashik ";
  coordinates := None;
  isLoading := false;
  error := None;
  siteMetrics := None;
  proteinPrediction := None;
  growthSeries := DEFAULT_GROWTH_SERIES;
  reportLocationLabel := JStr [];
  phdReport := JStr [];
  hasRunAnalysis := false
|}.

End Page.

(** What [handleDownloadReport] reads of the state of the page. *)
Definition reportStateOf (st : Page.State) : ReportState := {|
  reportLocationLabel := Page.reportLocationLabel st;
  locationText := Page.locationText st;
  phdReport := Page.phdReport st
|}.

(* ===================================================================== *)
(** * Property reads never throw in the extractors *)
(* ===================================================================== *)

Lemma Get_prop (v : jsval) (k : jsstring) :
  isNullish v = false -> Get v k = Normal (prop v k).
Proof. destruct v; simpl; intros E; try discriminate; reflexivity. Qed.

Lemma orDefault_not_nullish (v d : jsval) :
  isNullish d = false -> isNullish (orDefault v d) = false.
Proof. unfold orDefault; intros Hd; destruct (isNullish v) eqn:E; assumption. Qed.

Lemma coalesce_Normal (x : jsval) (b : completion jsval) (d : jsval) :
  b = Normal d -> (Normal x ?? b) = Normal (orDefault x d).
Proof.
  intros ->. unfold coalesce, orDefault; simpl. destruct (isNullish x); reflexivity.
Qed.

Lemma innerOf_not_nullish (root : jsval) : isNullish (innerOf root) = false.
Proof. unfold innerOf. apply orDefault_not_nullish. reflexivity. Qed.

Lemma blockOf_not_nullish (root : jsval) (k : string) : isNullish (blockOf root k) = false.
Proof. unfold blockOf. apply orDefault_not_nullish. reflexivity. Qed.

Lemma analysisInner_innerOf (root : jsval) : analysisInner root = Normal (innerOf root).
Proof.
  unfold analysisInner, innerOf.
  assert (E : OptGet root (key "analysis") = Normal (prop root (key "analysis"))).
  { destruct root; reflexivity. }
  rewrite E.
  rewrite (coalesce_Normal _ (d := root)) by reflexivity.
  rewrite (coalesce_Normal _ (d := emptyObject)) by reflexivity.
  reflexivity.
Qed.

Lemma Get_block (root : jsval) (k : string) :
  (Get (innerOf root) (key k) ?? ret emptyObject) = Normal (blockOf root k).
Proof.
  rewrite Get_prop by apply innerOf_not_nullish.
  rewrite (coalesce_Normal _ (d := emptyObject)) by reflexivity.
  reflexivity.
Qed.

Lemma Get_three (obj : jsval) (k1 k2 k3 : string) :
  isNullish obj = false ->
  (Get obj (key k1) ?? Get obj (key k2) ?? Get obj (key k3))
  = Normal (firstDefined obj [k1; k2; k3]).
Proof.
  intros Hobj. rewrite !Get_prop by assumption.
  unfold coalesce, orDefault, firstDefined, orDefault; simpl.
  destruct (isNullish (prop obj (key k1))) eqn:E1; simpl.
  - destruct (isNullish (prop obj (key k2))) eqn:E2; simpl; reflexivity.
  - rewrite E1. reflexivity.
Qed.

Lemma Get_two (obj : jsval) (k1 k2 : string) :
  isNullish obj = false ->
  (Get obj (key k1) ?? Get obj (key k2)) = Normal (firstDefined obj [k1; k2]).
Proof.
  intros Hobj. rewrite !Get_prop by assumption.
  unfold coalesce, orDefault, firstDefined, orDefault; simpl.
  destruct (isNullish (prop obj (key k1))); reflexivity.
Qed.

(* ===================================================================== *)
(** * Coercion to a number *)
(* ===================================================================== *)

(** [Number(v)] returns on the values that can be printed, and throws a
    [TypeError] on the others. *)
Lemma ToNumber_outcome `{Builtins} (v : jsval) :
  if printable v then exists n, ToNumber v = Normal n
  else ToNumber v = Throw TypeError.
Proof.
  revert v. fix IH 1. intros v.
  destruct v as [| |b|n|s|items|fields]; try (simpl; eexists; reflexivity).
  - destruct items as [|x [|y rest]].
    + simpl. eexists; reflexivity.
    + specialize (IH x).
      change (printable (JArr [x])) with (printable x && true). rewrite andb_true_r.
      destruct x; try (simpl; eexists; reflexivity); exact IH.
    + change (printable (JArr (x :: y :: rest))) with (forallb printable (x :: y :: rest)).
      change (ToNumber (JArr (x :: y :: rest)))
        with (if forallb printable (x :: y :: rest)
              then ret JSNumber.NaN else Throw TypeError).
      destruct (forallb printable (x :: y :: rest)); [eexists|]; reflexivity.
  - simpl. destruct (hasOwn (key "toString") fields); simpl; [|eexists]; reflexivity.
Qed.

Lemma ToNumber_printable `{Builtins} (v : jsval) :
  printable v = true -> exists n, ToNumber v = Normal n.
Proof. intros Hv. pose proof (ToNumber_outcome v) as Ho. rewrite Hv in Ho. exact Ho. Qed.

Lemma ToNumber_unprintable `{Builtins} (v : jsval) :
  printable v = false -> ToNumber v = Throw TypeError.
Proof. intros Hv. pose proof (ToNumber_outcome v) as Ho. rewrite Hv in Ho. exact Ho. Qed.

Lemma ToNumber_Normal `{Builtins} (v : jsval) (n : number) :
  ToNumber v = Normal n -> printable v = true.
Proof.
  intros Hn. pose proof (ToNumber_outcome v) as Ho.
  destruct (printable v); [reflexivity|]. rewrite Hn in Ho. discriminate.
Qed.

Lemma ToNumber_Throw `{Builtins} (v : jsval) (e : jserror) :
  ToNumber v = Throw e -> printable v = false.
Proof.
  intros He. pose proof (ToNumber_outcome v) as Ho.
  destruct (printable v); [|reflexivity]. destruct Ho as [n Hn].
  rewrite Hn in He. discriminate.
Qed.

(** [extractSiteMetrics] as a function of the four resolved readings. *)
Lemma extractSiteMetrics_resolved `{Builtins} (root : jsval) :
  extractSiteMetrics root
  = (t <- temperatureOf root ;;
     r <- radiationOf root ;;
     p <- phOf root ;;
     s <- salinityOf root ;;
     ret (allOrNothing t r p s)).
Proof.
  unfold extractSiteMetrics, temperatureOf, radiationOf, phOf, salinityOf,
    temperatureKeys, radiationKeys, phKeys, salinityKeys.
  rewrite analysisInner_innerOf; cbn [bind].
  rewrite (Get_block root "climate"); cbn [bind].
  rewrite (Get_block root "water_profile"); cbn [bind].
  rewrite (@Get_three (blockOf root "climate") "temperature" "avg_temperature" "T2M")
    by apply blockOf_not_nullish; cbn [bind].
  destruct (ToNumber (firstDefined (blockOf root "climate") _)) as [t|e]; cbn [bind];
    [|reflexivity].
  rewrite (@Get_three (blockOf root "climate") "solar_radiation" "radiation" "ALLSKY_SFC_SW_DWN")
    by apply blockOf_not_nullish; cbn [bind].
  destruct (ToNumber (firstDefined (blockOf root "climate") _)) as [r|e]; cbn [bind];
    [|reflexivity].
  rewrite (@Get_three (blockOf root "water_profile") "initial_pH" "ph" "pH")
    by apply blockOf_not_nullish; cbn [bind].
  destruct (ToNumber (firstDefined (blockOf root "water_profile") _)) as [p|e]; cbn [bind];
    [|reflexivity].
  rewrite (@Get_two (blockOf root "water_profile") "salinity" "SALINITY")
    by apply blockOf_not_nullish; cbn [bind].
  destruct (ToNumber (firstDefined (blockOf root "water_profile") _)) as [s|e]; cbn [bind];
    [|reflexivity].
  unfold allOrNothing, ret.
  destruct (JSNumber.isFinite t), (JSNumber.isFinite r), (JSNumber.isFinite p),
    (JSNumber.isFinite s); reflexivity.
Qed.

(** [extractProteinPrediction] as a function of the three fields it reads. *)
Lemma extractProteinPrediction_tiers `{Builtins} (root : jsval) :
  extractProteinPrediction root
  = if isArrayOfAtLeast 3 (confidenceOf root)
    then (prediction <- confidenceTier (arrayItems (confidenceOf root)) ;;
          ret (Some prediction))
    else (raw <- ToNumber (biomassValueOf root) ;;
          ret (if JSNumber.isFinite raw then Some (biomassTier raw)
               else statusTier (statusOf root))).
Proof.
  unfold extractProteinPrediction.
  rewrite analysisInner_innerOf; cbn [bind].
  rewrite (Get_block root "biomass_prediction"); cbn [bind].
  rewrite !Get_prop by (apply blockOf_not_nullish || apply innerOf_not_nullish).
  cbn [bind]. fold (confidenceOf root). fold (biomassValueOf root).
  destruct (isArrayOfAtLeast 3 (confidenceOf root)); [reflexivity|].
  destruct (ToNumber (biomassValueOf root)) as [raw|e]; cbn [bind]; [|reflexivity].
  fold (statusOf root). unfold ret.
  destruct (JSNumber.isFinite raw); reflexivity.
Qed.

(* ===================================================================== *)
(** * Comparison and rounding of reals *)
(* ===================================================================== *)

Section RealKit.

Local Open Scope R_scope.

Lemma Rltb_true (x y : R) : x < y -> JSNumber.Rltb x y = true.
Proof. intros Hlt; unfold JSNumber.Rltb; destruct (Rlt_dec x y); [reflexivity | contradiction]. Qed.

Lemma Rltb_false (x y : R) : y <= x -> JSNumber.Rltb x y = false.
Proof. intros Hle; unfold JSNumber.Rltb; destruct (Rlt_dec x y); [lra | reflexivity]. Qed.

Lemma Reqb_true (x y : R) : x = y -> JSNumber.Reqb x y = true.
Proof. intros E; unfold JSNumber.Reqb; destruct (Req_dec_T x y); [reflexivity | contradiction]. Qed.

Lemma Reqb_false (x y : R) : x <> y -> JSNumber.Reqb x y = false.
Proof. intros E; unfold JSNumber.Reqb; destruct (Req_dec_T x y); [contradiction | reflexivity]. Qed.

Lemma pow10_pos (d : nat) : 0 < 10 ^ d.
Proof. apply pow_lt; lra. Qed.

(** The value of the rounding, from the integer it lands on. *)
Lemma roundDecimals_eq (d : nat) (x : R) (z : Z) :
  0 <= x -> IZR z <= x * 10 ^ d + / 2 < IZR z + 1 ->
  JSNumber.roundDecimals d x = IZR z / 10 ^ d.
Proof.
  intros Hx Hz. unfold JSNumber.roundDecimals.
  destruct (Rlt_dec x 0); [lra|].
  rewrite (Zfloor_eq z); [reflexivity | exact Hz].
Qed.

(** Rounding lands on a multiple of [10^-d] at most half a unit away. *)
Lemma roundDecimals_close (d : nat) (x : R) :
  exists n : Z, JSNumber.roundDecimals d x = IZR n / 10 ^ d
                /\ Rabs (JSNumber.roundDecimals d x - x) <= / 2 / 10 ^ d.
Proof.
  pose proof (pow10_pos d) as Hp.
  unfold JSNumber.roundDecimals. destruct (Rlt_dec x 0) as [Hneg|Hpos].
  - pose proof (Zfloor_bound (- x * 10 ^ d + / 2)) as [Hlo Hhi].
    exists (- Zfloor (- x * 10 ^ d + / 2))%Z. split.
    + rewrite opp_IZR. field. lra.
    + set (f := IZR (Zfloor (- x * 10 ^ d + / 2))) in *.
      replace (- (f / 10 ^ d) - x) with ((- x * 10 ^ d - f) / 10 ^ d) by (field; lra).
      unfold Rdiv at 1. rewrite Rabs_mult, (Rabs_pos_eq (/ 10 ^ d)).
      * apply Rmult_le_compat_r.
        -- left; apply Rinv_0_lt_compat; exact Hp.
        -- apply Rabs_le; lra.
      * left; apply Rinv_0_lt_compat; exact Hp.
  - pose proof (Zfloor_bound (x * 10 ^ d + / 2)) as [Hlo Hhi].
    exists (Zfloor (x * 10 ^ d + / 2)). split; [reflexivity|].
    set (f := IZR (Zfloor (x * 10 ^ d + / 2))) in *.
    replace (f / 10 ^ d - x) with ((f - x * 10 ^ d) / 10 ^ d) by (field; lra).
    unfold Rdiv at 1. rewrite Rabs_mult, (Rabs_pos_eq (/ 10 ^ d)).
    + apply Rmult_le_compat_r.
      * left; apply Rinv_0_lt_compat; exact Hp.
      * apply Rabs_le; lra.
    + left; apply Rinv_0_lt_compat; exact Hp.
Qed.

(** Rounding stays between two multiples of [10^-d] that enclose its
    argument. *)
Lemma roundDecimals_between (d : nat) (x : R) (a b : Z) :
  0 <= IZR a -> IZR a / 10 ^ d <= x <= IZR b / 10 ^ d ->
  IZR a / 10 ^ d <= JSNumber.roundDecimals d x <= IZR b / 10 ^ d.
Proof.
  intros Ha [Hlo Hhi]. pose proof (pow10_pos d) as Hp.
  assert (Hax : IZR a <= x * 10 ^ d).
  { apply (Rmult_le_compat_r (10 ^ d)) in Hlo; [|lra].
    unfold Rdiv in Hlo. rewrite Rmult_assoc, Rinv_l, Rmult_1_r in Hlo; lra. }
  assert (Hxb : x * 10 ^ d <= IZR b).
  { apply (Rmult_le_compat_r (10 ^ d)) in Hhi; [|lra].
    unfold Rdiv in Hhi. rewrite Rmult_assoc, Rinv_l, Rmult_1_r in Hhi; lra. }
  assert (Hx : 0 <= x).
  { apply Rle_trans with (IZR a / 10 ^ d); [|exact Hlo].
    apply Rmult_le_pos; [exact Ha | left; apply Rinv_0_lt_compat; exact Hp]. }
  unfold JSNumber.roundDecimals. destruct (Rlt_dec x 0); [lra|].
  pose proof (Zfloor_bound (x * 10 ^ d + / 2)) as [Hfl Hfu].
  assert (Hge : (a <= Zfloor (x * 10 ^ d + / 2))%Z) by (apply Zfloor_lub; lra).
  assert (Hle : (Zfloor (x * 10 ^ d + / 2) <= b)%Z).
  { apply Z.lt_succ_r. apply lt_IZR. rewrite succ_IZR. lra. }
  apply IZR_le in Hge, Hle.
  split; apply Rmult_le_compat_r; try (left; apply Rinv_0_lt_compat; exact Hp); assumption.
Qed.

End RealKit.

(* ===================================================================== *)
(** * Rounding to binary64 *)
(* ===================================================================== *)

(** Powers of two written out, for [lra]. *)
Ltac norm_pow :=
  repeat match goal with
         | |- context [(2 ^ ?k)%Z] =>
             let v := eval vm_compute in (2 ^ k)%Z in change (2 ^ k)%Z with v
         end.

Section Binary64.

Local Open Scope R_scope.

Lemma pow2_pos (e : Z) : 0 < JSNumber.pow2 e.
Proof. apply powerRZ_lt; lra. Qed.

Lemma pow2_add (a b : Z) : JSNumber.pow2 (a + b) = JSNumber.pow2 a * JSNumber.pow2 b.
Proof. apply powerRZ_add; lra. Qed.

Lemma pow2_nat (n : nat) : JSNumber.pow2 (Z.of_nat n) = 2 ^ n.
Proof. unfold JSNumber.pow2. symmetry. apply pow_powerRZ. Qed.

Lemma pow2_ge_1 (e : Z) : (0 <= e)%Z -> 1 <= JSNumber.pow2 e.
Proof.
  intros He. rewrite <- (Z2Nat.id e He), pow2_nat. apply pow_R1_Rle; lra.
Qed.

Lemma pow2_le (a b : Z) : (a <= b)%Z -> JSNumber.pow2 a <= JSNumber.pow2 b.
Proof.
  intros Hab. replace b with (a + (b - a))%Z by lia. rewrite pow2_add.
  pose proof (pow2_pos a). pose proof (@pow2_ge_1 (b - a)%Z ltac:(lia)). nra.
Qed.

Lemma pow2_IZR (e : Z) : (0 <= e)%Z -> JSNumber.pow2 e = IZR (2 ^ e).
Proof.
  intros He. rewrite <- (Z2Nat.id e He) at 1. rewrite pow2_nat, pow_IZR.
  rewrite Z2Nat.id by exact He. reflexivity.
Qed.

Lemma pow2_inv (e : Z) : / JSNumber.pow2 e = JSNumber.pow2 (- e).
Proof.
  pose proof (pow2_pos e) as Hp.
  apply Rmult_eq_reg_l with (JSNumber.pow2 e); [|lra].
  rewrite Rinv_r by lra. rewrite <- pow2_add.
  replace (e + - e)%Z with 0%Z by lia. reflexivity.
Qed.

Lemma ln_2_pos : 0 < ln 2.
Proof. pose proof ln_lt_2. lra. Qed.

Lemma ln_pow2 (e : Z) : ln (JSNumber.pow2 e) = IZR e * ln 2.
Proof. unfold JSNumber.pow2. rewrite powerRZ_Rpower by lra. apply ln_Rpower. Qed.

(** The binade of a number between two successive powers of two. *)
Lemma binade_eq (a : R) (e : Z) :
  JSNumber.pow2 e <= a < JSNumber.pow2 (e + 1) -> JSNumber.binade a = e.
Proof.
  intros [Hlo Hhi]. pose proof (pow2_pos e) as Hp. pose proof ln_2_pos as Hl.
  assert (H1 : IZR e * ln 2 <= ln a).
  { rewrite <- ln_pow2. destruct Hlo as [Hlt | <-]; [|lra].
    left. apply ln_increasing; assumption. }
  assert (H2 : ln a < (IZR e + 1) * ln 2).
  { rewrite <- plus_IZR, <- ln_pow2. apply ln_increasing; lra. }
  unfold JSNumber.binade. apply Zfloor_eq. split.
  - apply Rmult_le_reg_r with (ln 2); [exact Hl|].
    unfold Rdiv. rewrite Rmult_assoc, Rinv_l, Rmult_1_r by lra. exact H1.
  - apply Rmult_lt_reg_r with (ln 2); [exact Hl|].
    unfold Rdiv. rewrite Rmult_assoc, Rinv_l, Rmult_1_r by lra. exact H2.
Qed.

Lemma binade_below (a : R) (k : Z) :
  0 < a -> a < JSNumber.pow2 (k + 1) -> (JSNumber.binade a <= k)%Z.
Proof.
  intros Ha Hhi. pose proof ln_2_pos as Hl.
  assert (H2 : ln a < (IZR k + 1) * ln 2).
  { rewrite <- plus_IZR, <- ln_pow2. apply ln_increasing; lra. }
  unfold JSNumber.binade.
  pose proof (Zfloor_bound (ln a / ln 2)) as [Hfl _].
  assert (H3 : ln a / ln 2 < IZR k + 1).
  { apply Rmult_lt_reg_r with (ln 2); [exact Hl|].
    unfold Rdiv. rewrite Rmult_assoc, Rinv_l, Rmult_1_r by lra. exact H2. }
  apply Z.lt_succ_r. apply lt_IZR. rewrite succ_IZR. lra.
Qed.

Lemma nearestEven_close (y : R) :
  IZR (JSNumber.nearestEven y) - / 2 <= y <= IZR (JSNumber.nearestEven y) + / 2.
Proof.
  unfold JSNumber.nearestEven. pose proof (Zfloor_bound y) as [Hlo Hhi].
  destruct (Rlt_dec (y - IZR (Zfloor y)) (/ 2)); [lra|].
  destruct (Rlt_dec (/ 2) (y - IZR (Zfloor y))); [rewrite plus_IZR; lra|].
  destruct (Z.even (Zfloor y)); [lra | rewrite plus_IZR; lra].
Qed.

Lemma nearestEven_eq (y : R) (n : Z) :
  IZR n - / 2 < y < IZR n + / 2 -> JSNumber.nearestEven y = n.
Proof.
  intros Hn. pose proof (nearestEven_close y) as Hc.
  destruct (Z.lt_trichotomy (JSNumber.nearestEven y) n) as [H | [H | H]]; [|exact H|].
  - exfalso. apply Zlt_le_succ, IZR_le in H. rewrite succ_IZR in H. lra.
  - exfalso. apply Zlt_le_succ, IZR_le in H. rewrite succ_IZR in H. lra.
Qed.

Lemma nearestEven_int (z : Z) : JSNumber.nearestEven (IZR z) = z.
Proof. apply nearestEven_eq. lra. Qed.

Lemma nearestEven_le (y : R) (n : Z) : y <= IZR n -> (JSNumber.nearestEven y <= n)%Z.
Proof.
  intros Hy. pose proof (nearestEven_close y) as Hc.
  destruct (Z_le_gt_dec (JSNumber.nearestEven y) n) as [H | H]; [exact H|].
  exfalso. apply Z.gt_lt, Zlt_le_succ, IZR_le in H. rewrite succ_IZR in H. lra.
Qed.

Lemma nearestEven_ge (y : R) (n : Z) : IZR n <= y -> (n <= JSNumber.nearestEven y)%Z.
Proof.
  intros Hy. pose proof (nearestEven_close y) as Hc.
  destruct (Z_le_gt_dec n (JSNumber.nearestEven y)) as [H | H]; [exact H|].
  exfalso. apply Z.gt_lt, Zlt_le_succ, IZR_le in H. rewrite succ_IZR in H. lra.
Qed.

(** Numbers up to [2^53] are far below the overflow threshold. *)
Lemma below_overflow (x : R) :
  x <= JSNumber.pow2 53 -> x < JSNumber.pow2 1024 - JSNumber.pow2 970.
Proof.
  intros Hx.
  assert (E1 : JSNumber.pow2 1024 = JSNumber.pow2 970 * JSNumber.pow2 54)
    by (rewrite <- pow2_add; reflexivity).
  assert (E2 : JSNumber.pow2 54 = JSNumber.pow2 53 * 2)
    by (change 54%Z with (53 + 1)%Z; rewrite pow2_add; f_equal; unfold JSNumber.pow2; simpl; lra).
  pose proof (@pow2_ge_1 970%Z ltac:(lia)) as H970.
  assert (H53 : 2 <= JSNumber.pow2 53).
  { apply Rle_trans with (JSNumber.pow2 1); [|apply pow2_le; lia].
    unfold JSNumber.pow2; simpl; lra. }
  rewrite E1, E2.
  assert (Hprod : 1 * (JSNumber.pow2 53 * 2 - 1)
                  <= JSNumber.pow2 970 * (JSNumber.pow2 53 * 2 - 1)).
  { apply Rmult_le_compat_r; lra. }
  lra.
Qed.

(** Below the threshold the rounding is finite: the nearest multiple of
    the spacing of the binade. *)
Lemma round64_finite (x : R) :
  0 <= x -> x < JSNumber.pow2 1024 - JSNumber.pow2 970 ->
  JSNumber.round64 x
  = JSNumber.Fin
      (IZR (JSNumber.nearestEven
              (x / JSNumber.pow2 (Z.max (-1022) (JSNumber.binade x) - 52)))
       * JSNumber.pow2 (Z.max (-1022) (JSNumber.binade x) - 52)).
Proof.
  intros Hx Hlt. unfold JSNumber.round64. rewrite (Rabs_pos_eq x Hx).
  destruct (Rle_dec (JSNumber.pow2 1024 - JSNumber.pow2 970) x); [lra|].
  destruct (Rlt_dec x 0); [lra | reflexivity].
Qed.

(** The rounding of a number in binade [e], from the integer its
    significand lands on. *)
Lemma round64_at (x : R) (e n : Z) :
  JSNumber.pow2 e <= x < JSNumber.pow2 (e + 1) -> (-1022 <= e <= 52)%Z ->
  IZR n - / 2 < x / JSNumber.pow2 (e - 52) < IZR n + / 2 ->
  JSNumber.round64 x = JSNumber.Fin (IZR n * JSNumber.pow2 (e - 52)).
Proof.
  intros Hx He Hn. pose proof (pow2_pos e) as Hp.
  rewrite round64_finite.
  - rewrite (@binade_eq x e Hx), Z.max_r by lia. rewrite (@nearestEven_eq _ n Hn). reflexivity.
  - lra.
  - apply below_overflow. apply Rle_trans with (JSNumber.pow2 (e + 1)); [lra|].
    apply pow2_le. lia.
Qed.

(** Whole numbers below [2^53] are binary64 numbers. *)
Lemma round64_integer (z : Z) :
  (0 <= z < 2 ^ 53)%Z -> JSNumber.round64 (IZR z) = JSNumber.Fin (IZR z).
Proof.
  intros [Hz0 Hz].
  destruct (Z.eq_dec z 0) as [-> | Hnz].
  - rewrite round64_finite; [|lra|apply below_overflow; pose proof (pow2_pos 53); lra].
    unfold Rdiv. rewrite Rmult_0_l.
    rewrite (nearestEven_int 0). rewrite Rmult_0_l. reflexivity.
  - assert (Hpos : (0 < z)%Z) by lia.
    pose proof (Z.log2_spec z Hpos) as [Hlo Hhi].
    pose proof (Z.log2_nonneg z) as Hnn.
    assert (Hle : (Z.log2 z <= 52)%Z).
    { apply Z.lt_succ_r. apply Z.log2_lt_pow2; [exact Hpos | exact Hz]. }
    set (e := Z.log2 z) in *.
    replace (IZR z) with (IZR (z * 2 ^ (52 - e)) * JSNumber.pow2 (e - 52)) at 2.
    + apply round64_at.
      * rewrite !pow2_IZR by lia. split; [apply IZR_le | apply IZR_lt].
        -- exact Hlo.
        -- replace (e + 1)%Z with (Z.succ e) by lia. exact Hhi.
      * lia.
      * unfold Rdiv. rewrite pow2_inv. replace (- (e - 52))%Z with (52 - e)%Z by lia.
        rewrite mult_IZR, (@pow2_IZR (52 - e)%Z) by lia. lra.
    + rewrite mult_IZR, <- (@pow2_IZR (52 - e)%Z) by lia.
      rewrite Rmult_assoc, <- pow2_add.
      replace (52 - e + (e - 52))%Z with 0%Z by lia.
      unfold JSNumber.pow2; simpl. lra.
Qed.

(** Rounding does not cross a whole number below [2^53]. *)
Lemma round64_below (y : R) (n k : Z) :
  0 <= y <= IZR n -> IZR n < JSNumber.pow2 (k + 1) -> (k <= 52)%Z ->
  exists r : R, JSNumber.round64 y = JSNumber.Fin r /\ 0 <= r <= IZR n.
Proof.
  intros [Hy0 Hyn] Hn Hk.
  destruct Hy0 as [Hpos | <-].
  2:{ exists 0. split; [apply (round64_integer (z := 0)); lia | lra]. }
  assert (Hk53 : JSNumber.pow2 (k + 1) <= JSNumber.pow2 53) by (apply pow2_le; lia).
  rewrite round64_finite; [|lra|apply below_overflow; lra].
  eexists; split; [reflexivity|].
  set (e := Z.max (-1022) (JSNumber.binade y)).
  assert (He : (e <= 52)%Z).
  { unfold e. apply Z.max_lub; [lia|].
    apply Z.le_trans with k; [|exact Hk]. apply binade_below; lra. }
  pose proof (pow2_pos (e - 52)) as Hulp.
  pose proof (pow2_pos (52 - e)) as Hinv.
  assert (Hscaled : y / JSNumber.pow2 (e - 52) = y * JSNumber.pow2 (52 - e)).
  { unfold Rdiv. rewrite pow2_inv. f_equal. f_equal. lia. }
  assert (Hone : JSNumber.pow2 (52 - e) * JSNumber.pow2 (e - 52) = 1).
  { rewrite <- pow2_add. replace (52 - e + (e - 52))%Z with 0%Z by lia. reflexivity. }
  assert (Hlo : (0 <= JSNumber.nearestEven (y / JSNumber.pow2 (e - 52)))%Z).
  { apply nearestEven_ge. rewrite Hscaled. apply Rmult_le_pos; lra. }
  assert (Hhi : (JSNumber.nearestEven (y / JSNumber.pow2 (e - 52)) <= n * 2 ^ (52 - e))%Z).
  { apply nearestEven_le. rewrite Hscaled, mult_IZR, <- (@pow2_IZR (52 - e)%Z) by lia.
    apply Rmult_le_compat_r; lra. }
  apply IZR_le in Hlo, Hhi.
  rewrite mult_IZR, <- (@pow2_IZR (52 - e)%Z) in Hhi by lia.
  split.
  - apply Rmult_le_pos; lra.
  - apply Rle_trans with (IZR n * JSNumber.pow2 (52 - e) * JSNumber.pow2 (e - 52)).
    + apply Rmult_le_compat_r; lra.
    + rewrite Rmult_assoc, Hone. lra.
Qed.



Lemma pow2_opp (k : Z) : (0 <= k)%Z -> JSNumber.pow2 (- k) = / IZR (2 ^ k).
Proof. intros Hk. rewrite <- pow2_inv, pow2_IZR by exact Hk. reflexivity. Qed.

(** Rounding read on the scaled number: with [x * 2^(52-e)] between [2^52]
    and [2^53], [x] rounds to the nearest whole number of [2^(e-52)]. *)
Lemma round64_scaled (x : R) (e n : Z) :
  (-1022 <= e <= 52)%Z ->
  IZR (2 ^ 52) <= x * IZR (2 ^ (52 - e)) < IZR (2 ^ 53) ->
  IZR n - / 2 < x * IZR (2 ^ (52 - e)) < IZR n + / 2 ->
  JSNumber.round64 x = JSNumber.Fin (IZR n / IZR (2 ^ (52 - e))).
Proof.
  intros He Hx Hn.
  assert (Es : JSNumber.pow2 (e - 52) = / IZR (2 ^ (52 - e))).
  { replace (e - 52)%Z with (- (52 - e))%Z by lia. apply pow2_opp. lia. }
  assert (Hs : 0 < IZR (2 ^ (52 - e))).
  { rewrite <- pow2_IZR by lia. apply pow2_pos. }
  set (s := IZR (2 ^ (52 - e))) in *.
  assert (Ee : JSNumber.pow2 e = IZR (2 ^ 52) / s).
  { replace e with (52 + (e - 52))%Z at 1 by lia.
    rewrite pow2_add, Es, (@pow2_IZR 52) by lia. reflexivity. }
  assert (Ee1 : JSNumber.pow2 (e + 1) = IZR (2 ^ 53) / s).
  { replace (e + 1)%Z with (53 + (e - 52))%Z by lia.
    rewrite pow2_add, Es, (@pow2_IZR 53) by lia. reflexivity. }
  rewrite (@round64_at x e n).
  - rewrite Es. reflexivity.
  - rewrite Ee, Ee1. split.
    + apply Rmult_le_reg_r with s; [exact Hs|].
      unfold Rdiv. rewrite Rmult_assoc, Rinv_l by lra. lra.
    + apply Rmult_lt_reg_r with s; [exact Hs|].
      unfold Rdiv. rewrite Rmult_assoc, Rinv_l by lra. lra.
  - exact He.
  - rewrite Es. unfold Rdiv. rewrite Rinv_inv. exact Hn.
Qed.


(** The number a literal is read as. *)
Lemma literal_scaled (x : R) (e n : Z) :
  (-1022 <= e <= 52)%Z ->
  IZR (2 ^ 52) <= x * IZR (2 ^ (52 - e)) < IZR (2 ^ 53) ->
  IZR n - / 2 < x * IZR (2 ^ (52 - e)) < IZR n + / 2 ->
  literal x = num (IZR n / IZR (2 ^ (52 - e))).
Proof.
  intros He Hx Hn. unfold literal, num. rewrite (@round64_scaled x e n He Hx Hn). reflexivity.
Qed.

(** From [2^1024] on the rounding overflows. *)
Lemma round64_overflow (x : R) : JSNumber.pow2 1024 <= x -> JSNumber.round64 x = JSNumber.PosInf.
Proof.
  intros Hx. pose proof (pow2_pos 1024) as Hp. pose proof (pow2_pos 970) as Hq.
  unfold JSNumber.round64. rewrite (Rabs_pos_eq x) by lra.
  destruct (Rle_dec (JSNumber.pow2 1024 - JSNumber.pow2 970) x); [|lra].
  destruct (Rlt_dec x 0); [lra | reflexivity].
Qed.

End Binary64.

(* ===================================================================== *)
(** * Metrics resolver *)
(* ===================================================================== *)

Lemma firstDefined_all_missing (obj : jsval) (keys : list string) :
  Forall (fun k => prop obj (key k) = JUndefined) keys ->
  firstDefined obj keys = JUndefined.
Proof.
  induction keys as [|k [|k' rest] IH]; intros Hall.
  - reflexivity.
  - inversion Hall; assumption.
  - inversion Hall as [|? ? Hk Hrest]; subst.
    change (orDefault (prop obj (key k)) (firstDefined obj (k' :: rest)) = JUndefined).
    rewrite Hk, (IH Hrest). reflexivity.
Qed.

Ltac each_reading :=
  repeat match goal with
         | |- context [ToNumber (firstDefined ?b ?k)] =>
             destruct (ToNumber (firstDefined b k)) as [?|[]]; cbn [bind]
         end.

(** C2, as stated, fails: a temperature that is an object with an entry
    [toString] of its own makes [extractSiteMetrics] raise a [TypeError],
    so that it returns neither a record nor absent. *)
Lemma extractSiteMetrics_raises :
  (forall B : Builtins, @extractSiteMetrics B unreadablePayload = Throw TypeError)
  /\ ~ (forall (B : Builtins) (root : jsval),
          @extractSiteMetrics B root = Normal None
          \/ exists m : SiteMetrics, @extractSiteMetrics B root = Normal (Some m)).
Proof.
  assert (Hraise : forall B : Builtins,
            @extractSiteMetrics B unreadablePayload = Throw TypeError).
  { intros B. reflexivity. }
  split; [exact Hraise|].
  intros Hall.
  destruct (Hall integerLiterals unreadablePayload) as [Hn | [m Hm]].
  - rewrite Hraise in Hn. discriminate Hn.
  - rewrite Hraise in Hm. discriminate Hm.
Qed.

(** C2, amended.  [extractSiteMetrics] ends in one of three ways: with a
    [TypeError], with absent, or with a record whose four readings are all
    finite numbers.  It raises exactly when one of the four resolved
    values cannot be coerced (an object with an entry [toString] of its
    own, or an array holding one).  When the four coerce, the result is
    absent as soon as one of the four numbers is not finite and the record
    of the four otherwise; and a reading whose keys are all missing never
    lets a record through. *)
Theorem extractSiteMetrics_all_or_nothing `{Builtins} (root : jsval) :
  (extractSiteMetrics root = Throw TypeError
   \/ extractSiteMetrics root = Normal None
   \/ exists t p r s : R,
        extractSiteMetrics root
        = Normal (Some {| temperature := JSNumber.Fin t; ph := JSNumber.Fin p;
                          radiation := JSNumber.Fin r; salinity := JSNumber.Fin s |}))
  /\ (extractSiteMetrics root = Throw TypeError
      <-> exists block keys,
            In (block, keys) metricFields
            /\ printable (firstDefined (blockOf root block) keys) = false)
  /\ (forall t r p s : number,
        temperatureOf root = Normal t -> radiationOf root = Normal r ->
        phOf root = Normal p -> salinityOf root = Normal s ->
        (JSNumber.isFinite t = false \/ JSNumber.isFinite r = false
         \/ JSNumber.isFinite p = false \/ JSNumber.isFinite s = false ->
         extractSiteMetrics root = Normal None)
        /\ (JSNumber.isFinite t = true -> JSNumber.isFinite r = true ->
            JSNumber.isFinite p = true -> JSNumber.isFinite s = true ->
            extractSiteMetrics root
            = Normal (Some {| temperature := t; ph := p;
                              radiation := r; salinity := s |})))
  /\ (forall block keys,
        In (block, keys) metricFields ->
        Forall (fun k => prop (blockOf root block) (key k) = JUndefined) keys ->
        extractSiteMetrics root = Normal None
        \/ extractSiteMetrics root = Throw TypeError).
Proof.
  rewrite extractSiteMetrics_resolved.
  unfold temperatureOf, radiationOf, phOf, salinityOf.
  split; [|split; [|split]].
  - each_reading; auto. unfold allOrNothing, ret.
    repeat match goal with
           | n : number |- _ => destruct n as [| | |?]
           end; simpl; auto.
    right; right. do 4 eexists. reflexivity.
  - split.
    + intros Hthrow.
      destruct (ToNumber (firstDefined (blockOf root "climate") temperatureKeys))
        as [t|e] eqn:Et.
      2:{ exists "climate"%string, temperatureKeys. split; [simpl; auto|].
          exact (ToNumber_Throw _ Et). }
      destruct (ToNumber (firstDefined (blockOf root "climate") radiationKeys))
        as [r|e] eqn:Er.
      2:{ exists "climate"%string, radiationKeys. split; [simpl; auto|].
          exact (ToNumber_Throw _ Er). }
      destruct (ToNumber (firstDefined (blockOf root "water_profile") phKeys))
        as [p|e] eqn:Ep.
      2:{ exists "water_profile"%string, phKeys. split; [simpl; auto|].
          exact (ToNumber_Throw _ Ep). }
      destruct (ToNumber (firstDefined (blockOf root "water_profile") salinityKeys))
        as [s|e] eqn:Es.
      2:{ exists "water_profile"%string, salinityKeys. split; [simpl; auto|].
          exact (ToNumber_Throw _ Es). }
      discriminate Hthrow.
    + intros (block & keys & Hin & Hbad). apply ToNumber_unprintable in Hbad.
      destruct Hin as [E | [E | [E | [E | []]]]]; injection E as <- <-;
        rewrite Hbad; each_reading; reflexivity.
  - intros t r p s -> -> -> ->. cbn [bind]. unfold allOrNothing, ret. split.
    + intros [E | [E | [E | E]]]; rewrite E;
        rewrite ?andb_false_r, ?andb_false_l; reflexivity.
    + intros -> -> -> ->. reflexivity.
  - intros block keys Hin Hall. apply firstDefined_all_missing in Hall.
    destruct Hin as [E | [E | [E | [E | []]]]]; injection E as <- <-;
      rewrite Hall; cbn [ToNumber ret bind]; each_reading; auto;
      left; unfold allOrNothing, ret; cbn [JSNumber.isFinite];
      rewrite ?andb_false_r, ?andb_false_l; reflexivity.
Qed.

Lemma extractSiteMetrics_all_or_nothing_witness :
  @extractSiteMetrics integerLiterals partialPayload = Normal None
  /\ @extractSiteMetrics integerLiterals fullPayload
     = Normal (Some {| temperature := JSNumber.Fin 28.5; ph := JSNumber.Fin 9.2;
                       radiation := JSNumber.Fin 18; salinity := JSNumber.Fin 3 |}).
Proof.
  split.
  - destruct (proj2 (proj2 (proj2 (@extractSiteMetrics_all_or_nothing
                                     integerLiterals partialPayload)))
                "water_profile"%string salinityKeys) as [Hnone | Hthrow].
    + simpl; auto.
    + repeat constructor.
    + exact Hnone.
    + discriminate Hthrow.
  - apply (proj2 (proj1 (proj2 (proj2 (@extractSiteMetrics_all_or_nothing
                                         integerLiterals fullPayload)))
                    (JSNumber.Fin 28.5) (JSNumber.Fin 18) (JSNumber.Fin 9.2)
                    (JSNumber.Fin 3) eq_refl eq_refl eq_refl eq_refl));
      reflexivity.
Defined.

(* ===================================================================== *)
(** * Protein classifier *)
(* ===================================================================== *)


(** An entry that coerces to no finite number leaves the running maximum
    as it is. *)
Lemma forEachMax_skips `{Builtins} (items : list jsval) (idx : nat) (acc : number * nat) :
  Forall (fun v => exists n, ToNumber v = Normal n /\ JSNumber.isFinite n = false) items ->
  forEachMax items idx acc = Normal acc.
Proof.
  revert idx acc; induction items as [|v rest IH]; intros idx acc Hall; simpl.
  - reflexivity.
  - inversion Hall as [|? ? (n & Hn & Hfin) Hrest]; subst.
    rewrite Hn. cbn [bind]. rewrite Hfin. simpl. apply IH; assumption.
Qed.

(** The loop raises exactly when an entry cannot be coerced. *)
Lemma forEachMax_outcome `{Builtins} (items : list jsval) (idx : nat) (acc : number * nat) :
  if forallb printable items then exists found, forEachMax items idx acc = Normal found
  else forEachMax items idx acc = Throw TypeError.
Proof.
  revert idx acc; induction items as [|v rest IH]; intros idx acc; simpl.
  - eexists; reflexivity.
  - pose proof (ToNumber_outcome v) as Hv. destruct (printable v); simpl.
    + destruct Hv as [n ->]. cbn [bind]. apply IH.
    + rewrite Hv. reflexivity.
Qed.

Lemma confidenceTier_outcome `{Builtins} (items : list jsval) :
  if forallb printable items then exists p, confidenceTier items = Normal p
  else confidenceTier items = Throw TypeError.
Proof.
  unfold confidenceTier. destruct items as [|v0 rest].
  - simpl. eexists; reflexivity.
  - simpl nth. pose proof (ToNumber_outcome v0) as H0.
    change (forallb printable (v0 :: rest)) with (printable v0 && forallb printable rest).
    destruct (printable v0) eqn:P0; simpl andb.
    + destruct H0 as [n0 Hn0]. rewrite Hn0. cbn [bind].
      pose proof (forEachMax_outcome (v0 :: rest) 0
                    (JSNumber.orElse n0 (JSNumber.Fin 0), 0%nat)) as Hloop.
      change (forallb printable (v0 :: rest))
        with (printable v0 && forallb printable rest) in Hloop.
      rewrite P0 in Hloop. simpl andb in Hloop.
      destruct (forallb printable rest).
      * destruct Hloop as [[maxVal maxIdx] ->]. cbn [bind]. eexists; reflexivity.
      * rewrite Hloop. reflexivity.
    + rewrite H0. reflexivity.
Qed.





Lemma roundDecimals_zero (d : nat) : JSNumber.roundDecimals d 0 = 0%R.
Proof.
  rewrite (@roundDecimals_eq d 0%R 0%Z).
  - unfold Rdiv. apply Rmult_0_l.
  - lra.
  - lra.
Qed.

(** A whole number has no decimal to round. *)
Lemma roundDecimals_whole (z : Z) :
  (0 <= z)%Z -> JSNumber.roundDecimals 1 (IZR z) = IZR z.
Proof.
  intros Hz. apply IZR_le in Hz.
  rewrite (@roundDecimals_eq 1 (IZR z) (z * 10)%Z).
  - rewrite mult_IZR. simpl pow. field.
  - exact Hz.
  - rewrite mult_IZR. simpl pow. lra.
Qed.

(** The score of a whole number of percent. *)
Lemma score_whole (m : R) (z : Z) :
  (0 <= z < 2 ^ 53)%Z -> (m * 100)%R = IZR z ->
  JSNumber.toFixedNumber 1 (JSNumber.mul64 (JSNumber.Fin m) (JSNumber.Fin 100))
  = JSNumber.Fin (IZR z).
Proof.
  intros Hz Hm. cbn [JSNumber.mul64 JSNumber.mul]. rewrite Hm.
  rewrite (round64_integer Hz). cbn [JSNumber.toFixedNumber].
  rewrite roundDecimals_whole by lia. reflexivity.
Qed.






(** C7. When tier 1 does not apply and [biomass_prediction.biomass_prediction]
    coerces to a finite number [v], the classifier answers Low below 30,
    Medium from 30 to below 70 and High from 70 on, with score 70. *)
Theorem biomass_tier_banding `{Builtins} (root : jsval) (v : R) :
  isArrayOfAtLeast 3 (confidenceOf root) = false ->
  ToNumber (biomassValueOf root) = Normal (JSNumber.Fin v) ->
  exists lvl : ProteinLevel,
    extractProteinPrediction root
    = Normal (Some {| level := lvl; score := JSNumber.Fin 70 |})
    /\ ((v < 30)%R -> lvl = Low)
    /\ ((30 <= v < 70)%R -> lvl = Medium)
    /\ ((70 <= v)%R -> lvl = High).
Proof.
  intros Htier1 Hraw.
  rewrite extractProteinPrediction_tiers, Htier1, Hraw. cbn [bind JSNumber.isFinite].
  unfold ret, biomassTier, JSNumber.ltb, JSNumber.Rltb.
  destruct (Rlt_dec v 30) as [H30|H30]; [|destruct (Rlt_dec v 70) as [H70|H70]];
    eexists; (split; [reflexivity|]); repeat split; intros; (reflexivity || lra).
Qed.

Lemma biomass_tier_banding_witness :
  isArrayOfAtLeast 3 (confidenceOf partialPayload) = false
  /\ @ToNumber integerLiterals (biomassValueOf partialPayload) = Normal (JSNumber.Fin 25)
  /\ @extractProteinPrediction integerLiterals partialPayload
     = Normal (Some {| level := Low; score := JSNumber.Fin 70 |}).
Proof.
  split; [reflexivity|]. split; [reflexivity|].
  destruct (@biomass_tier_banding integerLiterals partialPayload 25%R eq_refl eq_refl)
    as (lvl & Hres & Hlow & _).
  rewrite Hres, Hlow; [reflexivity | lra].
Defined.

(** C10, as stated, fails: a confidence vector of three entries none of
    which is a number, the first an object with an entry [toString] of its
    own, makes the classifier raise a [TypeError]; it returns no tier-1
    result, and not [{level: Low, score: 0}]. *)
Lemma confidence_tier_raises :
  confidenceOf unreadableConfidence = JArr [shadowingObject; str "x"; str "y"]
  /\ (forall B : Builtins, @extractProteinPrediction B unreadableConfidence = Throw TypeError)
  /\ ~ (forall (B : Builtins) (root : jsval) (items : list jsval),
          confidenceOf root = JArr items -> (3 <= length items)%nat ->
          exists p : ProteinPrediction, @extractProteinPrediction B root = Normal (Some p)).
Proof.
  assert (Hraise : forall B : Builtins,
            @extractProteinPrediction B unreadableConfidence = Throw TypeError).
  { intros B. reflexivity. }
  split; [reflexivity|]. split; [exact Hraise|].
  intros Hall.
  destruct (Hall integerLiterals unreadableConfidence _ eq_refl (le_n 3)) as [p Hp].
  rewrite Hraise in Hp. discriminate Hp.
Qed.

(** C10, amended.  Tier 1 is chosen on the shape of
    [biomass_prediction.confidence] alone: for an array of at least three
    entries the outcome is that of tier 1, a function of the array only, so
    the same for every payload holding that array.  It is a [TypeError]
    exactly when an entry cannot be coerced (an object with an entry
    [toString] of its own, or an array holding one) and a tier-1 result
    otherwise, never absent; when every entry coerces to a value that is
    not a finite number the result is [{level: Low, score: 0}]. *)
Theorem confidence_tier_by_shape `{Builtins} (root : jsval) (items : list jsval) :
  confidenceOf root = JArr items ->
  (3 <= length items)%nat ->
  extractProteinPrediction root
  = (prediction <- confidenceTier items ;; ret (Some prediction))
  /\ (forall other, confidenceOf other = JArr items ->
        extractProteinPrediction other = extractProteinPrediction root)
  /\ (extractProteinPrediction root = Throw TypeError
      <-> forallb printable items = false)
  /\ (forallb printable items = true ->
      exists p, confidenceTier items = Normal p
                /\ extractProteinPrediction root = Normal (Some p))
  /\ (Forall (fun v => exists n, ToNumber v = Normal n /\ JSNumber.isFinite n = false)
             items ->
      extractProteinPrediction root
      = Normal (Some {| level := Low; score := JSNumber.Fin 0 |})).
Proof.
  intros Hconf Hlen.
  assert (Hshape : forall r, confidenceOf r = JArr items ->
            extractProteinPrediction r
            = (prediction <- confidenceTier items ;; ret (Some prediction))).
  { intros r Hr. rewrite extractProteinPrediction_tiers, Hr. unfold isArrayOfAtLeast.
    rewrite (leb_correct _ _ Hlen). reflexivity. }
  rewrite (Hshape root Hconf).
  pose proof (confidenceTier_outcome items) as Hout.
  split; [reflexivity|]. split; [|split; [|split]].
  - intros other Hother. exact (Hshape other Hother).
  - destruct (forallb printable items).
    + destruct Hout as [p ->]. split; discriminate.
    + rewrite Hout. split; reflexivity.
  - intros Hp. rewrite Hp in Hout. destruct Hout as [p Hp']. exists p.
    rewrite Hp'. split; reflexivity.
  - intros Hall. unfold confidenceTier.
    destruct items as [|v0 rest]; [simpl in Hlen; lia|].
    inversion Hall as [|? ? (n0 & Hn0 & Hfin0) _]; subst. simpl nth.
    rewrite Hn0. cbn [bind]. rewrite forEachMax_skips by exact Hall. cbn [bind].
    destruct n0 as [| | |x]; try discriminate;
      unfold JSNumber.orElse;
      cbn [JSNumber.truthy JSNumber.isFinite JSNumber.mul64 JSNumber.mul nth Nat.min
           length bands Nat.sub].
    + rewrite Rmult_0_l, (@round64_integer 0) by lia. cbn [JSNumber.toFixedNumber].
      rewrite roundDecimals_zero. reflexivity.
    + cbn [JSNumber.toFixedNumber]. rewrite roundDecimals_zero. reflexivity.
    + cbn [JSNumber.toFixedNumber]. rewrite roundDecimals_zero. reflexivity.
Qed.

Lemma confidence_tier_by_shape_witness :
  confidenceOf noisyPayload = JArr [str "n/a"; JUndefined; obj []]
  /\ (3 <= 3)%nat
  /\ @extractProteinPrediction integerLiterals noisyPayload
     = Normal (Some {| level := Low; score := JSNumber.Fin 0 |}).
Proof.
  split; [reflexivity|]. split; [lia|].
  apply (proj2 (proj2 (proj2 (proj2 (@confidence_tier_by_shape integerLiterals noisyPayload
              [str "n/a"; JUndefined; obj []] eq_refl (le_n 3)))))).
  repeat (apply Forall_cons; [eexists; split; reflexivity|]). apply Forall_nil.
Defined.

(** C8. A payload that is not an object (undefined, null, a boolean, a
    number, a string or an array) makes neither extractor raise: both
    return absent, as they do on the object without fields. *)
Theorem non_object_payload_absent `{Builtins} (root : jsval) :
  isObject root = false ->
  extractSiteMetrics root = Normal None
  /\ extractProteinPrediction root = Normal None
  /\ extractSiteMetrics root = extractSiteMetrics emptyObject
  /\ extractProteinPrediction root = extractProteinPrediction emptyObject.
Proof.
  intros Hobj. destruct root; try discriminate; repeat split; reflexivity.
Qed.

Lemma non_object_payload_absent_witness :
  isObject (JArr [num 1; num 2; num 3]) = false
  /\ @extractSiteMetrics integerLiterals (JArr [num 1; num 2; num 3]) = Normal None
  /\ @extractProteinPrediction integerLiterals (JArr [num 1; num 2; num 3]) = Normal None.
Proof.
  split; [reflexivity|].
  destruct (@non_object_payload_absent integerLiterals (JArr [num 1; num 2; num 3]) eq_refl)
    as (Hm & Hp & _).
  split; assumption.
Defined.

(* ===================================================================== *)
(** * Growth series *)
(* ===================================================================== *)

Section GrowthSeries.

Local Open Scope R_scope.

Lemma div_finite (x y : R) :
  y <> 0 -> JSNumber.div (JSNumber.Fin x) (JSNumber.Fin y) = JSNumber.Fin (x / y).
Proof. intros Hy. unfold JSNumber.div. rewrite Reqb_false by exact Hy. reflexivity. Qed.

Lemma min_finite (x y : R) :
  JSNumber.min (JSNumber.Fin x) (JSNumber.Fin y) = JSNumber.Fin (Rmin x y).
Proof.
  unfold JSNumber.min, JSNumber.ltb, JSNumber.Rltb, Rmin.
  destruct (Rlt_dec y x), (Rle_dec x y); try reflexivity; f_equal; lra.
Qed.

Lemma max_finite (x y : R) :
  JSNumber.max (JSNumber.Fin x) (JSNumber.Fin y) = JSNumber.Fin (Rmax x y).
Proof.
  unfold JSNumber.max, JSNumber.ltb, JSNumber.Rltb, Rmax.
  destruct (Rlt_dec x y), (Rle_dec x y); try reflexivity; f_equal; lra.
Qed.

Lemma DEFAULT_GROWTH_SERIES_points :
  DEFAULT_GROWTH_SERIES
  = map (fun idx => {| day := JSNumber.Fin (INR (S idx));
                       doublingTime := JSNumber.Fin (defaultDoubling idx) |})
        (seq 0 14).
Proof.
  unfold DEFAULT_GROWTH_SERIES, arrayFrom. apply map_ext. intros idx.
  unfold JSNumber.ofNat, defaultDoubling. rewrite div_finite by lra.
  rewrite S_INR. cbn [JSNumber.add JSNumber.mul JSNumber.sin]. reflexivity.
Qed.

(** On finite readings the code computes the specification's formula. *)
Lemma generateGrowthSeriesFromMetrics_points (m : SiteMetrics) (t r : R) :
  temperature m = JSNumber.Fin t -> radiation m = JSNumber.Fin r ->
  generateGrowthSeriesFromMetrics (Some m)
  = map (fun idx => {| day := JSNumber.Fin (INR (S idx));
                       doublingTime :=
                         JSNumber.Fin (seasonalDoubling (clampedBase t r) (S idx)) |})
        (seq 0 14).
Proof.
  intros Ht Hr. unfold generateGrowthSeriesFromMetrics, arrayFrom.
  rewrite Ht, Hr. apply map_ext. intros idx.
  unfold JSNumber.ofNat, seasonalDoubling, clampedBase. rewrite S_INR.
  cbn [JSNumber.add JSNumber.sub JSNumber.neg JSNumber.abs JSNumber.mul
       temperature radiation IDEAL_METRICS].
  rewrite div_finite by lra.
  rewrite min_finite, max_finite.
  cbn [JSNumber.add JSNumber.mul JSNumber.sin JSNumber.toFixedNumber].
  reflexivity.
Qed.

Lemma clampedBase_range (t r : R) : 1.8 <= clampedBase t r <= 3.5.
Proof.
  unfold clampedBase.
  pose proof (Rabs_pos (t - 30)). pose proof (Rabs_pos (r - 16)).
  set (y := 1.8 + (Rabs (t - 30) * 0.03 + Rabs (r - 16) * 0.02)).
  assert (Hy : 1.8 <= y) by (unfold y; lra).
  pose proof (Rmin_l 3.5 y) as Hup.
  assert (Hlow : 1.8 <= Rmin 3.5 y) by (apply Rmin_glb; lra).
  rewrite Rmax_right by lra. lra.
Qed.

Lemma seasonalDoubling_range (b : R) (d : nat) :
  1.8 <= b <= 3.5 -> 1.7 <= seasonalDoubling b d <= 3.6.
Proof.
  intros Hb. pose proof (SIN_bound (INR d / 2.5)) as Hsin.
  unfold seasonalDoubling.
  replace 1.7 with (IZR 170 / 10 ^ 2) by (simpl; lra).
  replace 3.6 with (IZR 360 / 10 ^ 2) by (simpl; lra).
  apply roundDecimals_between; [lra|]. simpl. lra.
Qed.

Lemma defaultDoubling_positive (idx : nat) : 1.85 <= defaultDoubling idx.
Proof.
  pose proof (SIN_bound (INR idx / 2)) as Hsin. unfold defaultDoubling. lra.
Qed.

End GrowthSeries.

Lemma finiteMetrics_readings (m : SiteMetrics) :
  finiteMetrics m ->
  exists t r : R, temperature m = JSNumber.Fin t /\ radiation m = JSNumber.Fin r.
Proof.
  intros (Ht & _ & Hr & _).
  destruct (temperature m) as [| | |t]; try discriminate.
  destruct (radiation m) as [| | |r]; try discriminate.
  exists t, r. split; reflexivity.
Qed.

(** C3. The growth series, for absent metrics or any metrics, has exactly
    14 points whose days are 1, 2, ..., 14 in this order; when the metrics
    are absent or hold finite readings (the invariant of the data model),
    every doubling time is a number strictly above 0. *)
Theorem growth_series_shape (metrics : option SiteMetrics) :
  length (generateGrowthSeriesFromMetrics metrics) = 14%nat
  /\ map day (generateGrowthSeriesFromMetrics metrics)
     = map (fun d => JSNumber.Fin (INR d)) (seq 1 14)
  /\ ((forall m, metrics = Some m -> finiteMetrics m) ->
      Forall (fun p => exists x : R, doublingTime p = JSNumber.Fin x /\ (0 < x)%R)
             (generateGrowthSeriesFromMetrics metrics)).
Proof.
  split; [|split].
  - destruct metrics; reflexivity.
  - rewrite <- seq_shift, map_map.
    destruct metrics as [m|]; unfold generateGrowthSeriesFromMetrics,
      DEFAULT_GROWTH_SERIES, arrayFrom; rewrite map_map; apply map_ext; intros idx;
      cbn [day]; unfold JSNumber.ofNat; rewrite S_INR; reflexivity.
  - intros Hfin. apply Forall_forall. intros p Hp.
    destruct metrics as [m|].
    + destruct (finiteMetrics_readings (Hfin m eq_refl)) as (t & r & Ht & Hr).
      rewrite (generateGrowthSeriesFromMetrics_points m Ht Hr) in Hp.
      apply in_map_iff in Hp. destruct Hp as (idx & <- & _).
      eexists; split; [reflexivity|].
      pose proof (seasonalDoubling_range (S idx) (clampedBase_range t r)). lra.
    + cbn [generateGrowthSeriesFromMetrics] in Hp.
      rewrite DEFAULT_GROWTH_SERIES_points in Hp.
      apply in_map_iff in Hp. destruct Hp as (idx & <- & _).
      eexists; split; [reflexivity|].
      pose proof (defaultDoubling_positive idx). lra.
Qed.

Lemma growth_series_shape_witness :
  length (generateGrowthSeriesFromMetrics (Some IDEAL_METRICS)) = 14%nat
  /\ map day (generateGrowthSeriesFromMetrics (Some IDEAL_METRICS))
     = map (fun d => JSNumber.Fin (INR d)) (seq 1 14)
  /\ Forall (fun p => exists x : R, doublingTime p = JSNumber.Fin x /\ (0 < x)%R)
            (generateGrowthSeriesFromMetrics (Some IDEAL_METRICS)).
Proof.
  destruct (growth_series_shape (Some IDEAL_METRICS)) as (Hlen & Hdays & Hpos).
  split; [exact Hlen|]. split; [exact Hdays|].
  apply Hpos. intros m Hm. injection Hm as <-. repeat split.
Defined.






(* ===================================================================== *)
(** * Text normalizer *)
(* ===================================================================== *)

Lemma replaceBold_match (s g after : jsstring) :
  matchBoldAt s = Some (g, after) -> replaceBold s = g ++ replaceBold after.
Proof.
  intros Hm. destruct s as [|c rest]; [discriminate|].
  simp replaceBold.
  destruct (inspect (matchBoldAt (c :: rest))) as [[[g' after']|] E]; simpl.
  - rewrite Hm in E. injection E as <- <-. reflexivity.
  - rewrite Hm in E. discriminate.
Qed.

Lemma replaceBold_skip (c : N) (rest : jsstring) :
  matchBoldAt (c :: rest) = None -> replaceBold (c :: rest) = c :: replaceBold rest.
Proof.
  intros Hm. simp replaceBold.
  destruct (inspect (matchBoldAt (c :: rest))) as [[[g' after']|] E]; simpl.
  - rewrite Hm in E. discriminate.
  - reflexivity.
Qed.

Lemma cleanMarkdownBold_string (s : jsstring) :
  cleanMarkdownBold (IsString s) = replaceBold s.
Proof. destruct s; reflexivity. Qed.

Lemma lineTerminator_not_star (c : N) :
  JSString.isLineTerminator c = true -> isStar c = false.
Proof.
  unfold JSString.isLineTerminator, isStar, JSString.star. intros Hc.
  apply N.eqb_neq. intros ->. discriminate Hc.
Qed.

Lemma matchBoldAt_not_star (c : N) (rest : jsstring) :
  isStar c = false -> matchBoldAt (c :: rest) = None.
Proof. intros Hc. destruct rest; simpl; [reflexivity | rewrite Hc; reflexivity]. Qed.

Lemma matchBoldAt_star_other (c c2 : N) (rest : jsstring) :
  isStar c2 = false -> matchBoldAt (c :: c2 :: rest) = None.
Proof. intros Hc. simpl. rewrite Hc, andb_false_r. reflexivity. Qed.

(** What a successful lazy scan says about its input. *)
Lemma lazyUntilStars_Some (t g after : jsstring) :
  lazyUntilStars t = Some (g, after) ->
  t = g ++ JSString.star :: JSString.star :: after /\ starsIsolated g = true.
Proof.
  revert g after; induction t as [|c1 t1 IH]; intros g after; simpl; [discriminate|].
  destruct t1 as [|c2 t2]; [discriminate|].
  destruct (isStar c1 && isStar c2) eqn:Estars.
  - intros E; injection E as <- <-.
    apply andb_true_iff in Estars. destruct Estars as [E1 E2].
    apply N.eqb_eq in E1, E2. subst. split; reflexivity.
  - destruct (JSString.isLineTerminator c1); [discriminate|].
    destruct (lazyUntilStars (c2 :: t2)) as [[g' a']|] eqn:E; [|discriminate].
    intros E'; injection E' as <- <-.
    destruct (IH _ _ eq_refl) as [Ht Hiso]. split.
    + simpl. f_equal. exact Ht.
    + simpl. rewrite Hiso, andb_true_r.
      destruct (isStar c1) eqn:E1; [|reflexivity]. simpl in Estars. simpl.
      destruct g' as [|d g''].
      * simpl in Ht. injection Ht as -> _. discriminate Estars.
      * simpl in Ht. injection Ht as <- _. rewrite Estars. reflexivity.
Qed.



(** The head of the output is a star only if the head of the input is. *)
Lemma replaceBold_head_not_star (c : N) (t : jsstring) :
  isStar c = false -> replaceBold (c :: t) = c :: replaceBold t.
Proof. intros Hc. apply replaceBold_skip, matchBoldAt_not_star, Hc. Qed.










(* ===================================================================== *)
(** * Bullet extractor *)
(* ===================================================================== *)

Lemma Subsequence_refl {A : Type} (xs : list A) : Subsequence xs xs.
Proof. induction xs; constructor; assumption. Qed.

Lemma Subsequence_trans {A : Type} (xs ys zs : list A) :
  Subsequence xs ys -> Subsequence ys zs -> Subsequence xs zs.
Proof.
  intros Hxy Hyz. revert xs Hxy.
  induction Hyz as [|y ys zs _ IH|z ys zs _ IH]; intros xs Hxy.
  - exact Hxy.
  - inversion Hxy; subst.
    + apply Subsequence_keep, IH; assumption.
    + apply Subsequence_drop, IH; assumption.
  - apply Subsequence_drop, IH; assumption.
Qed.

Lemma Subsequence_filter {A : Type} (p : A -> bool) (xs : list A) :
  Subsequence (filter p xs) xs.
Proof.
  induction xs as [|x xs IH]; simpl; [constructor|].
  destruct (p x); constructor; assumption.
Qed.

Lemma Subsequence_firstn {A : Type} (n : nat) (xs : list A) :
  Subsequence (firstn n xs) xs.
Proof.
  revert n; induction xs as [|x xs IH]; intros [|n]; simpl; try constructor.
  - apply (IH 0%nat).
  - apply IH.
Qed.

Lemma Subsequence_map {A B : Type} (f : A -> B) (xs ys : list A) :
  Subsequence xs ys -> Subsequence (map f xs) (map f ys).
Proof. induction 1; simpl; constructor; assumption. Qed.

Lemma firstn_at_most {A : Type} (n : nat) (xs : list A) : (length (firstn n xs) <= n)%nat.
Proof.
  revert xs; induction n as [|n IH]; intros [|x xs]; simpl; try lia.
  specialize (IH xs). lia.
Qed.

(** The bullet test and the stripping of the code are those of the
    specification. *)
Lemma startsWithNumberDot_spec (line : jsstring) :
  startsWithNumberDot line = digitsThenDot line.
Proof.
  induction line as [|d rest IH]; [reflexivity|].
  unfold startsWithNumberDot. cbn [digitsThenDot].
  destruct (JSString.isDigit d); [|reflexivity]. cbn [andb].
  destruct rest as [|c rest']; [reflexivity|].
  cbn [JSString.dropWhile]. destruct (JSString.isDigit c) eqn:Hc.
  - assert (Hdot : N.eqb c JSString.dot = false).
    { apply N.eqb_neq. intros ->. discriminate Hc. }
    rewrite Hdot. cbn [orb]. rewrite <- IH.
    unfold startsWithNumberDot. rewrite Hc. reflexivity.
  - cbn [JSString.startsWith digitsThenDot]. rewrite Hc. cbn [andb].
    rewrite orb_false_r. reflexivity.
Qed.

Lemma isBullet_spec (line : jsstring) : isBullet line = bulletLine line.
Proof.
  unfold isBullet, bulletLine. rewrite startsWithNumberDot_spec.
  destruct line as [|c rest]; reflexivity.
Qed.

Lemma isMarker_spec (c : N) : isMarker c = leadingMarker c.
Proof.
  unfold isMarker, leadingMarker.
  destruct (N.eqb c JSString.star), (N.eqb c JSString.hyphen), (JSString.isDigit c),
    (N.eqb c JSString.dot), (N.eqb c JSString.rparen); reflexivity.
Qed.

Lemma stripMarkers_spec (line : jsstring) : stripMarkers line = keyPointOf line.
Proof.
  unfold stripMarkers, keyPointOf. f_equal.
  induction line as [|c rest IH]; [reflexivity|].
  cbn [JSString.dropWhile withoutLeadingMarkers]. rewrite isMarker_spec, IH. reflexivity.
Qed.

(** The code follows the steps of the specification. *)
Lemma extractKeyPoints_steps (text : jsstring) :
  extractKeyPoints text
  = firstn 6 (match preferredKeyPoints text with
              | [] => fallbackKeyPoints text
              | _ :: _ => preferredKeyPoints text
              end).
Proof.
  destruct text as [|c text]; [reflexivity|].
  unfold extractKeyPoints, preferredKeyPoints, fallbackKeyPoints, keyPointCandidates,
    keyPointLines.
  cbn [JSString.truthy negb].
  assert (Hnonempty : forall line : jsstring,
            (0 <? length line)%nat = negb (Nat.eqb (length line) 0)).
  { intros [|x line]; reflexivity. }
  rewrite (filter_ext _ _ Hnonempty).
  rewrite (filter_ext _ _ isBullet_spec).
  rewrite !(map_ext _ _ stripMarkers_spec).
  match goal with
  | |- firstn 6 (if (0 <? length ?bullets)%nat then _ else ?others) = _ =>
      change (firstn 6 (if (0 <? length bullets)%nat then bullets else others)
              = firstn 6 (match bullets with [] => others | _ :: _ => bullets end));
      destruct bullets; reflexivity
  end.
Qed.

(** C5. [extractKeyPoints] returns the first 6 items (or all, when fewer)
    of the preferred candidates of the specification when there is one, of
    its fallback candidates otherwise; so at most 6 items, each of at least
    5 code units, in the order of the lines of the text. *)
Theorem extractKeyPoints_bounded (text : jsstring) :
  extractKeyPoints text
  = firstn 6 (match preferredKeyPoints text with
              | [] => fallbackKeyPoints text
              | _ :: _ => preferredKeyPoints text
              end)
  /\ (length (extractKeyPoints text) <= 6)%nat
  /\ Forall (fun item => (5 <= length item)%nat) (extractKeyPoints text)
  /\ Subsequence (extractKeyPoints text) (map keyPointOf (keyPointLines text)).
Proof.
  split; [apply extractKeyPoints_steps|].
  rewrite extractKeyPoints_steps.
  set (chosen := match preferredKeyPoints text with
                 | [] => fallbackKeyPoints text
                 | _ :: _ => preferredKeyPoints text
                 end).
  assert (Hsub : Subsequence chosen (map keyPointOf (keyPointLines text))).
  { unfold chosen. destruct (preferredKeyPoints text) eqn:Hpref.
    - apply Subsequence_filter.
    - rewrite <- Hpref. unfold preferredKeyPoints, keyPointCandidates.
      eapply Subsequence_trans; [apply Subsequence_filter|].
      apply Subsequence_map, Subsequence_filter. }
  assert (Hlen : Forall (fun item => (5 <= length item)%nat) chosen).
  { apply Forall_forall. intros item Hin. unfold chosen in Hin.
    assert (Hcand : forall lines, In item (keyPointCandidates lines) ->
                                  (5 <= length item)%nat).
    { intros lines Hl. apply filter_In in Hl. destruct Hl as [_ Hl].
      apply Nat.leb_le. exact Hl. }
    destruct (preferredKeyPoints text) eqn:Hpref.
    - exact (Hcand _ Hin).
    - rewrite <- Hpref in Hin. exact (Hcand _ Hin). }
  split; [apply firstn_at_most|]. split.
  - apply Forall_forall. intros item Hin. rewrite Forall_forall in Hlen.
    apply Hlen. revert Hin. generalize 6%nat. clear. intros n.
    revert n; induction chosen as [|x xs IH]; intros [|n] Hin; simpl in *; try contradiction.
    destruct Hin as [->|Hin]; [left; reflexivity | right; exact (IH n Hin)].
  - eapply Subsequence_trans; [apply Subsequence_firstn | exact Hsub].
Qed.

Example extractKeyPoints_bullets :
  extractKeyPoints (JSString.lit "* Improve aeration" ++ newline
                    ++ JSString.lit "* Increase pH buffering")
  = [JSString.lit "Improve aeration"; JSString.lit "Increase pH buffering"].
Proof. reflexivity. Qed.

Example extractKeyPoints_prose :
  extractKeyPoints (JSString.lit "Short." ++ newline
                    ++ JSString.lit "A fine long line about site conditions.")
  = [JSString.lit "Short."; JSString.lit "A fine long line about site conditions."].
Proof. reflexivity. Qed.

Example extractKeyPoints_numbered :
  extractKeyPoints (JSString.lit "Summary of the site" ++ newline
                    ++ JSString.lit " 1. Shade the pond  " ++ newline
                    ++ JSString.lit "2) not a bullet" ++ newline
                    ++ JSString.lit "- ok")
  = [JSString.lit "Shade the pond"].
Proof. reflexivity. Qed.

(** Prose and bullets mixed: the bullets alone are returned, though the
    prose comes first and gives candidates of its own. *)
Lemma extractKeyPoints_bounded_witness :
  fallbackKeyPoints mixedNotes
  = [JSString.lit "Site overview for the grower"; JSString.lit "Shade the pond at noon";
     JSString.lit "The water is slightly alkaline."; JSString.lit "Raise salinity slowly"]
  /\ extractKeyPoints mixedNotes
     = [JSString.lit "Shade the pond at noon"; JSString.lit "Raise salinity slowly"]
  /\ length (extractKeyPoints eightBullets) = 6%nat.
Proof.
  split; [reflexivity|].
  destruct (extractKeyPoints_bounded mixedNotes) as (Hsteps & _).
  destruct (extractKeyPoints_bounded eightBullets) as (Hsteps8 & _).
  rewrite Hsteps, Hsteps8. split; reflexivity.
Defined.

(* ===================================================================== *)
(** * Name of the downloaded report *)
(* ===================================================================== *)

Lemma replaceUnsafeRuns_inRun (run rest : jsstring) :
  Forall (fun c => isUnsafe c = true) run ->
  replaceUnsafeRuns true (run ++ rest) = replaceUnsafeRuns true rest.
Proof.
  induction 1 as [|c run Hc _ IH]; [reflexivity|].
  simpl. rewrite Hc. exact IH.
Qed.

Lemma replaceUnsafeRuns_safe_head (b : bool) (c : N) (rest : jsstring) :
  isUnsafe c = false ->
  replaceUnsafeRuns b (c :: rest) = c :: replaceUnsafeRuns false rest.
Proof. intros Hc. simpl. rewrite Hc. reflexivity. Qed.

(** After a run the flag does not matter when a safe code unit, or the end,
    comes next. *)
Lemma replaceUnsafeRuns_flag (b : bool) (rest : jsstring) :
  match rest with c :: _ => isUnsafe c = false | [] => True end ->
  replaceUnsafeRuns b rest = replaceUnsafeRuns false rest.
Proof.
  destruct rest as [|c rest]; intros Hc; [reflexivity|].
  rewrite !replaceUnsafeRuns_safe_head by exact Hc. reflexivity.
Qed.

Lemma safeNameOf_empty (label : jsstring) : safeNameOf label = [] -> label = [].
Proof.
  destruct label as [|c rest]; [reflexivity|].
  unfold safeNameOf. simpl. destruct (isUnsafe c); discriminate.
Qed.

(** C9 as stated fails: two spaces in a row give one underscore, not two. *)
Lemma reportFileName_not_per_character :
  reportFileName (JSString.lit "a  b")
  <> reportPrefix ++ orElseString (sanitizeEach (JSString.lit "a  b")) (key "site")
     ++ reportSuffix.
Proof. vm_compute. discriminate. Qed.

(** C9, amended. The saved file is named [spirulina_site_report_<s>.pdf],
    where [<s>] is the label with every maximal run of code units that are
    neither word characters nor hyphens replaced by one underscore and all
    other code units kept, and [<s>] is [site] when that is empty, which is
    so for the empty label only.  Where no two such code units stand side
    by side this is the replacement of each of them by an underscore. *)
Theorem reportFileName_sanitized (label : jsstring) :
  reportFileName label
  = reportPrefix ++ (match safeNameOf label with
                     | [] => key "site"
                     | _ :: _ => safeNameOf label
                     end) ++ reportSuffix
  /\ (safeNameOf label = [] <-> label = [])
  /\ (forall c rest, label = c :: rest -> isUnsafe c = false ->
        safeNameOf label = c :: safeNameOf rest)
  /\ (forall c run rest,
        label = c :: run ++ rest ->
        Forall (fun x => isUnsafe x = true) (c :: run) ->
        match rest with x :: _ => isUnsafe x = false | [] => True end ->
        safeNameOf label = JSString.underscore :: safeNameOf rest)
  /\ (unsafeApart label = true -> safeNameOf label = sanitizeEach label).
Proof.
  split; [|split; [|split; [|split]]].
  - unfold reportFileName, orElseString, reportPrefix, reportSuffix.
    destruct (safeNameOf label); reflexivity.
  - split; [apply safeNameOf_empty | intros ->; reflexivity].
  - intros c rest -> Hc. unfold safeNameOf. apply replaceUnsafeRuns_safe_head. exact Hc.
  - intros c run rest -> Hrun Hnext. inversion Hrun as [|? ? Hc Hrest]; subst.
    unfold safeNameOf. simpl. rewrite Hc. f_equal.
    rewrite replaceUnsafeRuns_inRun by exact Hrest.
    apply replaceUnsafeRuns_flag. exact Hnext.
  - unfold safeNameOf. induction label as [|c1 rest IH]; intros Hapart; [reflexivity|].
    simpl in Hapart. apply andb_true_iff in Hapart. destruct Hapart as [Hhead Hrest].
    specialize (IH Hrest). simpl. destruct (isUnsafe c1) eqn:Hc1.
    + f_equal. rewrite <- IH. apply replaceUnsafeRuns_flag.
      destruct rest as [|c2 rest']; [exact I|].
      simpl in Hhead. apply negb_true_iff in Hhead. exact Hhead.
    + f_equal. exact IH.
Qed.

Lemma reportFileName_sanitized_witness :
  reportFileName (JSString.lit "Chennai,  Tamil Nadu (13.08, 80.27)")
  = JSString.lit "spirulina_site_report_Chennai_Tamil_Nadu_13_08_80_27_.pdf"
  /\ reportFileName [] = JSString.lit "spirulina_site_report_site.pdf"
  /\ safeNameOf (JSString.lit ", x") = JSString.underscore :: safeNameOf (JSString.lit "x").
Proof.
  split; [|split].
  - rewrite (proj1 (reportFileName_sanitized _)). reflexivity.
  - rewrite (proj1 (reportFileName_sanitized _)). reflexivity.
  - apply (proj1 (proj2 (proj2 (proj2 (reportFileName_sanitized (JSString.lit ", x")))))
             (JSString.ch ",") [JSString.ch " "] (JSString.lit "x")).
    + reflexivity.
    + repeat constructor.
    + reflexivity.
Defined.

(* ===================================================================== *)
(** * Worked examples of the specification *)
(* ===================================================================== *)

Ltac decide_reals :=
  repeat match goal with
         | |- context [JSNumber.Rltb ?a ?b] =>
             first [rewrite (@Rltb_true a b) by lra | rewrite (@Rltb_false a b) by lra]
         | |- context [JSNumber.Reqb ?a ?b] =>
             first [rewrite (@Reqb_true a b) by lra | rewrite (@Reqb_false a b) by lra]
         end.

Ltac run_tier1 :=
  unfold confidenceTier, JSNumber.orElse;
  repeat progress
    (cbn [nth ToNumber num ret bind JSNumber.truthy negb forEachMax JSNumber.isFinite
          andb fst JSNumber.gtb JSNumber.ltb JSNumber.mul64 JSNumber.mul
          Nat.min length bands Nat.sub];
     decide_reals).

Example confidence_vector_medium :
  @extractProteinPrediction integerLiterals
    (obj [("biomass_prediction",
           obj [("confidence", JArr [literal 0.2; literal 0.5; literal 0.3])])]%string)
  = Normal (Some {| level := Medium; score := JSNumber.Fin 50 |}).
Proof.
  rewrite extractProteinPrediction_tiers.
  change (prediction <- @confidenceTier integerLiterals
                          [literal 0.2; literal 0.5; literal 0.3] ;;
          ret (Some prediction)
          = Normal (Some {| level := Medium; score := JSNumber.Fin 50 |})).
  rewrite (@literal_scaled 0.2 (-3) 7205759403792794),
          (@literal_scaled 0.5 (-1) 4503599627370496),
          (@literal_scaled 0.3 (-2) 5404319552844595)
    by first [lia | norm_pow; lra].
  norm_pow. run_tier1.
  replace (IZR 4503599627370496 / IZR 9007199254740992 * 100)%R with (IZR 50) by lra.
  rewrite (@round64_integer 50) by lia. cbn [JSNumber.toFixedNumber].
  rewrite roundDecimals_whole by lia. reflexivity.
Qed.

Example status_marginal :
  @extractProteinPrediction integerLiterals (obj [("cultivation_status", str "MARGINAL")]%string)
  = Normal (Some {| level := Medium; score := JSNumber.Fin 65 |}).
Proof. reflexivity. Qed.

Example status_unknown :
  @extractProteinPrediction integerLiterals (obj [("cultivation_status", str "PENDING")]%string)
  = Normal None.
Proof. reflexivity. Qed.

Example default_series_day1 :
  nth_error DEFAULT_GROWTH_SERIES 0
  = Some {| day := JSNumber.Fin 1; doublingTime := JSNumber.Fin 2.1 |}.
Proof.
  rewrite DEFAULT_GROWTH_SERIES_points. simpl nth_error. unfold defaultDoubling.
  do 2 f_equal; f_equal.
  simpl INR. replace (0 / 2)%R with 0%R by lra. rewrite sin_0. lra.
Qed.

Example ideal_site_base : clampedBase 30 16 = 1.8%R.
Proof.
  unfold clampedBase.
  replace (30 - 30)%R with 0%R by lra. replace (16 - 16)%R with 0%R by lra.
  rewrite Rabs_R0. replace (1.8 + (0 * 0.03 + 0 * 0.02))%R with 1.8%R by lra.
  rewrite Rmin_right by lra. rewrite Rmax_right by lra. reflexivity.
Qed.

Example full_payload_metrics :
  @extractSiteMetrics integerLiterals fullPayload
  = Normal (Some {| temperature := JSNumber.Fin 28.5; ph := JSNumber.Fin 9.2;
                    radiation := JSNumber.Fin 18; salinity := JSNumber.Fin 3 |}).
Proof. reflexivity. Qed.

(** The running maximum starts at [Number(confidence[0]) || 0]: a first
    entry that is not a number starts it at 0, which negative entries never
    exceed. *)
Example confidence_first_not_a_number :
  @extractProteinPrediction integerLiterals
    (obj [("biomass_prediction",
           obj [("confidence", JArr [str "n/a"; num (-1); num (-2)])])]%string)
  = Normal (Some {| level := Low; score := JSNumber.Fin 0 |}).
Proof.
  rewrite extractProteinPrediction_tiers.
  change (prediction <- @confidenceTier integerLiterals [str "n/a"; num (-1); num (-2)] ;;
          ret (Some prediction)
          = Normal (Some {| level := Low; score := JSNumber.Fin 0 |})).
  unfold confidenceTier.
  change (@ToNumber integerLiterals (nth 0 [str "n/a"; num (-1); num (-2)] JUndefined))
    with (Normal JSNumber.NaN).
  cbn [bind forEachMax].
  change (@ToNumber integerLiterals (str "n/a")) with (Normal JSNumber.NaN).
  run_tier1.
  rewrite Rmult_0_l, (@round64_integer 0) by lia. cbn [JSNumber.toFixedNumber].
  rewrite roundDecimals_zero. reflexivity.
Qed.

(** A first entry of plus infinity is never exceeded, and its score is 0. *)
Example confidence_first_infinite :
  @extractProteinPrediction integerLiterals
    (obj [("biomass_prediction",
           obj [("confidence", JArr [JNum JSNumber.PosInf; num 1; num 2])])]%string)
  = Normal (Some {| level := Low; score := JSNumber.Fin 0 |}).
Proof.
  rewrite extractProteinPrediction_tiers.
  change (prediction <- @confidenceTier integerLiterals [JNum JSNumber.PosInf; num 1; num 2] ;;
          ret (Some prediction)
          = Normal (Some {| level := Low; score := JSNumber.Fin 0 |})).
  run_tier1. cbn [JSNumber.toFixedNumber].
  rewrite roundDecimals_zero. reflexivity.
Qed.

(** The product of the score is the binary64 one.  The literal 0.0015 is
    read as a binary64 number a little above 0.0015; 100 times that number
    lies a little above 0.15, and the binary64 number nearest to it is the
    one next below 0.15, which [toFixed(1)] shows as 0.1.  The product on
    the reals would show as 0.2. *)
Example confidence_score_binary64 :
  @extractProteinPrediction integerLiterals
    (obj [("biomass_prediction",
           obj [("confidence", JArr [literal 0.0015; num 0; num 0])])]%string)
  = Normal (Some {| level := Low; score := JSNumber.Fin 0.1 |})
  /\ literal 0.0015 = num (IZR 6917529027641082 / IZR (2 ^ 62))
  /\ JSNumber.roundDecimals 1 (IZR 6917529027641082 / IZR (2 ^ 62) * 100) = 0.2%R.
Proof.
  assert (Hlit : literal 0.0015 = num (IZR 6917529027641082 / IZR (2 ^ 62))).
  { apply (@literal_scaled 0.0015 (-10)); [lia | norm_pow; lra | norm_pow; lra]. }
  split; [|split; [exact Hlit|]].
  - rewrite extractProteinPrediction_tiers.
    change (prediction <- @confidenceTier integerLiterals [literal 0.0015; num 0; num 0] ;;
            ret (Some prediction)
            = Normal (Some {| level := Low; score := JSNumber.Fin 0.1 |})).
    rewrite Hlit. norm_pow. run_tier1.
    rewrite (@round64_scaled _ (-3) 5404319552844595);
      [ | lia | norm_pow; lra | norm_pow; lra].
    cbn [JSNumber.toFixedNumber].
    rewrite (@roundDecimals_eq 1 _ 1).
    + replace (IZR 1 / 10 ^ 1)%R with 0.1%R by (simpl pow; lra). reflexivity.
    + norm_pow. lra.
    + norm_pow. simpl pow. lra.
  - rewrite (@roundDecimals_eq 1 _ 2).
    + simpl pow. lra.
    + norm_pow. lra.
    + norm_pow. simpl pow. lra.
Qed.

(** A product beyond the largest binary64 number is infinite, and so is
    the score. *)
Example confidence_score_overflow :
  @extractProteinPrediction integerLiterals
    (obj [("biomass_prediction",
           obj [("confidence", JArr [num (JSNumber.pow2 1023); num 0; num 0])])]%string)
  = Normal (Some {| level := Low; score := JSNumber.PosInf |}).
Proof.
  pose proof (pow2_pos 1023) as Hpos.
  rewrite extractProteinPrediction_tiers.
  change (prediction <- @confidenceTier integerLiterals
                          [num (JSNumber.pow2 1023); num 0; num 0] ;;
          ret (Some prediction)
          = Normal (Some {| level := Low; score := JSNumber.PosInf |})).
  run_tier1.
  rewrite round64_overflow; [reflexivity|].
  change 1024%Z with (1023 + 1)%Z. rewrite pow2_add.
  replace (JSNumber.pow2 1) with 2%R by (unfold JSNumber.pow2; simpl; lra). lra.
Qed.

(** An object with an entry [toString] of its own cannot be coerced, and
    an array holding one cannot either. *)
Example coercion_raises :
  forall B : Builtins,
    @ToNumber B shadowingObject = Throw TypeError
    /\ @ToNumber B (JArr [num 1; shadowingObject]) = Throw TypeError
    /\ @ToNumber B (obj [("valueOf", num 1)]%string) = Normal JSNumber.NaN.
Proof. intros B. repeat split; reflexivity. Qed.

(* ===================================================================== *)
(** * Further properties: text normalizer *)
(* ===================================================================== *)

Lemma Subsequence_app {A : Type} (xs xs' ys ys' : list A) :
  Subsequence xs xs' -> Subsequence ys ys' -> Subsequence (xs ++ ys) (xs' ++ ys').
Proof.
  intros Hx Hy. induction Hx; simpl; try constructor; assumption.
Qed.

(** X1. [cleanMarkdownBold] only deletes: its result is the input with
    some code units left out, in the same order, and what is left out
    comes in fours (the two stars before and the two stars after a run). *)
Theorem cleanMarkdownBold_only_deletes (s : jsstring) :
  Subsequence (cleanMarkdownBold (IsString s)) s
  /\ exists k : nat, length s = (length (cleanMarkdownBold (IsString s)) + 4 * k)%nat.
Proof.
  rewrite cleanMarkdownBold_string.
  remember (length s) as n eqn:Hn. revert s Hn.
  induction n as [n IH] using lt_wf_ind. intros s Hn.
  destruct s as [|c rest].
  - split; [constructor | exists 0%nat; subst; reflexivity].
  - destruct (matchBoldAt (c :: rest)) as [[g after]|] eqn:Hm.
    + rewrite (replaceBold_match _ Hm).
      pose proof (matchBoldAt_shorter _ Hm) as Hshort.
      destruct (IH (length after) ltac:(lia) after eq_refl) as (Hsub & k & Hk).
      destruct rest as [|c2 t]; [discriminate|]. simpl in Hm.
      destruct (isStar c && isStar c2); [|discriminate].
      destruct (lazyUntilStars_Some _ Hm) as [-> _]. split.
      * do 2 apply Subsequence_drop. apply Subsequence_app; [apply Subsequence_refl|].
        do 2 apply Subsequence_drop. exact Hsub.
      * exists (S k). subst n. simpl. rewrite !length_app. simpl. lia.
    + rewrite (replaceBold_skip _ _ Hm).
      destruct (IH (length rest) ltac:(simpl in Hn; lia) rest eq_refl) as (Hsub & k & Hk).
      split; [apply Subsequence_keep; exact Hsub|].
      exists k. subst n. simpl. lia.
Qed.

Lemma lazyUntilStars_line (t : jsstring) (c : N) (b : jsstring) :
  JSString.isLineTerminator c = true ->
  lazyUntilStars (t ++ c :: b)
  = match lazyUntilStars t with
    | Some (g, after) => Some (g, after ++ c :: b)
    | None => None
    end.
Proof.
  intros Hc. pose proof (lineTerminator_not_star c Hc) as Hstar.
  assert (Hhead : lazyUntilStars (c :: b) = None).
  { simpl. destruct b as [|c2 b']; [reflexivity|]. rewrite Hstar, Hc. reflexivity. }
  induction t as [|c1 t1 IH]; [exact Hhead|].
  destruct t1 as [|c2 t2].
  - simpl app. change (lazyUntilStars [c1]) with (@None (jsstring * jsstring)).
    change (lazyUntilStars (c1 :: c :: b))
      with (if isStar c1 && isStar c then Some ([], b)
            else if JSString.isLineTerminator c1 then None
            else match lazyUntilStars (c :: b) with
                 | Some (g, after) => Some (c1 :: g, after)
                 | None => None
                 end).
    rewrite Hstar, andb_false_r, Hhead. destruct (JSString.isLineTerminator c1); reflexivity.
  - change (lazyUntilStars ((c1 :: c2 :: t2) ++ c :: b))
      with (if isStar c1 && isStar c2 then Some ([], t2 ++ c :: b)
            else if JSString.isLineTerminator c1 then None
            else match lazyUntilStars ((c2 :: t2) ++ c :: b) with
                 | Some (g, after) => Some (c1 :: g, after)
                 | None => None
                 end).
    change (lazyUntilStars (c1 :: c2 :: t2))
      with (if isStar c1 && isStar c2 then Some ([], t2)
            else if JSString.isLineTerminator c1 then None
            else match lazyUntilStars (c2 :: t2) with
                 | Some (g, after) => Some (c1 :: g, after)
                 | None => None
                 end).
    rewrite IH.
    destruct (isStar c1 && isStar c2); [reflexivity|].
    destruct (JSString.isLineTerminator c1); [reflexivity|].
    destruct (lazyUntilStars (c2 :: t2)) as [[g after]|]; reflexivity.
Qed.

Lemma matchBoldAt_line (s : jsstring) (c : N) (b : jsstring) :
  JSString.isLineTerminator c = true ->
  matchBoldAt (s ++ c :: b)
  = match matchBoldAt s with
    | Some (g, after) => Some (g, after ++ c :: b)
    | None => None
    end.
Proof.
  intros Hc. pose proof (lineTerminator_not_star c Hc) as Hstar.
  destruct s as [|c1 [|c2 t]].
  - apply matchBoldAt_not_star. exact Hstar.
  - apply matchBoldAt_star_other. exact Hstar.
  - simpl. destruct (isStar c1 && isStar c2); [|reflexivity].
    apply lazyUntilStars_line. exact Hc.
Qed.

(** X2. Bold runs are removed line by line: cleaning a text is cleaning
    each side of a line terminator, the terminator kept; a run of stars
    opened on one line is never closed on another. *)
Theorem cleanMarkdownBold_line_by_line (a b : jsstring) (c : N) :
  JSString.isLineTerminator c = true ->
  cleanMarkdownBold (IsString (a ++ c :: b))
  = cleanMarkdownBold (IsString a) ++ c :: cleanMarkdownBold (IsString b).
Proof.
  intros Hc. rewrite !cleanMarkdownBold_string.
  remember (length a) as n eqn:Hn. revert a Hn.
  induction n as [n IH] using lt_wf_ind. intros a Hn.
  destruct a as [|c1 rest].
  - simpl app. rewrite replaceBold_head_not_star by (apply lineTerminator_not_star, Hc).
    reflexivity.
  - pose proof (matchBoldAt_line (c1 :: rest) c b Hc) as Hline.
    destruct (matchBoldAt (c1 :: rest)) as [[g after]|] eqn:Hm.
    + rewrite (replaceBold_match _ Hline), (replaceBold_match _ Hm).
      pose proof (matchBoldAt_shorter _ Hm) as Hshort.
      rewrite (IH (length after) ltac:(lia) after eq_refl).
      rewrite app_assoc. reflexivity.
    + simpl app in *. rewrite (replaceBold_skip _ _ Hline), (replaceBold_skip _ _ Hm).
      rewrite (IH (length rest) ltac:(simpl in Hn; lia) rest eq_refl). reflexivity.
Qed.

Lemma cleanMarkdownBold_line_by_line_witness :
  cleanMarkdownBold
    (IsString (JSString.lit "**bold** and **open" ++ JSString.LF :: JSString.lit "closed**"))
  = JSString.lit "bold and **open" ++ JSString.LF :: JSString.lit "closed**".
Proof.
  rewrite (@cleanMarkdownBold_line_by_line (JSString.lit "**bold** and **open")
             (JSString.lit "closed**") JSString.LF eq_refl).
  reflexivity.
Defined.

(* ===================================================================== *)
(** * Further properties: bullet extractor *)
(* ===================================================================== *)

Lemma dropWhile_all (p : N -> bool) (s : jsstring) :
  Forall (fun c => p c = true) s -> JSString.dropWhile p s = [].
Proof. induction 1 as [|c s Hc _ IH]; simpl; [reflexivity | rewrite Hc; exact IH]. Qed.

Lemma dropWhile_head (p : N -> bool) (s : jsstring) (c : N) (rest : jsstring) :
  JSString.dropWhile p s = c :: rest -> p c = false.
Proof.
  induction s as [|x s IH]; simpl; [discriminate|].
  destruct (p x) eqn:Hx; [exact IH|]. intros E; injection E as <- _. exact Hx.
Qed.

Lemma dropWhile_suffix (p : N -> bool) (s : jsstring) :
  exists front, s = front ++ JSString.dropWhile p s.
Proof.
  induction s as [|x s [front IH]]; simpl.
  - exists []. reflexivity.
  - destruct (p x).
    + exists (x :: front). simpl. f_equal. exact IH.
    + exists []. reflexivity.
Qed.

Lemma trim_blank (s : jsstring) :
  Forall (fun c => JSString.isWhiteSpace c = true) s -> JSString.trim s = [].
Proof.
  intros Hs. unfold JSString.trim, JSString.trimStart.
  rewrite (dropWhile_all _ Hs). reflexivity.
Qed.

Lemma splitAux_blank (sep : N) (cur s : jsstring) :
  Forall (fun c => JSString.isWhiteSpace c = true) cur ->
  Forall (fun c => JSString.isWhiteSpace c = true) s ->
  Forall (Forall (fun c => JSString.isWhiteSpace c = true)) (JSString.splitAux sep cur s).
Proof.
  intros Hcur Hs. revert cur Hcur.
  induction Hs as [|c s Hc _ IH]; intros cur Hcur; simpl.
  - constructor; [apply Forall_rev; exact Hcur | constructor].
  - destruct (N.eqb c sep).
    + constructor; [apply Forall_rev; exact Hcur | apply IH; constructor].
    + apply IH. constructor; assumption.
Qed.

Lemma keyPointLines_blank (text : jsstring) :
  Forall (fun c => JSString.isWhiteSpace c = true) text -> keyPointLines text = [].
Proof.
  intros Htext. unfold keyPointLines, JSString.split.
  pose proof (splitAux_blank JSString.LF (Forall_nil _) Htext) as Hpieces.
  induction Hpieces as [|piece pieces Hpiece _ IH]; [reflexivity|].
  simpl. rewrite (trim_blank Hpiece). simpl. exact IH.
Qed.

(** X3. A text of white space and line breaks only has no key point. *)
Theorem extractKeyPoints_blank (text : jsstring) :
  Forall (fun c => JSString.isWhiteSpace c = true) text -> extractKeyPoints text = [].
Proof.
  intros Htext. rewrite extractKeyPoints_steps.
  unfold preferredKeyPoints, fallbackKeyPoints.
  rewrite (keyPointLines_blank Htext). reflexivity.
Qed.

Lemma extractKeyPoints_blank_witness :
  extractKeyPoints (JSString.lit "  " ++ JSString.LF :: JSString.CR :: JSString.LF
                    :: JSString.lit "   ") = [].
Proof. apply extractKeyPoints_blank. repeat constructor. Defined.

Lemma stripMarkers_cleanEnds (line : jsstring) : cleanEnds (stripMarkers line).
Proof.
  unfold stripMarkers, JSString.trim, JSString.trimStart, JSString.trimEnd.
  set (d := JSString.dropWhile isMarker line).
  assert (Hd : JSString.dropWhile JSString.isWhiteSpace d = d).
  { destruct d as [|c rest] eqn:Ed; [reflexivity|].
    pose proof (dropWhile_head isMarker line Ed) as Hc.
    unfold isMarker in Hc. apply orb_false_iff in Hc. destruct Hc as [_ Hws].
    simpl. rewrite Hws. reflexivity. }
  rewrite Hd.
  destruct (dropWhile_suffix JSString.isWhiteSpace (rev d)) as [front Hfront].
  set (e := JSString.dropWhile JSString.isWhiteSpace (rev d)) in *.
  assert (Hprefix : d = rev e ++ rev front).
  { rewrite <- rev_app_distr, <- Hfront, rev_involutive. reflexivity. }
  split.
  - intros c rest Hitem. rewrite Hitem in Hprefix. simpl in Hprefix.
    apply (dropWhile_head isMarker line (rest := rest ++ rev front)). exact Hprefix.
  - intros c init Hitem.
    assert (He : e = c :: rev init).
    { rewrite <- (rev_involutive e), Hitem, rev_app_distr. reflexivity. }
    apply (dropWhile_head JSString.isWhiteSpace (rev d) He).
Qed.

Lemma In_firstn {A : Type} (n : nat) (xs : list A) (x : A) :
  In x (firstn n xs) -> In x xs.
Proof.
  revert n; induction xs as [|y xs IH]; intros [|n] Hin; simpl in *; try contradiction.
  destruct Hin as [->|Hin]; [left; reflexivity | right; exact (IH n Hin)].
Qed.

(** X4. Every key point is stripped at both ends: it begins with no
    bullet, digit, dot, closing parenthesis or white space, and it ends
    with no white space. *)
Theorem extractKeyPoints_clean_ends (text : jsstring) :
  Forall cleanEnds (extractKeyPoints text).
Proof.
  apply Forall_forall. intros item Hin.
  rewrite extractKeyPoints_steps in Hin. apply In_firstn in Hin.
  assert (Hcand : forall lines, In item (keyPointCandidates lines) -> cleanEnds item).
  { intros lines Hl. apply filter_In in Hl. destruct Hl as [Hl _].
    apply in_map_iff in Hl. destruct Hl as (line & <- & _).
    rewrite <- stripMarkers_spec. apply stripMarkers_cleanEnds. }
  destruct (preferredKeyPoints text) eqn:Hpref.
  - exact (Hcand _ Hin).
  - rewrite <- Hpref in Hin. exact (Hcand _ Hin).
Qed.

Lemma splitAux_app (sep : N) (cur a b : jsstring) :
  JSString.splitAux sep cur (a ++ sep :: b)
  = JSString.splitAux sep cur a ++ JSString.splitAux sep [] b.
Proof.
  revert cur; induction a as [|c a IH]; intros cur; simpl.
  - rewrite N.eqb_refl. reflexivity.
  - destruct (N.eqb c sep); [simpl; f_equal|]; apply IH.
Qed.

Lemma keyPointLines_app (a b : jsstring) :
  keyPointLines (a ++ JSString.LF :: b) = keyPointLines a ++ keyPointLines b.
Proof.
  unfold keyPointLines, JSString.split.
  rewrite splitAux_app, map_app, filter_app. reflexivity.
Qed.

Lemma preferredKeyPoints_app (a b : jsstring) :
  preferredKeyPoints (a ++ JSString.LF :: b)
  = preferredKeyPoints a ++ preferredKeyPoints b.
Proof.
  unfold preferredKeyPoints, keyPointCandidates.
  rewrite keyPointLines_app, filter_app, map_app, filter_app. reflexivity.
Qed.

(** X5. The key points come from the top of the text: once its lines give
    six bulleted candidates, whatever further lines follow changes
    nothing. *)
Theorem extractKeyPoints_top_lines (a b : jsstring) :
  (6 <= length (preferredKeyPoints a))%nat ->
  extractKeyPoints (a ++ JSString.LF :: b) = extractKeyPoints a.
Proof.
  intros Hsix. rewrite !extractKeyPoints_steps, preferredKeyPoints_app.
  destruct (preferredKeyPoints a) as [|p ps] eqn:Hpref; [simpl in Hsix; lia|].
  change ((p :: ps) ++ preferredKeyPoints b) with (p :: (ps ++ preferredKeyPoints b)).
  cbv iota. change (p :: (ps ++ preferredKeyPoints b)) with ((p :: ps) ++ preferredKeyPoints b).
  rewrite firstn_app.
  replace (6 - length (p :: ps))%nat with 0%nat by lia.
  simpl firstn at 2. rewrite app_nil_r. reflexivity.
Qed.

Lemma extractKeyPoints_top_lines_witness :
  (6 <= length (preferredKeyPoints eightBullets))%nat
  /\ extractKeyPoints (eightBullets ++ JSString.LF :: JSString.lit "* one more bullet")
     = extractKeyPoints eightBullets.
Proof.
  assert (Hsix : (6 <= length (preferredKeyPoints eightBullets))%nat).
  { apply Nat.leb_le. reflexivity. }
  split; [exact Hsix|]. apply extractKeyPoints_top_lines. exact Hsix.
Defined.

(* ===================================================================== *)
(** * Further properties: name of the downloaded report *)
(* ===================================================================== *)

Lemma replaceUnsafeRuns_safe (inRun : bool) (label : jsstring) :
  Forall (fun c => isUnsafe c = false) (replaceUnsafeRuns inRun label).
Proof.
  revert inRun; induction label as [|c rest IH]; intros inRun; simpl; [constructor|].
  destruct (isUnsafe c) eqn:Hc.
  - destruct inRun; [apply IH|]. constructor; [reflexivity | apply IH].
  - constructor; [exact Hc | apply IH].
Qed.

Lemma replaceUnsafeRuns_shorter (inRun : bool) (label : jsstring) :
  (length (replaceUnsafeRuns inRun label) <= length label)%nat.
Proof.
  revert inRun; induction label as [|c rest IH]; intros inRun; simpl; [lia|].
  destruct (isUnsafe c); [destruct inRun|]; simpl;
    match goal with |- context [replaceUnsafeRuns ?b rest] => specialize (IH b) end; lia.
Qed.

Lemma replaceUnsafeRuns_fixed (inRun : bool) (label : jsstring) :
  Forall (fun c => isUnsafe c = false) label -> replaceUnsafeRuns inRun label = label.
Proof.
  intros Hsafe. revert inRun.
  induction Hsafe as [|c rest Hc _ IH]; intros inRun; simpl; [reflexivity|].
  rewrite Hc, IH. reflexivity.
Qed.

(** X6. The sanitized label holds word characters and hyphens only, is no
    longer than the label, and sanitizing it again changes nothing. *)
Theorem safeNameOf_safe (label : jsstring) :
  Forall (fun c => JSString.isWord c || N.eqb c JSString.hyphen = true) (safeNameOf label)
  /\ (length (safeNameOf label) <= length label)%nat
  /\ safeNameOf (safeNameOf label) = safeNameOf label.
Proof.
  unfold safeNameOf. pose proof (replaceUnsafeRuns_safe false label) as Hsafe.
  split; [|split].
  - apply Forall_forall. intros c Hin. rewrite Forall_forall in Hsafe.
    specialize (Hsafe c Hin). unfold isUnsafe in Hsafe.
    apply negb_false_iff in Hsafe. exact Hsafe.
  - apply replaceUnsafeRuns_shorter.
  - apply replaceUnsafeRuns_fixed. exact Hsafe.
Qed.

(** The label the handler resolves with its two [||]. *)
Lemma locationLabel_resolved (st : ReportState) :
  orElseValue (orElseValue (reportLocationLabel st) (JStr (locationText st)))
    (JStr (key "Spirulina cultivation site"))
  = locationLabelOf st.
Proof.
  unfold orElseValue, locationLabelOf.
  destruct (ToBoolean (reportLocationLabel st)) eqn:Hlabel.
  - rewrite Hlabel. reflexivity.
  - destruct (locationText st); reflexivity.
Qed.

Lemma locationLabelOf_truthy (st : ReportState) (label : jsstring) :
  locationLabelOf st = JStr label -> label <> [].
Proof.
  unfold locationLabelOf.
  destruct (ToBoolean (reportLocationLabel st)) eqn:Hlabel.
  - intros E. rewrite E in Hlabel. destruct label; discriminate.
  - destruct (locationText st) eqn:Htext; intros E; injection E as <-; discriminate.
Qed.

(** The handler by the value it finds as report text. *)
Lemma handleDownloadReport_cases (st : ReportState) :
  handleDownloadReport st
  = match phdReport st with
    | JStr (_ :: _) => name <- reportFileNameOf (locationLabelOf st) ;; ret (Some name)
    | other => if ToBoolean other then Throw TypeError else ret None
    end.
Proof.
  unfold handleDownloadReport. rewrite locationLabel_resolved.
  destruct (phdReport st) as [| |b|n|report|items|fields]; try reflexivity.
  - cbn [cleanMarkdownBoldOf]. destruct (ToBoolean (JBool b)); reflexivity.
  - cbn [cleanMarkdownBoldOf]. destruct (ToBoolean (JNum n)); reflexivity.
  - destruct report as [|c r]; [reflexivity|].
    cbn [cleanMarkdownBoldOf ret bind ToBoolean JSString.truthy negb].
    rewrite andb_false_r. reflexivity.
Qed.

(** X7. What [handleDownloadReport] saves.  A report text that is falsy
    (the empty string of the first render, [null], 0) saves nothing and
    raises nothing.  A report text that is a string and not empty saves
    one file when the label is a string: the label is that of the
    analysis when truthy, else the typed location when not empty, else
    the default one, it is never empty, and the file is named by the
    prefix, the sanitized label and [.pdf], the fallback [site] never
    being used.  In every other case (a label or a report text that
    [handleAnalyze] took from the response and that is truthy but not a
    string) the handler raises a [TypeError] and saves nothing. *)
Theorem handleDownloadReport_saves (st : ReportState) :
  (ToBoolean (phdReport st) = false -> handleDownloadReport st = Normal None)
  /\ (forall report label : jsstring,
        phdReport st = JStr report -> report <> [] ->
        locationLabelOf st = JStr label ->
        handleDownloadReport st
        = Normal (Some (reportPrefix ++ safeNameOf label ++ reportSuffix))
        /\ label <> [] /\ safeNameOf label <> [])
  /\ (forall report : jsstring,
        phdReport st = JStr report -> report <> [] ->
        (forall label, locationLabelOf st <> JStr label) ->
        handleDownloadReport st = Throw TypeError)
  /\ (ToBoolean (phdReport st) = true ->
      (forall report, phdReport st <> JStr report) ->
      handleDownloadReport st = Throw TypeError)
  /\ (forall name : jsstring,
        handleDownloadReport st = Normal (Some name) ->
        exists report label : jsstring,
          phdReport st = JStr report /\ report <> []
          /\ locationLabelOf st = JStr label
          /\ name = reportPrefix ++ safeNameOf label ++ reportSuffix).
Proof.
  rewrite handleDownloadReport_cases.
  split; [|split; [|split; [|split]]].
  - intros Hfalsy. destruct (phdReport st) as [| |b|n|[|c r]|items|fields];
      try discriminate Hfalsy; try rewrite Hfalsy; reflexivity.
  - intros report label -> Hne Hlabel.
    pose proof (locationLabelOf_truthy st Hlabel) as Hnonempty.
    assert (Hsafe : safeNameOf label <> []).
    { intros E. apply Hnonempty, safeNameOf_empty. exact E. }
    split; [|split; assumption].
    destruct report as [|c r]; [contradiction|]. rewrite Hlabel.
    cbn [reportFileNameOf ret bind]. unfold reportFileName, orElseString.
    destruct (safeNameOf label); [contradiction | reflexivity].
  - intros report -> Hne Hlabel. destruct report as [|c r]; [contradiction|].
    destruct (locationLabelOf st) as [| | | |label| |]; try reflexivity.
    exfalso. exact (Hlabel label eq_refl).
  - intros Htruthy Hnot.
    destruct (phdReport st) as [| |b|n|report|items|fields];
      try discriminate Htruthy; try rewrite Htruthy; try reflexivity.
    exfalso. exact (Hnot report eq_refl).
  - intros name Hname.
    destruct (phdReport st) as [| |b|n|[|c r]|items|fields];
      try discriminate Hname;
      try (destruct (ToBoolean _); discriminate Hname).
    destruct (locationLabelOf st) as [| | | |label| |] eqn:Hlabel; try discriminate Hname.
    pose proof (locationLabelOf_truthy st Hlabel) as Hnonempty.
    cbn [reportFileNameOf ret bind] in Hname. injection Hname as <-.
    exists (c :: r), label. split; [reflexivity|]. split; [discriminate|].
    split; [reflexivity|].
    unfold reportFileName, orElseString.
    destruct (safeNameOf label) eqn:Hsafe; [|reflexivity].
    exfalso. apply Hnonempty, safeNameOf_empty. exact Hsafe.
Qed.

Lemma handleDownloadReport_saves_witness :
  handleDownloadReport {| reportLocationLabel := JStr [];
                          locationText := JSString.lit "Nashik, Maharashtra";
                          phdReport := JStr (JSString.lit "****") |}
  = Normal (Some (JSString.lit "spirulina_site_report_Nashik_Maharashtra.pdf"))
  /\ handleDownloadReport {| reportLocationLabel := num 7;
                             locationText := JSString.lit "Nashik, Maharashtra";
                             phdReport := JStr (JSString.lit "Site is suitable.") |}
     = Throw TypeError.
Proof.
  split.
  - apply (proj1 (proj2 (handleDownloadReport_saves _))
             (JSString.lit "****") (JSString.lit "Nashik, Maharashtra")).
    + reflexivity.
    + discriminate.
    + reflexivity.
  - apply (proj1 (proj2 (proj2 (handleDownloadReport_saves _)))
             (JSString.lit "Site is suitable.")).
    + reflexivity.
    + discriminate.
    + assert (Hlabel : locationLabelOf
                         {| reportLocationLabel := num 7;
                            locationText := JSString.lit "Nashik, Maharashtra";
                            phdReport := JStr (JSString.lit "Site is suitable.") |}
                       = num 7).
      { unfold locationLabelOf. cbn [reportLocationLabel ToBoolean num JSNumber.truthy].
        rewrite Reqb_false by lra. reflexivity. }
      intros label E. rewrite Hlabel in E. discriminate E.
Defined.

(* ===================================================================== *)
(** * Further properties: metrics resolver *)
(* ===================================================================== *)

Lemma innerOf_wrapped (inner : jsval) (others : list (jsstring * jsval)) :
  isNullish inner = false ->
  innerOf (JObj ((key "analysis", inner) :: others)) = inner.
Proof.
  intros Hinner. unfold innerOf.
  change (prop (JObj ((key "analysis", inner) :: others)) (key "analysis")) with inner.
  unfold orDefault. destruct inner; try discriminate Hinner; reflexivity.
Qed.

Lemma innerOf_bare (inner : jsval) :
  isNullish inner = false -> isNullish (prop inner (key "analysis")) = true ->
  innerOf inner = inner.
Proof.
  intros Hinner Hnone. unfold innerOf, orDefault.
  rewrite Hnone. destruct inner; try discriminate Hinner; reflexivity.
Qed.

(** Both extractors read the payload through its analysis block only. *)
Lemma extractors_read_inner `{Builtins} (root root' : jsval) :
  innerOf root = innerOf root' ->
  extractSiteMetrics root = extractSiteMetrics root'
  /\ extractProteinPrediction root = extractProteinPrediction root'.
Proof.
  intros Hinner.
  rewrite !extractSiteMetrics_resolved, !extractProteinPrediction_tiers.
  unfold temperatureOf, radiationOf, phOf, salinityOf, confidenceOf, biomassValueOf,
    statusOf, blockOf.
  rewrite Hinner. split; reflexivity.
Qed.

(** X8. The [analysis] wrapper is transparent: a payload that holds the
    analysis block under the key [analysis] gives the same metrics and the
    same protein prediction as the block itself, whatever else stands
    beside that key (the block being an actual value that has no
    [analysis] entry of its own). *)
Theorem analysis_wrapper_transparent `{Builtins}
    (inner : jsval) (others : list (jsstring * jsval)) :
  isNullish inner = false ->
  isNullish (prop inner (key "analysis")) = true ->
  extractSiteMetrics (JObj ((key "analysis", inner) :: others)) = extractSiteMetrics inner
  /\ extractProteinPrediction (JObj ((key "analysis", inner) :: others))
     = extractProteinPrediction inner.
Proof.
  intros Hinner Hnone. apply extractors_read_inner.
  rewrite (innerOf_wrapped inner others Hinner), (innerOf_bare inner Hinner Hnone). reflexivity.
Qed.

Lemma analysis_wrapper_transparent_witness :
  @extractSiteMetrics integerLiterals
    (JObj [(key "analysis", partialPayload); (key "climate", str "ignored")])
  = @extractSiteMetrics integerLiterals partialPayload
  /\ @extractProteinPrediction integerLiterals
       (JObj [(key "analysis", partialPayload); (key "climate", str "ignored")])
     = @extractProteinPrediction integerLiterals partialPayload.
Proof.
  apply (@analysis_wrapper_transparent integerLiterals partialPayload
           [(key "climate", str "ignored")]); reflexivity.
Defined.

Lemma firstDefined_head (obj0 : jsval) (k : string) (rest : list string) (v : jsval) :
  prop obj0 (key k) = v -> isNullish v = false -> firstDefined obj0 (k :: rest) = v.
Proof.
  intros Hv Hnn. destruct rest as [|k' rest]; simpl; [exact Hv|].
  unfold orDefault. rewrite Hv, Hnn. reflexivity.
Qed.

(** X9. The first key name of a reading decides as soon as it holds an
    actual value: whenever a metrics record is returned, each reading whose
    first key ([temperature], [solar_radiation], [initial_pH], [salinity])
    holds a value other than [undefined] and [null] is the number that
    value coerces to, which is then finite; the later key names are not
    consulted, so a non-numeric value under the first key never lets a
    record through. *)
Theorem first_key_decides `{Builtins} (root : jsval) (m : SiteMetrics) :
  extractSiteMetrics root = Normal (Some m) ->
  (forall v, prop (blockOf root "climate") (key "temperature") = v ->
             isNullish v = false ->
             ToNumber v = Normal (temperature m)
             /\ JSNumber.isFinite (temperature m) = true)
  /\ (forall v, prop (blockOf root "climate") (key "solar_radiation") = v ->
                isNullish v = false ->
                ToNumber v = Normal (radiation m)
                /\ JSNumber.isFinite (radiation m) = true)
  /\ (forall v, prop (blockOf root "water_profile") (key "initial_pH") = v ->
                isNullish v = false ->
                ToNumber v = Normal (ph m) /\ JSNumber.isFinite (ph m) = true)
  /\ (forall v, prop (blockOf root "water_profile") (key "salinity") = v ->
                isNullish v = false ->
                ToNumber v = Normal (salinity m)
                /\ JSNumber.isFinite (salinity m) = true).
Proof.
  rewrite extractSiteMetrics_resolved.
  unfold temperatureOf, radiationOf, phOf, salinityOf.
  destruct (ToNumber (firstDefined (blockOf root "climate") temperatureKeys))
    as [t|e] eqn:Et; cbn [bind]; [|discriminate].
  destruct (ToNumber (firstDefined (blockOf root "climate") radiationKeys))
    as [r|e] eqn:Er; cbn [bind]; [|discriminate].
  destruct (ToNumber (firstDefined (blockOf root "water_profile") phKeys))
    as [p|e] eqn:Ep; cbn [bind]; [|discriminate].
  destruct (ToNumber (firstDefined (blockOf root "water_profile") salinityKeys))
    as [s|e] eqn:Es; cbn [bind]; [|discriminate].
  unfold allOrNothing, ret.
  destruct (JSNumber.isFinite t) eqn:Ft; [|discriminate].
  destruct (JSNumber.isFinite r) eqn:Fr; [|discriminate].
  destruct (JSNumber.isFinite p) eqn:Fp; [|discriminate].
  destruct (JSNumber.isFinite s) eqn:Fs; [|discriminate].
  simpl. intros E; injection E as <-. cbn [temperature radiation ph salinity].
  unfold temperatureKeys, radiationKeys, phKeys, salinityKeys in *.
  split; [|split; [|split]]; intros v Hv Hnn;
    rewrite (firstDefined_head _ _ _ Hv Hnn) in *; split; assumption.
Qed.

Lemma first_key_decides_witness :
  @extractSiteMetrics integerLiterals plainPayload
  = Normal (Some {| temperature := JSNumber.Fin 30; ph := JSNumber.Fin 9;
                    radiation := JSNumber.Fin 16; salinity := JSNumber.Fin 3 |})
  /\ @ToNumber integerLiterals (num 30)
     = Normal (temperature {| temperature := JSNumber.Fin 30; ph := JSNumber.Fin 9;
                              radiation := JSNumber.Fin 16; salinity := JSNumber.Fin 3 |}).
Proof.
  assert (Hres : @extractSiteMetrics integerLiterals plainPayload
                 = Normal (Some {| temperature := JSNumber.Fin 30; ph := JSNumber.Fin 9;
                                   radiation := JSNumber.Fin 16;
                                   salinity := JSNumber.Fin 3 |})) by reflexivity.
  split; [exact Hres|].
  destruct (@first_key_decides integerLiterals plainPayload _ Hres) as (Htemp & _).
  exact (proj1 (Htemp (num 30) eq_refl eq_refl)).
Defined.

Example shadowed_temperature_blocks_record :
  @extractSiteMetrics integerLiterals shadowedPayload = Normal None.
Proof. reflexivity. Qed.

(** X10. [null] counts as a value of 0, not as a missing reading: when
    each of the four readings resolves to [null] (the last key name of the
    reading holds [null] and the earlier ones hold nothing), the metrics
    record is returned, with four zeros. *)
Theorem null_readings_are_zero `{Builtins} (root : jsval) :
  (forall block keys, In (block, keys) metricFields ->
                      firstDefined (blockOf root block) keys = JNull) ->
  extractSiteMetrics root = Normal (Some zeroMetrics).
Proof.
  intros Hnull. rewrite extractSiteMetrics_resolved.
  unfold temperatureOf, radiationOf, phOf, salinityOf.
  rewrite (Hnull "climate"%string temperatureKeys) by (simpl; auto).
  rewrite (Hnull "climate"%string radiationKeys) by (simpl; auto).
  rewrite (Hnull "water_profile"%string phKeys) by (simpl; auto).
  rewrite (Hnull "water_profile"%string salinityKeys) by (simpl; auto).
  reflexivity.
Qed.

Lemma null_readings_are_zero_witness :
  @extractSiteMetrics integerLiterals nullPayload = Normal (Some zeroMetrics).
Proof.
  apply (@null_readings_are_zero integerLiterals nullPayload).
  intros block keys [E | [E | [E | [E | []]]]]; injection E as <- <-; reflexivity.
Defined.

(** A record that is returned holds finite readings. *)
Lemma extractSiteMetrics_finite `{Builtins} (root : jsval) (m : SiteMetrics) :
  extractSiteMetrics root = Normal (Some m) -> finiteMetrics m.
Proof.
  rewrite extractSiteMetrics_resolved.
  destruct (temperatureOf root) as [t|e]; cbn [bind]; [|discriminate].
  destruct (radiationOf root) as [r|e]; cbn [bind]; [|discriminate].
  destruct (phOf root) as [p|e]; cbn [bind]; [|discriminate].
  destruct (salinityOf root) as [s|e]; cbn [bind]; [|discriminate].
  unfold allOrNothing, ret.
  destruct (JSNumber.isFinite t) eqn:Ft; [|discriminate].
  destruct (JSNumber.isFinite r) eqn:Fr; [|discriminate].
  destruct (JSNumber.isFinite p) eqn:Fp; [|discriminate].
  destruct (JSNumber.isFinite s) eqn:Fs; [|discriminate].
  simpl. intros E; injection E as <-. repeat split; assumption.
Qed.

(* ===================================================================== *)
(** * Further properties: protein classifier *)
(* ===================================================================== *)

Lemma JSString_eqb_eq (a b : jsstring) : JSString.eqb a b = true <-> a = b.
Proof.
  revert b; induction a as [|x a IH]; intros [|y b]; simpl; split; intros E;
    try reflexivity; try discriminate.
  - apply andb_true_iff in E. destruct E as [Exy Eab].
    apply N.eqb_eq in Exy. apply IH in Eab. subst. reflexivity.
  - injection E as -> ->. rewrite N.eqb_refl. apply IH. reflexivity.
Qed.

Lemma strictEqualsString_false (v : jsval) (s : string) :
  v <> str s -> strictEqualsString v (key s) = false.
Proof.
  intros Hne. destruct v as [| | | |x| |]; try reflexivity. simpl.
  destruct (JSString.eqb x (key s)) eqn:E; [|reflexivity].
  apply JSString_eqb_eq in E. subst. exfalso. apply Hne. reflexivity.
Qed.

(** X11. The status tier.  When tier 1 does not apply and the biomass value
    does not coerce to a finite number, a returned result is decided by
    [cultivation_status] alone: the string [INVALID] gives Low with score
    60, [MARGINAL] Medium with 65, [VALID] High with 80, and every other
    value (a missing one, another string, the same words in lower case, a
    value that is not a string) gives no prediction. *)
Theorem status_tier_mapping `{Builtins} (root : jsval) (r : option ProteinPrediction) :
  extractProteinPrediction root = Normal r ->
  isArrayOfAtLeast 3 (confidenceOf root) = false ->
  (forall v : R, ToNumber (biomassValueOf root) <> Normal (JSNumber.Fin v)) ->
  (statusOf root = str "INVALID" ->
   r = Some {| level := Low; score := JSNumber.Fin 60 |})
  /\ (statusOf root = str "MARGINAL" ->
      r = Some {| level := Medium; score := JSNumber.Fin 65 |})
  /\ (statusOf root = str "VALID" ->
      r = Some {| level := High; score := JSNumber.Fin 80 |})
  /\ (statusOf root <> str "INVALID" -> statusOf root <> str "MARGINAL" ->
      statusOf root <> str "VALID" -> r = None).
Proof.
  intros Hres Htier1 Hraw.
  rewrite extractProteinPrediction_tiers, Htier1 in Hres.
  destruct (ToNumber (biomassValueOf root)) as [raw|e]; [|discriminate Hres].
  cbn [bind] in Hres.
  destruct raw as [| | |v]; [| | |exfalso; exact (Hraw v eq_refl)];
    cbn [JSNumber.isFinite] in Hres; injection Hres as <-;
    (split; [|split; [|split]];
     [ intros ->; reflexivity | intros ->; reflexivity | intros ->; reflexivity
     | intros H1 H2 H3; unfold statusTier;
       rewrite (strictEqualsString_false H1), (strictEqualsString_false H2),
         (strictEqualsString_false H3); reflexivity ]).
Qed.

Lemma status_tier_mapping_witness :
  @extractProteinPrediction integerLiterals (obj [("cultivation_status", str "valid")]%string)
  = Normal None
  /\ @extractProteinPrediction integerLiterals (obj [("cultivation_status", str "VALID")]%string)
     = Normal (Some {| level := High; score := JSNumber.Fin 80 |}).
Proof.
  assert (Hraw : forall (status : string) (v : R),
            @ToNumber integerLiterals
              (biomassValueOf (obj [("cultivation_status", str status)]%string))
            <> Normal (JSNumber.Fin v)).
  { intros status v E. discriminate E. }
  split.
  - destruct (@extractProteinPrediction integerLiterals
                (obj [("cultivation_status", str "valid")]%string)) as [r|e] eqn:Hres.
    + f_equal.
      apply (proj2 (proj2 (proj2 (@status_tier_mapping integerLiterals _ r Hres eq_refl
                                    (Hraw "valid"%string))))); discriminate.
    + discriminate Hres.
  - destruct (@extractProteinPrediction integerLiterals
                (obj [("cultivation_status", str "VALID")]%string)) as [r|e] eqn:Hres.
    + f_equal.
      apply (proj1 (proj2 (proj2 (@status_tier_mapping integerLiterals _ r Hres eq_refl
                                    (Hraw "VALID"%string))))).
      reflexivity.
    + discriminate Hres.
Defined.

Lemma forEachMax_unit `{Builtins} (items : list jsval) (idx : nat)
    (acc found : number * nat) :
  Forall (fun v => forall x, ToNumber v = Normal (JSNumber.Fin x) -> (0 <= x <= 1)%R) items ->
  unitOrInfinite (fst acc) ->
  forEachMax items idx acc = Normal found ->
  unitOrInfinite (fst found).
Proof.
  intros Hitems. revert idx acc.
  induction Hitems as [|v rest Hv _ IH]; intros idx acc Hacc; simpl.
  - intros E; injection E as <-. exact Hacc.
  - destruct (ToNumber v) as [n|e] eqn:Ev; cbn [bind]; [|discriminate].
    apply IH.
    destruct n as [| | |x]; simpl; try exact Hacc.
    destruct (JSNumber.gtb (JSNumber.Fin x) (fst acc)); simpl;
      [apply Hv; reflexivity | exact Hacc].
Qed.

Lemma confidenceTier_score_range `{Builtins} (items : list jsval) (p : ProteinPrediction) :
  Forall (fun v => forall x, ToNumber v = Normal (JSNumber.Fin x) -> (0 <= x <= 1)%R) items ->
  confidenceTier items = Normal p ->
  exists s : R, score p = JSNumber.Fin s /\ (0 <= s <= 100)%R.
Proof.
  intros Hitems. unfold confidenceTier.
  destruct (ToNumber (nth 0 items JUndefined)) as [first|e] eqn:Efirst; cbn [bind];
    [|discriminate].
  set (start := JSNumber.orElse first (JSNumber.Fin 0)).
  assert (Hstart : unitOrInfinite start).
  { unfold start, JSNumber.orElse.
    destruct first as [| | |x]; simpl; try lra; try exact I.
    destruct (negb (JSNumber.Reqb x 0)); simpl; [|lra].
    destruct items as [|v0 rest]; simpl in Efirst; [discriminate|].
    inversion Hitems as [|? ? Hv0 _]; subst. apply Hv0. exact Efirst. }
  destruct (forEachMax items 0 (start, 0%nat)) as [[maxVal maxIdx]|e] eqn:Eloop;
    cbn [bind]; [|discriminate].
  pose proof (forEachMax_unit 0 (start, 0%nat) Hitems Hstart Eloop) as Hloop.
  simpl in Hloop. intros E; injection E as <-. cbn [score].
  destruct maxVal as [| | |m]; simpl in Hloop; try contradiction.
  - exists 0%R. cbn [JSNumber.isFinite JSNumber.toFixedNumber].
    rewrite roundDecimals_zero. split; [reflexivity | lra].
  - exists 0%R. cbn [JSNumber.isFinite JSNumber.toFixedNumber].
    rewrite roundDecimals_zero. split; [reflexivity | lra].
  - cbn [JSNumber.isFinite JSNumber.mul64 JSNumber.mul].
    destruct (@round64_below (m * 100) 100 6) as (r & Hr & Hrange).
    + simpl. lra.
    + rewrite (@pow2_IZR (6 + 1)) by lia. apply IZR_lt. reflexivity.
    + lia.
    + rewrite Hr. cbn [JSNumber.toFixedNumber]. eexists; split; [reflexivity|].
      assert (Hb : (IZR 0 / 10 ^ 1 <= JSNumber.roundDecimals 1 r <= IZR 1000 / 10 ^ 1)%R).
      { apply roundDecimals_between; [lra|]. simpl. lra. }
      simpl in Hb. lra.
Qed.

(** X12. The score stays between 0 and 100 as long as every entry of the
    confidence vector that coerces to a finite number lies between 0 and 1
    (as class probabilities do): whichever tier answers, a returned
    prediction carries a finite score in that range. *)
Theorem score_within_range `{Builtins} (root : jsval) (p : ProteinPrediction) :
  extractProteinPrediction root = Normal (Some p) ->
  (forall items, confidenceOf root = JArr items ->
     Forall (fun v => forall x, ToNumber v = Normal (JSNumber.Fin x) -> (0 <= x <= 1)%R)
            items) ->
  exists s : R, score p = JSNumber.Fin s /\ (0 <= s <= 100)%R.
Proof.
  intros Hres Hunit. rewrite extractProteinPrediction_tiers in Hres.
  destruct (isArrayOfAtLeast 3 (confidenceOf root)) eqn:Htier1.
  - destruct (confidenceOf root) as [| | | | |items|] eqn:Hconf; try discriminate.
    cbn [arrayItems] in Hres.
    destruct (confidenceTier items) as [q|e] eqn:Hq; cbn [bind] in Hres;
      [|discriminate Hres].
    injection Hres as <-.
    exact (confidenceTier_score_range (Hunit items eq_refl) Hq).
  - destruct (ToNumber (biomassValueOf root)) as [raw|e]; cbn [bind] in Hres;
      [|discriminate Hres].
    destruct (JSNumber.isFinite raw).
    + injection Hres as <-. exists 70%R. split; [reflexivity | lra].
    + injection Hres as Hres. unfold statusTier in Hres.
      repeat match type of Hres with
             | (if ?c then _ else _) = _ => destruct c
             end; try discriminate; injection Hres as <-;
        eexists; (split; [reflexivity | simpl; lra]).
Qed.

Lemma score_within_range_witness :
  exists s : R,
    @extractProteinPrediction integerLiterals fullPayload
    = Normal (Some {| level := High; score := JSNumber.Fin s |})
    /\ (0 <= s <= 100)%R.
Proof.
  assert (Hres : @extractProteinPrediction integerLiterals fullPayload
                 = Normal (Some {| level := High; score := JSNumber.Fin 90 |})).
  { rewrite extractProteinPrediction_tiers.
    change (prediction <- @confidenceTier integerLiterals
                            [num 0.1; num 0.1; num 0.8; num 0.9] ;;
            ret (Some prediction)
            = Normal (Some {| level := High; score := JSNumber.Fin 90 |})).
    run_tier1.
    replace (0.9 * 100)%R with (IZR 90) by lra.
    rewrite (@round64_integer 90) by lia. cbn [JSNumber.toFixedNumber].
    rewrite roundDecimals_whole by lia. reflexivity. }
  destruct (@score_within_range integerLiterals fullPayload _ Hres) as (s & Hs & Hrange).
  - intros items Hitems. injection Hitems as <-.
    repeat (apply Forall_cons; [intros x Hx; injection Hx as <-; lra|]).
    apply Forall_nil.
  - exists s. split; [|exact Hrange]. rewrite Hres. cbn [score] in Hs.
    rewrite Hs. reflexivity.
Defined.

(** X13. In the numeric-banding tier a larger biomass value never gives a
    lower band: of two payloads answered by tier 2, the one with the larger
    value has the bar of the protein chart ([proteinNumericLevel], from 1
    to 3) at least as high. *)
Theorem biomass_band_monotone `{Builtins}
    (root root' : jsval) (r r' : option ProteinPrediction) (v v' : R) :
  isArrayOfAtLeast 3 (confidenceOf root) = false ->
  isArrayOfAtLeast 3 (confidenceOf root') = false ->
  ToNumber (biomassValueOf root) = Normal (JSNumber.Fin v) ->
  ToNumber (biomassValueOf root') = Normal (JSNumber.Fin v') ->
  (v <= v')%R ->
  extractProteinPrediction root = Normal r ->
  extractProteinPrediction root' = Normal r' ->
  exists a b : R,
    proteinNumericLevel r = JSNumber.Fin a
    /\ proteinNumericLevel r' = JSNumber.Fin b
    /\ (1 <= a <= b)%R /\ (b <= 3)%R.
Proof.
  intros Ht Ht' Hv Hv' Hle Hr Hr'.
  rewrite extractProteinPrediction_tiers, Ht, Hv in Hr.
  rewrite extractProteinPrediction_tiers, Ht', Hv' in Hr'.
  simpl in Hr, Hr'. injection Hr as <-. injection Hr' as <-.
  unfold proteinNumericLevel, biomassTier, JSNumber.ltb, JSNumber.Rltb. cbn [level].
  destruct (Rlt_dec v 30), (Rlt_dec v 70), (Rlt_dec v' 30), (Rlt_dec v' 70);
    try lra; do 2 eexists; (split; [reflexivity|]); (split; [reflexivity|]); lra.
Qed.

Lemma biomass_band_monotone_witness :
  exists a b : R,
    proteinNumericLevel (Some {| level := Low; score := JSNumber.Fin 70 |}) = JSNumber.Fin a
    /\ proteinNumericLevel (Some {| level := High; score := JSNumber.Fin 70 |}) = JSNumber.Fin b
    /\ (1 <= a <= b)%R /\ (b <= 3)%R.
Proof.
  assert (H25 : (25 <= 80)%R) by lra.
  assert (Hlow : @extractProteinPrediction integerLiterals partialPayload
                 = Normal (Some {| level := Low; score := JSNumber.Fin 70 |})).
  { rewrite extractProteinPrediction_tiers.
    change (Normal (Some (biomassTier (JSNumber.Fin 25)))
            = Normal (Some {| level := Low; score := JSNumber.Fin 70 |})).
    unfold biomassTier, JSNumber.ltb. decide_reals. reflexivity. }
  assert (Hhigh : @extractProteinPrediction integerLiterals highBiomassPayload
                  = Normal (Some {| level := High; score := JSNumber.Fin 70 |})).
  { rewrite extractProteinPrediction_tiers.
    change (Normal (Some (biomassTier (JSNumber.Fin 80)))
            = Normal (Some {| level := High; score := JSNumber.Fin 70 |})).
    unfold biomassTier, JSNumber.ltb. decide_reals. reflexivity. }
  exact (@biomass_band_monotone integerLiterals partialPayload highBiomassPayload _ _
           25%R 80%R eq_refl eq_refl eq_refl eq_refl H25 Hlow Hhigh).
Defined.

(* ===================================================================== *)
(** * Further properties: growth series *)
(* ===================================================================== *)

Section GrowthOrder.

Local Open Scope R_scope.

Lemma roundDecimals_mono (d : nat) (x y : R) :
  0 <= x -> x <= y -> JSNumber.roundDecimals d x <= JSNumber.roundDecimals d y.
Proof.
  intros Hx Hxy. pose proof (pow10_pos d) as Hp.
  unfold JSNumber.roundDecimals.
  destruct (Rlt_dec x 0); [lra|]. destruct (Rlt_dec y 0); [lra|].
  apply Rmult_le_compat_r; [left; apply Rinv_0_lt_compat; exact Hp|].
  apply IZR_le, Zfloor_le.
  apply Rplus_le_compat_r. apply Rmult_le_compat_r; lra.
Qed.

Lemma clampedBase_mono (t r t' r' : R) :
  Rabs (t - 30) <= Rabs (t' - 30) -> Rabs (r - 16) <= Rabs (r' - 16) ->
  clampedBase t r <= clampedBase t' r'.
Proof.
  intros Ht Hr. unfold clampedBase.
  set (y := 1.8 + (Rabs (t - 30) * 0.03 + Rabs (r - 16) * 0.02)).
  set (y' := 1.8 + (Rabs (t' - 30) * 0.03 + Rabs (r' - 16) * 0.02)).
  assert (Hy : y <= y') by (unfold y, y'; lra).
  assert (Hmin : Rmin 3.5 y <= Rmin 3.5 y').
  { apply Rmin_glb; [apply Rmin_l|].
    apply Rle_trans with y; [apply Rmin_r | exact Hy]. }
  apply Rmax_lub; [apply Rmax_l|].
  apply Rle_trans with (Rmin 3.5 y'); [exact Hmin | apply Rmax_r].
Qed.

Lemma clampedBase_saturated (t r : R) :
  1.7 <= Rabs (t - 30) * 0.03 + Rabs (r - 16) * 0.02 -> clampedBase t r = 3.5.
Proof.
  intros Hpen. unfold clampedBase.
  rewrite Rmin_left by lra. rewrite Rmax_right by lra. reflexivity.
Qed.

Lemma defaultDoubling_range (idx : nat) : 1.85 <= defaultDoubling idx <= 2.35.
Proof.
  pose proof (SIN_bound (INR idx / 2)) as Hsin. unfold defaultDoubling. lra.
Qed.

Lemma seasonalDoubling_hundredths (b : R) (d : nat) :
  exists n : Z, seasonalDoubling b d = IZR n / 100.
Proof.
  unfold seasonalDoubling.
  destruct (roundDecimals_close 2 (b + sin (INR d / 2.5) * 0.1)) as (n & Hn & _).
  exists n. rewrite Hn. simpl pow. f_equal. lra.
Qed.

End GrowthOrder.

Lemma Forall2_map_seq {A : Type} (P : A -> A -> Prop) (f g : nat -> A) (l : list nat) :
  (forall i, P (f i) (g i)) -> Forall2 P (map f l) (map g l).
Proof. intros Hfg. induction l; simpl; constructor; auto. Qed.

(** X14. Whatever the payload, the series drawn from the metrics it yields
    is well formed: 14 points, every doubling time a finite number between
    1.7 and 3.6 days; when the payload yields metrics, every value is a
    whole number of hundredths. *)
Theorem derived_series_valid `{Builtins} (root : jsval) (metrics : option SiteMetrics) :
  extractSiteMetrics root = Normal metrics ->
  length (generateGrowthSeriesFromMetrics metrics) = 14%nat
  /\ Forall (fun p => exists x : R,
               doublingTime p = JSNumber.Fin x /\ (1.7 <= x <= 3.6)%R
               /\ (metrics <> None -> exists n : Z, x = (IZR n / 100)%R))
            (generateGrowthSeriesFromMetrics metrics).
Proof.
  intros Hres. split; [destruct metrics; reflexivity|].
  apply Forall_forall. intros p Hp.
  destruct metrics as [m|].
  - destruct (finiteMetrics_readings (extractSiteMetrics_finite _ Hres))
      as (t & r & Ht & Hr).
    rewrite (generateGrowthSeriesFromMetrics_points m Ht Hr) in Hp.
    apply in_map_iff in Hp. destruct Hp as (idx & <- & _).
    eexists; split; [reflexivity|]. split.
    + apply seasonalDoubling_range, clampedBase_range.
    + intros _. apply seasonalDoubling_hundredths.
  - cbn [generateGrowthSeriesFromMetrics] in Hp.
    rewrite DEFAULT_GROWTH_SERIES_points in Hp.
    apply in_map_iff in Hp. destruct Hp as (idx & <- & _).
    eexists; split; [reflexivity|].
    pose proof (defaultDoubling_range idx). split; [lra | intros Hne; contradiction].
Qed.

Lemma derived_series_valid_witness :
  Forall (fun p => exists x : R, doublingTime p = JSNumber.Fin x /\ (1.7 <= x <= 3.6)%R)
         (generateGrowthSeriesFromMetrics
            (Some {| temperature := JSNumber.Fin 28.5; ph := JSNumber.Fin 9.2;
                     radiation := JSNumber.Fin 18; salinity := JSNumber.Fin 3 |})).
Proof.
  destruct (@derived_series_valid integerLiterals fullPayload _ eq_refl) as [_ Hall].
  apply Forall_forall. intros p Hp. rewrite Forall_forall in Hall.
  destruct (Hall p Hp) as (x & Hx & Hrange & _). exists x. split; assumption.
Defined.

(** X15. Closer to the ideal is never slower.  Of two sites with finite
    readings, the one whose temperature and radiation both deviate less
    (or as much) from 30 and 16 has, day by day, a doubling time that is
    at most the other's; the series depends on the two deviations only, so
    pH and salinity, and the side of the deviation, play no part. *)
Theorem closer_to_ideal_is_faster (m m' : SiteMetrics) (t r t' r' : R) :
  temperature m = JSNumber.Fin t -> radiation m = JSNumber.Fin r ->
  temperature m' = JSNumber.Fin t' -> radiation m' = JSNumber.Fin r' ->
  (Rabs (t - 30) <= Rabs (t' - 30))%R ->
  (Rabs (r - 16) <= Rabs (r' - 16))%R ->
  Forall2 (fun p p' =>
             day p = day p'
             /\ exists x x' : R,
                  doublingTime p = JSNumber.Fin x /\ doublingTime p' = JSNumber.Fin x'
                  /\ (x <= x')%R)
          (generateGrowthSeriesFromMetrics (Some m))
          (generateGrowthSeriesFromMetrics (Some m'))
  /\ (Rabs (t - 30) = Rabs (t' - 30) -> Rabs (r - 16) = Rabs (r' - 16) ->
      generateGrowthSeriesFromMetrics (Some m) = generateGrowthSeriesFromMetrics (Some m')).
Proof.
  intros Ht Hr Ht' Hr' Hdt Hdr.
  rewrite (generateGrowthSeriesFromMetrics_points m Ht Hr),
    (generateGrowthSeriesFromMetrics_points m' Ht' Hr').
  split.
  - apply Forall2_map_seq. intros idx. cbn [day doublingTime].
    split; [reflexivity|]. do 2 eexists. split; [reflexivity|]. split; [reflexivity|].
    pose proof (clampedBase_mono _ _ _ _ Hdt Hdr) as Hbase.
    pose proof (clampedBase_range t r) as Hb.
    pose proof (SIN_bound (INR (S idx) / 2.5)) as Hsin.
    unfold seasonalDoubling. apply roundDecimals_mono; lra.
  - intros Et Er. unfold clampedBase. rewrite Et, Er. reflexivity.
Qed.

Lemma closer_to_ideal_is_faster_witness :
  Forall2 (fun p p' =>
             day p = day p'
             /\ exists x x' : R,
                  doublingTime p = JSNumber.Fin x /\ doublingTime p' = JSNumber.Fin x'
                  /\ (x <= x')%R)
          (generateGrowthSeriesFromMetrics (Some IDEAL_METRICS))
          (generateGrowthSeriesFromMetrics (Some hotSite)).
Proof.
  assert (H1 : (Rabs (30 - 30) <= Rabs (1000 - 30))%R).
  { replace (30 - 30)%R with 0%R by lra. rewrite Rabs_R0. apply Rabs_pos. }
  assert (H2 : (Rabs (16 - 16) <= Rabs (16 - 16))%R) by apply Rle_refl.
  exact (proj1 (@closer_to_ideal_is_faster IDEAL_METRICS hotSite 30 16 1000 16
                  eq_refl eq_refl eq_refl eq_refl H1 H2)).
Defined.

(** X16. The heuristic saturates: once the penalty
    [|temperature - 30| * 0.03 + |radiation - 16| * 0.02] reaches 1.7, the
    base is 3.5 and the series is the same for all such sites. *)
Theorem growth_series_saturates (m m' : SiteMetrics) (t r t' r' : R) :
  temperature m = JSNumber.Fin t -> radiation m = JSNumber.Fin r ->
  temperature m' = JSNumber.Fin t' -> radiation m' = JSNumber.Fin r' ->
  (1.7 <= Rabs (t - 30) * 0.03 + Rabs (r - 16) * 0.02)%R ->
  (1.7 <= Rabs (t' - 30) * 0.03 + Rabs (r' - 16) * 0.02)%R ->
  generateGrowthSeriesFromMetrics (Some m) = generateGrowthSeriesFromMetrics (Some m')
  /\ clampedBase t r = 3.5%R.
Proof.
  intros Ht Hr Ht' Hr' Hpen Hpen'.
  rewrite (generateGrowthSeriesFromMetrics_points m Ht Hr),
    (generateGrowthSeriesFromMetrics_points m' Ht' Hr').
  rewrite (clampedBase_saturated _ _ Hpen), (clampedBase_saturated _ _ Hpen').
  split; reflexivity.
Qed.

Lemma growth_series_saturates_witness :
  generateGrowthSeriesFromMetrics (Some hotSite)
  = generateGrowthSeriesFromMetrics
      (Some {| temperature := JSNumber.Fin (-40); ph := JSNumber.Fin 7;
               radiation := JSNumber.Fin 16; salinity := JSNumber.Fin 0 |}).
Proof.
  assert (H1 : (1.7 <= Rabs (1000 - 30) * 0.03 + Rabs (16 - 16) * 0.02)%R).
  { replace (1000 - 30)%R with 970%R by lra. replace (16 - 16)%R with 0%R by lra.
    rewrite Rabs_R0, (Rabs_pos_eq 970) by lra. lra. }
  assert (H2 : (1.7 <= Rabs (-40 - 30) * 0.03 + Rabs (16 - 16) * 0.02)%R).
  { replace (-40 - 30)%R with (Ropp 70) by lra. replace (16 - 16)%R with 0%R by lra.
    rewrite Rabs_R0, Rabs_Ropp, (Rabs_pos_eq 70) by lra. lra. }
  exact (proj1 (@growth_series_saturates hotSite
                  {| temperature := JSNumber.Fin (-40); ph := JSNumber.Fin 7;
                     radiation := JSNumber.Fin 16; salinity := JSNumber.Fin 0 |}
                  1000 16 (-40) 16 eq_refl eq_refl eq_refl eq_refl H1 H2)).
Defined.

(* ===================================================================== *)
(** * Further properties: [handleAnalyze] *)
(* ===================================================================== *)

Lemma mlWrapperOf_not_nullish (data : jsval) : isNullish (Page.mlWrapperOf data) = false.
Proof.
  unfold Page.mlWrapperOf. apply orDefault_not_nullish.
  apply orDefault_not_nullish. reflexivity.
Qed.

Lemma OptGet_prop (v : jsval) (k : jsstring) :
  isNullish v = false -> OptGet v k = Normal (prop v k).
Proof. destruct v; simpl; intros E; try discriminate; reflexivity. Qed.

Lemma mlWrapper_read (data : jsval) :
  (Get (orDefault data emptyObject) (key "analysis")
   ?? Get (orDefault data emptyObject) (key "data")
   ?? ret (orDefault data emptyObject))%completion
  = Normal (Page.mlWrapperOf data).
Proof.
  assert (Hp : isNullish (orDefault data emptyObject) = false)
    by (apply orDefault_not_nullish; reflexivity).
  rewrite !Get_prop by exact Hp.
  unfold Page.mlWrapperOf, coalesce, orDefault, ret; simpl.
  destruct (isNullish (prop (if isNullish data then emptyObject else data) (key "analysis")));
    simpl.
  - destruct (isNullish (prop (if isNullish data then emptyObject else data) (key "data")));
      reflexivity.
  - destruct (prop (if isNullish data then emptyObject else data) (key "analysis"));
      reflexivity.
Qed.

Lemma summary_read `{Page.Printers} (data : jsval) :
  (Page.joinedText (innerOf (Page.mlWrapperOf data))
   ?? OptGet (innerOf (Page.mlWrapperOf data)) (key "summary")
   ?? ret (JStr []))%completion
  = Page.summaryOf data.
Proof.
  unfold Page.summaryOf. rewrite OptGet_prop by apply innerOf_not_nullish. reflexivity.
Qed.

Lemma label_read (ml : jsval) (loc : jsstring) :
  isNullish ml = false ->
  (OptGet ml (key "location") ?? ret (JStr loc))%completion
  = Normal (orDefault (prop ml (key "location")) (JStr loc)).
Proof.
  intros Hml. rewrite OptGet_prop by exact Hml.
  apply coalesce_Normal. reflexivity.
Qed.

(** The body of the [try] block, step by step: where it stops and in which
    state. *)
Lemma analyzeBody_run `{Builtins} `{Page.Printers}
    (analyzeSite : jsstring -> option jsval) (loc : jsstring) (st : Page.State) :
  Page.analyzeBody analyzeSite loc st
  = let st1 := Page.setError None (Page.setIsLoading true st) in
    match analyzeSite loc with
    | None => (st1, Page.Raised Page.RequestRejected)
    | Some data =>
        match Page.summaryOf data with
        | Throw e => (st1, Page.Raised (Page.FromCode e))
        | Normal raw =>
            let st2 :=
              Page.setReportLocationLabel
                (orDefault (prop (Page.mlWrapperOf data) (key "location")) (JStr loc))
                (Page.setPhdReport raw st1) in
            match extractSiteMetrics (Page.mlWrapperOf data) with
            | Throw e => (st2, Page.Raised (Page.FromCode e))
            | Normal m =>
                match extractProteinPrediction (Page.mlWrapperOf data) with
                | Throw e => (st2, Page.Raised (Page.FromCode e))
                | Normal p =>
                    (Page.setHasRunAnalysis true
                       (Page.setGrowthSeries (generateGrowthSeriesFromMetrics m)
                          (Page.setProteinPrediction p (Page.setSiteMetrics m st2))),
                     Page.Done tt)
                end
            end
        end
    end.
Proof.
  unfold Page.analyzeBody, Page.hbind, Page.set, Page.await. cbv zeta.
  destruct (analyzeSite loc) as [data|]; [|reflexivity].
  rewrite (coalesce_Normal data (d := emptyObject)) by reflexivity.
  cbn [Page.lift]. rewrite mlWrapper_read. cbn [Page.lift].
  change (OptGet (Page.mlWrapperOf data) (key "analysis") ?? ret (Page.mlWrapperOf data)
          ?? ret emptyObject)%completion
    with (analysisInner (Page.mlWrapperOf data)).
  rewrite analysisInner_innerOf. cbn [Page.lift].
  rewrite summary_read.
  destruct (Page.summaryOf data) as [raw|e]; cbn [Page.lift]; [|reflexivity].
  rewrite label_read by apply mlWrapperOf_not_nullish. cbn [Page.lift].
  destruct (extractSiteMetrics (Page.mlWrapperOf data)) as [m|e]; cbn [Page.lift];
    [|reflexivity].
  destruct (extractProteinPrediction (Page.mlWrapperOf data)) as [p|e]; cbn [Page.lift];
    reflexivity.
Qed.

Lemma hasLocation_passes (st : Page.State) :
  Page.hasLocation st ->
  negb (0 <? length (JSString.trim (Page.locationText st)))%nat
  && negb (Page.isSome (Page.coordinates st)) = false.
Proof.
  intros [Htext | Hcoord].
  - destruct (JSString.trim (Page.locationText st)); [contradiction | reflexivity].
  - destruct (Page.coordinates st); [|contradiction].
    simpl. apply andb_false_r.
Qed.

Lemma handleAnalyze_run `{Builtins} `{Page.Printers}
    (analyzeSite : jsstring -> option jsval) (st : Page.State) :
  Page.hasLocation st ->
  Page.handleAnalyze analyzeSite st
  = fst (Page.tryCatchFinally
           (Page.analyzeBody analyzeSite (Page.synthesizedLocation st))
           (Page.set (Page.setError (Some Page.failureMessage)))
           (Page.set (Page.setIsLoading false)) st).
Proof.
  intros Hloc. unfold Page.handleAnalyze. cbv zeta.
  rewrite (hasLocation_passes Hloc). reflexivity.
Qed.

Lemma handleAnalyze_rejected `{Builtins} `{Page.Printers}
    (analyzeSite : jsstring -> option jsval) (st : Page.State) :
  Page.hasLocation st ->
  analyzeSite (Page.synthesizedLocation st) = None ->
  Page.handleAnalyze analyzeSite st = Page.failed st.
Proof.
  intros Hloc Hapi. rewrite (handleAnalyze_run _ Hloc).
  unfold Page.tryCatchFinally. rewrite analyzeBody_run, Hapi.
  destruct st; reflexivity.
Qed.

Lemma handleAnalyze_thrown `{Builtins} `{Page.Printers}
    (analyzeSite : jsstring -> option jsval) (st : Page.State) (data : jsval) (e : jserror) :
  Page.hasLocation st ->
  analyzeSite (Page.synthesizedLocation st) = Some data ->
  Page.summaryOf data = Throw e ->
  Page.handleAnalyze analyzeSite st = Page.failed st.
Proof.
  intros Hloc Hapi Hsum. rewrite (handleAnalyze_run _ Hloc).
  unfold Page.tryCatchFinally. rewrite analyzeBody_run, Hapi. cbv zeta. rewrite Hsum.
  destruct st; reflexivity.
Qed.

Lemma handleAnalyze_completed `{Builtins} `{Page.Printers}
    (analyzeSite : jsstring -> option jsval) (st : Page.State) (data raw : jsval)
    (m : option SiteMetrics) (p : option ProteinPrediction) :
  Page.hasLocation st ->
  analyzeSite (Page.synthesizedLocation st) = Some data ->
  Page.summaryOf data = Normal raw ->
  extractSiteMetrics (Page.mlWrapperOf data) = Normal m ->
  extractProteinPrediction (Page.mlWrapperOf data) = Normal p ->
  Page.handleAnalyze analyzeSite st = Page.succeeded st data raw m p.
Proof.
  intros Hloc Hapi Hsum Hm Hp. rewrite (handleAnalyze_run _ Hloc).
  unfold Page.tryCatchFinally. rewrite analyzeBody_run, Hapi. cbv zeta.
  rewrite Hsum, Hm, Hp. destruct st; reflexivity.
Qed.

(** X17. Without a location [handleAnalyze] only reports the missing
    location: when the typed location is empty or white space and no point
    is selected, the state is left as it was but for that message, whatever
    the service would have answered.  The Analyze button does not guard
    this case: it is enabled as soon as the typed location is not empty,
    white space included. *)
Theorem handleAnalyze_requires_location `{Builtins} `{Page.Printers}
    (analyzeSite : jsstring -> option jsval) (st : Page.State) :
  JSString.trim (Page.locationText st) = [] ->
  Page.coordinates st = None ->
  Page.handleAnalyze analyzeSite st
  = Page.setError (Some Page.missingLocationMessage) st
  /\ (Page.isLoading st = false -> Page.locationText st <> [] ->
      Page.analyzeDisabled st = false).
Proof.
  intros Htrim Hcoord. split.
  - unfold Page.handleAnalyze. cbv zeta. rewrite Htrim, Hcoord. reflexivity.
  - intros Hload Htext. unfold Page.analyzeDisabled. rewrite Hload.
    destruct (Page.locationText st); [contradiction | reflexivity].
Qed.

Lemma handleAnalyze_requires_location_witness :
  @Page.handleAnalyze integerLiterals Page.zeroPrinters (fun _ => Some fullPayload)
    Page.blankState
  = Page.setError (Some Page.missingLocationMessage) Page.blankState
  /\ Page.analyzeDisabled Page.blankState = false.
Proof.
  destruct (@handleAnalyze_requires_location integerLiterals Page.zeroPrinters
              (fun _ => Some fullPayload) Page.blankState eq_refl eq_refl) as [Hres Hbutton].
  split; [exact Hres|]. apply Hbutton; [reflexivity | discriminate].
Defined.

Lemma synthesizedLocation_not_empty `{Page.Printers} (st : Page.State) :
  Page.hasLocation st -> Page.synthesizedLocation st <> [].
Proof.
  intros Hloc. unfold Page.synthesizedLocation.
  destruct (Page.coordinates st) as [c|] eqn:Hc.
  - destruct (orElseString (Page.locationText st) (key "Selected Site")); discriminate.
  - destruct Hloc as [Htext | Hcoord]; [exact Htext | contradiction].
Qed.

(** X18. The one request of [handleAnalyze] is for the synthesized location
    (two services that answer alike there leave the same state), and that
    location is never the empty string when the request is made. *)
Theorem handleAnalyze_request `{Builtins} `{Page.Printers}
    (analyzeSite analyzeSite' : jsstring -> option jsval) (st : Page.State) :
  (analyzeSite (Page.synthesizedLocation st) = analyzeSite' (Page.synthesizedLocation st) ->
   Page.handleAnalyze analyzeSite st = Page.handleAnalyze analyzeSite' st)
  /\ (Page.hasLocation st -> Page.synthesizedLocation st <> []).
Proof.
  split; [|apply synthesizedLocation_not_empty].
  intros Hsame. unfold Page.handleAnalyze. cbv zeta.
  destruct (negb (0 <? length (JSString.trim (Page.locationText st)))%nat
            && negb (Page.isSome (Page.coordinates st))); [reflexivity|].
  unfold Page.tryCatchFinally. rewrite !analyzeBody_run, Hsame. reflexivity.
Qed.

Lemma handleAnalyze_request_witness :
  Page.hasLocation Page.typedState
  /\ @Page.synthesizedLocation Page.zeroPrinters Page.typedState = JSString.lit "Nashik".
Proof.
  assert (Hloc : Page.hasLocation Page.typedState) by (left; discriminate).
  split; [exact Hloc|].
  pose proof (proj2 (@handleAnalyze_request integerLiterals Page.zeroPrinters
                       (fun _ => None) (fun _ => None) Page.typedState) Hloc) as Hne.
  reflexivity.
Defined.

Lemma summaryOf_not_array `{Page.Printers} (data : jsval) :
  isNullish (Page.formattedTextOf data) = false ->
  Page.isArray (Page.formattedTextOf data) = false ->
  Page.summaryOf data = Throw TypeError.
Proof.
  intros Hnn Harr. unfold Page.summaryOf, Page.joinedText.
  rewrite OptGet_prop by apply innerOf_not_nullish.
  fold (Page.formattedTextOf data).
  destruct (Page.formattedTextOf data); try discriminate; reflexivity.
Qed.

Lemma summaryOf_missing `{Page.Printers} (data : jsval) :
  isNullish (Page.formattedTextOf data) = true ->
  Page.summaryOf data
  = Normal (orDefault (prop (innerOf (Page.mlWrapperOf data)) (key "summary")) (JStr [])).
Proof.
  intros Hnull. unfold Page.summaryOf, Page.joinedText.
  rewrite OptGet_prop by apply innerOf_not_nullish.
  fold (Page.formattedTextOf data).
  destruct (Page.formattedTextOf data); try discriminate;
    cbn [bind Page.optJoin ret]; unfold coalesce, ret, orDefault; cbn [bind isNullish];
    destruct (isNullish (prop (innerOf (Page.mlWrapperOf data)) (key "summary")));
    reflexivity.
Qed.

Lemma joinBy_strings `{Page.Printers} (sep : jsstring) (parts : list jsstring) :
  Page.joinBy Page.ToStringC sep (map JStr parts) = Normal (Page.joinStrings sep parts).
Proof.
  induction parts as [|s [|s' rest] IH]; try reflexivity.
  change (Page.joinBy Page.ToStringC sep (map JStr (s :: s' :: rest)))
    with (s0 <- Normal s ;;
          r <- Page.joinBy Page.ToStringC sep (map JStr (s' :: rest)) ;;
          ret (s0 ++ sep ++ r))%completion.
  rewrite IH. reflexivity.
Qed.

Lemma summaryOf_paragraphs `{Page.Printers} (data : jsval) (parts : list jsstring) :
  Page.formattedTextOf data = JArr (map JStr parts) ->
  Page.summaryOf data = Normal (JStr (Page.joinStrings Page.blankLine parts)).
Proof.
  intros Hft. unfold Page.summaryOf, Page.joinedText.
  rewrite OptGet_prop by apply innerOf_not_nullish.
  fold (Page.formattedTextOf data). rewrite Hft.
  cbn [bind Page.optJoin]. fold Page.blankLine. rewrite joinBy_strings. reflexivity.
Qed.

(** X19. The report text of a response.  An array of strings under
    [formatted_text] gives its strings joined by blank lines, and then
    [summary] is not looked at; a missing [formatted_text] gives the
    [summary], or the empty string when that is missing too; any other
    value under [formatted_text] (a plain string, say) makes the reading
    throw. *)
Theorem summaryOf_cases `{Page.Printers} (data : jsval) :
  (forall parts, Page.formattedTextOf data = JArr (map JStr parts) ->
     Page.summaryOf data = Normal (JStr (Page.joinStrings Page.blankLine parts)))
  /\ (isNullish (Page.formattedTextOf data) = true ->
      Page.summaryOf data
      = Normal (orDefault (prop (innerOf (Page.mlWrapperOf data)) (key "summary")) (JStr [])))
  /\ (isNullish (Page.formattedTextOf data) = false ->
      Page.isArray (Page.formattedTextOf data) = false ->
      Page.summaryOf data = Throw TypeError).
Proof.
  split; [|split].
  - intros parts. apply summaryOf_paragraphs.
  - apply summaryOf_missing.
  - apply summaryOf_not_array.
Qed.

Lemma summaryOf_cases_witness :
  @Page.summaryOf Page.zeroPrinters
    (obj [("formatted_text", JArr [str "Site is suitable."; str "* Add shade"]);
          ("summary", str "unused")]%string)
  = Normal (JStr (JSString.lit "Site is suitable." ++ Page.blankLine
                  ++ JSString.lit "* Add shade"))
  /\ @Page.summaryOf Page.zeroPrinters (obj [("formatted_text", str "one string")]%string)
     = Throw TypeError.
Proof.
  split.
  - apply (proj1 (@summaryOf_cases Page.zeroPrinters _)
             [JSString.lit "Site is suitable."; JSString.lit "* Add shade"]).
    reflexivity.
  - apply (proj2 (proj2 (@summaryOf_cases Page.zeroPrinters _))); reflexivity.
Defined.

(** X20. A failed analysis changes nothing but the message.  When the
    request is rejected, or when the response holds under [formatted_text]
    a value that is neither missing nor an array, [handleAnalyze] ends with
    the failure message and nothing loading, and the metrics, the
    prediction, the series, the report text, the label and the
    has-run flag are those of before, however good the rest of the
    response is. *)
Theorem handleAnalyze_failure `{Builtins} `{Page.Printers}
    (analyzeSite : jsstring -> option jsval) (st : Page.State) :
  Page.hasLocation st ->
  (analyzeSite (Page.synthesizedLocation st) = None
   \/ exists data, analyzeSite (Page.synthesizedLocation st) = Some data
                   /\ isNullish (Page.formattedTextOf data) = false
                   /\ Page.isArray (Page.formattedTextOf data) = false) ->
  let st' := Page.handleAnalyze analyzeSite st in
  Page.error st' = Some Page.failureMessage
  /\ Page.isLoading st' = false
  /\ Page.siteMetrics st' = Page.siteMetrics st
  /\ Page.proteinPrediction st' = Page.proteinPrediction st
  /\ Page.growthSeries st' = Page.growthSeries st
  /\ Page.phdReport st' = Page.phdReport st
  /\ Page.reportLocationLabel st' = Page.reportLocationLabel st
  /\ Page.hasRunAnalysis st' = Page.hasRunAnalysis st.
Proof.
  intros Hloc Hfail st'.
  assert (Hst' : st' = Page.failed st).
  { unfold st'. destruct Hfail as [Hnone | (data & Hsome & Hnn & Harr)].
    - apply handleAnalyze_rejected; assumption.
    - apply (handleAnalyze_thrown _ Hloc Hsome (summaryOf_not_array data Hnn Harr)). }
  rewrite Hst'. repeat split.
Qed.

Lemma handleAnalyze_failure_witness :
  Page.hasLocation Page.typedState
  /\ Page.siteMetrics
       (@Page.handleAnalyze integerLiterals Page.zeroPrinters
          (fun _ => Some (obj [("formatted_text", str "one string");
                               ("cultivation_status", str "VALID")]%string))
          Page.typedState)
     = None.
Proof.
  assert (Hloc : Page.hasLocation Page.typedState) by (left; discriminate).
  split; [exact Hloc|].
  refine (proj1 (proj2 (proj2 (@handleAnalyze_failure integerLiterals Page.zeroPrinters
                                 _ Page.typedState Hloc _)))).
  right. eexists. split; [reflexivity|]. split; reflexivity.
Defined.

(** X21. A completed analysis sets everything from the one response: the
    message is cleared, nothing is loading, the has-run flag is set; the
    metrics and the prediction are those the extractors give on the
    unwrapped response, the series is the one of those metrics, the label
    is the [location] of the response or else the location asked for, and
    the report text is the one read from the response. *)
Theorem handleAnalyze_success `{Builtins} `{Page.Printers}
    (analyzeSite : jsstring -> option jsval) (st : Page.State) (data raw : jsval)
    (m : option SiteMetrics) (p : option ProteinPrediction) :
  Page.hasLocation st ->
  analyzeSite (Page.synthesizedLocation st) = Some data ->
  Page.summaryOf data = Normal raw ->
  extractSiteMetrics (Page.mlWrapperOf data) = Normal m ->
  extractProteinPrediction (Page.mlWrapperOf data) = Normal p ->
  Page.handleAnalyze analyzeSite st = Page.succeeded st data raw m p.
Proof. apply handleAnalyze_completed. Qed.

Lemma handleAnalyze_success_witness :
  Page.hasLocation Page.typedState
  /\ @Page.handleAnalyze integerLiterals Page.zeroPrinters (fun _ => Some fullPayload)
       Page.typedState
     = {| Page.locationText := JSString.lit " Nashik ";
          Page.coordinates := None;
          Page.isLoading := false;
          Page.error := None;
          Page.siteMetrics :=
            Some {| temperature := JSNumber.Fin 28.5; ph := JSNumber.Fin 9.2;
                    radiation := JSNumber.Fin 18; salinity := JSNumber.Fin 3 |};
          Page.proteinPrediction := Some {| level := High; score := JSNumber.Fin 90 |};
          Page.growthSeries :=
            generateGrowthSeriesFromMetrics
              (Some {| temperature := JSNumber.Fin 28.5; ph := JSNumber.Fin 9.2;
                       radiation := JSNumber.Fin 18; salinity := JSNumber.Fin 3 |});
          Page.reportLocationLabel := JStr (JSString.lit "Nashik");
          Page.phdReport := JStr [];
          Page.hasRunAnalysis := true |}.
Proof.
  assert (Hloc : Page.hasLocation Page.typedState) by (left; discriminate).
  split; [exact Hloc|].
  assert (Hprotein : @extractProteinPrediction integerLiterals (Page.mlWrapperOf fullPayload)
                     = Normal (Some {| level := High; score := JSNumber.Fin 90 |})).
  { rewrite extractProteinPrediction_tiers.
    change (prediction <- @confidenceTier integerLiterals
                            [num 0.1; num 0.1; num 0.8; num 0.9] ;;
            ret (Some prediction)
            = Normal (Some {| level := High; score := JSNumber.Fin 90 |})).
    run_tier1.
    replace (0.9 * 100)%R with (IZR 90) by lra.
    rewrite (@round64_integer 90) by lia. cbn [JSNumber.toFixedNumber].
    rewrite roundDecimals_whole by lia. reflexivity. }
  rewrite (@handleAnalyze_success integerLiterals Page.zeroPrinters
             (fun _ => Some fullPayload) Page.typedState fullPayload (JStr [])
             (Some {| temperature := JSNumber.Fin 28.5; ph := JSNumber.Fin 9.2;
                      radiation := JSNumber.Fin 18; salinity := JSNumber.Fin 3 |})
             (Some {| level := High; score := JSNumber.Fin 90 |})
             Hloc eq_refl eq_refl eq_refl Hprotein).
  reflexivity.
Defined.

Lemma wellFormed_kept (st st' : Page.State) :
  Page.siteMetrics st' = Page.siteMetrics st ->
  Page.growthSeries st' = Page.growthSeries st ->
  Page.wellFormed st -> Page.wellFormed st'.
Proof.
  intros Hm Hg [Hseries Hfin]. split.
  - rewrite Hm, Hg. exact Hseries.
  - intros m Hsome. apply Hfin. rewrite <- Hm. exact Hsome.
Qed.

Lemma wellFormed_series (st : Page.State) :
  Page.wellFormed st ->
  length (Page.growthSeries st) = 14%nat
  /\ Forall (fun p => exists x : R,
               doublingTime p = JSNumber.Fin x /\ (1.7 <= x <= 3.6)%R)
            (Page.growthSeries st).
Proof.
  intros [Hseries Hfin]. rewrite Hseries.
  split; [destruct (Page.siteMetrics st); reflexivity|].
  apply Forall_forall. intros p Hp.
  destruct (Page.siteMetrics st) as [m|].
  - destruct (finiteMetrics_readings (Hfin m eq_refl)) as (t & r & Ht & Hr).
    rewrite (generateGrowthSeriesFromMetrics_points m Ht Hr) in Hp.
    apply in_map_iff in Hp. destruct Hp as (idx & <- & _).
    eexists; split; [reflexivity|].
    apply seasonalDoubling_range, clampedBase_range.
  - cbn [generateGrowthSeriesFromMetrics] in Hp.
    rewrite DEFAULT_GROWTH_SERIES_points in Hp.
    apply in_map_iff in Hp. destruct Hp as (idx & <- & _).
    eexists; split; [reflexivity|].
    pose proof (defaultDoubling_range idx). lra.
Qed.

(** X22. The chart never goes wrong.  From the first render on, and
    through every run of [handleAnalyze], whatever the service answers
    and wherever the handler stops, the series on the page is the one of
    the metrics on the page, those metrics are finite when present, and so
    the series has 14 points with doubling times between 1.7 and 3.6. *)
Theorem handleAnalyze_keeps_chart `{Builtins} `{Page.Printers} :
  Page.wellFormed Page.initialState
  /\ (forall analyzeSite st,
        Page.wellFormed st -> Page.wellFormed (Page.handleAnalyze analyzeSite st))
  /\ (forall st, Page.wellFormed st ->
        length (Page.growthSeries st) = 14%nat
        /\ Forall (fun p => exists x : R,
                     doublingTime p = JSNumber.Fin x /\ (1.7 <= x <= 3.6)%R)
                  (Page.growthSeries st)).
Proof.
  split; [|split].
  - split; [reflexivity | intros m Hm; discriminate Hm].
  - intros analyzeSite st Hwf. unfold Page.handleAnalyze. cbv zeta.
    destruct (negb (0 <? length (JSString.trim (Page.locationText st)))%nat
              && negb (Page.isSome (Page.coordinates st))).
    { apply (fun a b => @wellFormed_kept st _ a b Hwf); reflexivity. }
    unfold Page.tryCatchFinally. rewrite analyzeBody_run. cbv zeta.
    destruct (analyzeSite (Page.synthesizedLocation st)) as [data|];
      [|apply (fun a b => @wellFormed_kept st _ a b Hwf); reflexivity].
    destruct (Page.summaryOf data) as [raw|e];
      [|apply (fun a b => @wellFormed_kept st _ a b Hwf); reflexivity].
    destruct (extractSiteMetrics (Page.mlWrapperOf data)) as [m|e] eqn:Hm;
      [|apply (fun a b => @wellFormed_kept st _ a b Hwf); reflexivity].
    destruct (extractProteinPrediction (Page.mlWrapperOf data)) as [p|e];
      [|apply (fun a b => @wellFormed_kept st _ a b Hwf); reflexivity].
    split; [reflexivity|]. cbn. intros m0 Hm0. subst m.
    exact (extractSiteMetrics_finite _ Hm).
  - apply wellFormed_series.
Qed.

Lemma handleAnalyze_reads_wrapper `{Builtins} `{Page.Printers}
    (analyzeSite analyzeSite' : jsstring -> option jsval) (st : Page.State)
    (data data' : jsval) :
  analyzeSite (Page.synthesizedLocation st) = Some data ->
  analyzeSite' (Page.synthesizedLocation st) = Some data' ->
  Page.mlWrapperOf data = Page.mlWrapperOf data' ->
  Page.handleAnalyze analyzeSite st = Page.handleAnalyze analyzeSite' st.
Proof.
  intros Hapi Hapi' Hsame. unfold Page.handleAnalyze. cbv zeta.
  destruct (negb (0 <? length (JSString.trim (Page.locationText st)))%nat
            && negb (Page.isSome (Page.coordinates st))); [reflexivity|].
  unfold Page.tryCatchFinally. rewrite !analyzeBody_run, Hapi, Hapi'. cbv zeta.
  unfold Page.summaryOf. rewrite Hsame. reflexivity.
Qed.

Lemma mlWrapperOf_bare (inner : jsval) :
  isNullish inner = false ->
  isNullish (prop inner (key "analysis")) = true ->
  isNullish (prop inner (key "data")) = true ->
  Page.mlWrapperOf inner = inner.
Proof.
  intros Hinner Ha Hd. unfold Page.mlWrapperOf. cbv zeta.
  assert (E : orDefault inner emptyObject = inner)
    by (unfold orDefault; rewrite Hinner; reflexivity).
  rewrite E. unfold orDefault. rewrite Ha. cbv iota. rewrite Hd. reflexivity.
Qed.

Lemma prop_not_nullish_object (v : jsval) (k : jsstring) :
  isNullish (prop v k) = false -> isNullish v = false.
Proof. destruct v; simpl; intros E; try discriminate; reflexivity. Qed.

Lemma mlWrapperOf_wrapped (response inner : jsval) :
  isNullish inner = false ->
  (prop response (key "analysis") = inner
   \/ (isNullish (prop response (key "analysis")) = true
       /\ prop response (key "data") = inner)) ->
  Page.mlWrapperOf response = inner.
Proof.
  intros Hinner Hwrap. unfold Page.mlWrapperOf. cbv zeta.
  assert (Hresp : isNullish response = false).
  { destruct Hwrap as [Ha | [_ Hd]].
    - apply (prop_not_nullish_object response (key "analysis")). rewrite Ha. exact Hinner.
    - apply (prop_not_nullish_object response (key "data")). rewrite Hd. exact Hinner. }
  assert (E : orDefault response emptyObject = response)
    by (unfold orDefault; rewrite Hresp; reflexivity).
  rewrite E. destruct Hwrap as [Ha | [Ha Hd]].
  - rewrite Ha. unfold orDefault. rewrite Hinner. cbv iota. rewrite Hinner. reflexivity.
  - rewrite Hd. unfold orDefault. rewrite Ha. cbv iota. rewrite Hinner. reflexivity.
Qed.

(** X23. The response may come wrapped: a response that holds the analysis
    under [analysis], or (with no [analysis]) under [data], leaves the
    page in the same state as the analysis sent bare (the analysis being
    an actual value without [analysis] and [data] entries of its own). *)
Theorem response_wrappers `{Builtins} `{Page.Printers}
    (analyzeSite analyzeSite' : jsstring -> option jsval) (st : Page.State)
    (response inner : jsval) :
  isNullish inner = false ->
  isNullish (prop inner (key "analysis")) = true ->
  isNullish (prop inner (key "data")) = true ->
  (prop response (key "analysis") = inner
   \/ (isNullish (prop response (key "analysis")) = true
       /\ prop response (key "data") = inner)) ->
  analyzeSite (Page.synthesizedLocation st) = Some response ->
  analyzeSite' (Page.synthesizedLocation st) = Some inner ->
  Page.handleAnalyze analyzeSite st = Page.handleAnalyze analyzeSite' st.
Proof.
  intros Hinner Ha Hd Hwrap Hapi Hapi'.
  apply (handleAnalyze_reads_wrapper _ _ _ Hapi Hapi').
  rewrite (mlWrapperOf_wrapped response Hinner Hwrap), (mlWrapperOf_bare inner Hinner Ha Hd).
  reflexivity.
Qed.

Lemma response_wrappers_witness :
  @Page.handleAnalyze integerLiterals Page.zeroPrinters
    (fun _ => Some (obj [("data", partialPayload)]%string)) Page.typedState
  = @Page.handleAnalyze integerLiterals Page.zeroPrinters
      (fun _ => Some partialPayload) Page.typedState.
Proof.
  apply (@response_wrappers integerLiterals Page.zeroPrinters _ _ Page.typedState
           (obj [("data", partialPayload)]%string) partialPayload);
    try reflexivity.
  right. split; reflexivity.
Defined.
(** The label and the report text are what the response sends.  After an
    analysis whose response gives [location] as the number 7, the download
    of the report raises and saves nothing. *)
Example download_after_numeric_location :
  handleDownloadReport
    (reportStateOf
       (@Page.handleAnalyze integerLiterals Page.zeroPrinters
          (fun _ => Some (obj [("location", num 7);
                               ("formatted_text", JArr [str "Site is suitable."])]%string))
          Page.typedState))
  = Throw TypeError.
Proof.
  rewrite (@handleAnalyze_completed integerLiterals Page.zeroPrinters _ Page.typedState
             (obj [("location", num 7);
                   ("formatted_text", JArr [str "Site is suitable."])]%string)
             (JStr (JSString.lit "Site is suitable.")) None None);
    [| left; discriminate | reflexivity | reflexivity | reflexivity | reflexivity].
  rewrite handleDownloadReport_cases.
  change (name <- reportFileNameOf
                    (locationLabelOf
                       {| reportLocationLabel := num 7;
                          locationText := JSString.lit " Nashik ";
                          phdReport := JStr (JSString.lit "Site is suitable.") |}) ;;
          ret (Some name) = Throw TypeError).
  unfold locationLabelOf. cbn [reportLocationLabel ToBoolean num JSNumber.truthy].
  rewrite Reqb_false by lra. reflexivity.
Qed.

